(** * Task management system: the task query / update / history subsystem

    A shallow embedding of [app/models.py], [app/schemas.py] and
    [app/routers/tasks.py], and the properties of the filter engine, the
    mutation service, the tag resolver and the dependency manager.

    Conventions of the embedding.
    - Python [int] is [Z]; a Python [str] is a [string] whose characters are
      code points below 256.
    - A table is the list of its rows in storage order. No query of
      [tasks.py] has an ORDER BY: the rows of [all()] and of a loaded
      collection come in the order the store picks for the statement, which
      the database carries as [answers_before]. [first()] is used on keys
      that select at most one row (a primary key, the unique [Tag.name]),
      or to test whether a row exists (the pair of a dependency).
    - An ORM collection ([Task.assignees], [Task.tags]) is kept on the row as
      the list of referenced primary keys (its association rows); loading
      the collection returns each referenced row once.
    - The store is SQLite: [lower()] and [LIKE] fold the letters A-Z only,
      a negative LIMIT is no limit and a negative OFFSET is 0.
    - [datetime.utcnow] is read anew for every timestamp that is written; a
      clock gives the reading for each column of each row.
    - A request handler is a computation over a session (the transaction's
      view of the database, the durable database behind it, the clock);
      [raise] leaves the handler, and whatever was not committed is lost. *)

From Stdlib Require Import ZArith NArith List String Ascii Bool Lia DecimalString.
From Stdlib Require Import Permutation Sorted.
Import ListNotations.
Local Open Scope string_scope.
Local Open Scope list_scope.
Local Open Scope Z_scope.

(* ===================================================================== *)
(** ** Python and SQL primitives used by the handlers *)
(* ===================================================================== *)

Module Py.

(** [str.lower()] on code points below 256: A-Z and the Latin-1 capitals
    (U+00C0 .. U+00DE, without the multiplication sign U+00D7). *)
Definition lower_char (c : ascii) : ascii :=
  let n := N_of_ascii c in
  if ((65 <=? n) && (n <=? 90))%N
     || ((192 <=? n) && (n <=? 222) && negb (n =? 215))%N
  then ascii_of_N (n + 32) else c.

Fixpoint lower (s : string) : string :=
  match s with
  | EmptyString => EmptyString
  | String c s' => String (lower_char c) (lower s')
  end.

(** [str(n)] for an [int]. *)
Definition str_int (n : Z) : string := NilZero.string_of_int (Z.to_int n).

(** [sep.join(l)]. *)
Fixpoint join (sep : string) (l : list string) : string :=
  match l with
  | [] => ""
  | x :: r => match r with
              | [] => x
              | _ :: _ => (x ++ sep ++ join sep r)%string
              end
  end.

(** [x in l] for a list of ints, and for a list of strings. *)
Definition mem (x : Z) (l : list Z) : bool := existsb (Z.eqb x) l.
Definition mem_str (x : string) (l : list string) : bool :=
  existsb (String.eqb x) l.

(** Truth value of a string ([if value:]). *)
Definition truthy_str (s : string) : bool := negb (String.eqb s "").



End Py.

(** Calendar dates and timestamps ([datetime.date], [datetime.datetime]):
    compared field by field, as Python and SQL order them. *)
Record date := mkdate { year : Z; month : Z; day : Z }.

Definition date_ltb (a b : date) : bool :=
  (year a <? year b)
  || ((year a =? year b)
      && ((month a <? month b)
          || ((month a =? month b) && (day a <? day b)))).

Definition date_eqb (a b : date) : bool :=
  (year a =? year b) && (month a =? month b) && (day a =? day b).

Definition date_leb (a b : date) : bool := date_ltb a b || date_eqb a b.

(** A timestamp is a date and the microseconds elapsed since midnight. *)
Record datetime := mkdatetime { dt_date : date; dt_micros : Z }.

Definition datetime_leb (a b : datetime) : bool :=
  date_ltb (dt_date a) (dt_date b)
  || (date_eqb (dt_date a) (dt_date b) && (dt_micros a <=? dt_micros b)).

(** [datetime.combine(d, datetime.min.time())] and
    [datetime.combine(d, datetime.max.time())] (23:59:59.999999). *)
Definition combine_min (d : date) : datetime := mkdatetime d 0.
Definition combine_max (d : date) : datetime := mkdatetime d 86399999999.

(** [datetime.utcnow]. The handlers call it for [completed_at]; the column
    defaults of [models.py] ([default=datetime.utcnow],
    [onupdate=datetime.utcnow]) call it when a row is inserted or updated,
    once for each column. A clock gives the reading that goes into a column
    of the row with a given primary key; two readings need not agree. *)
Module Clock.
Inductive column :=
| tasks_created_at
| tasks_updated_at
| tasks_completed_at
| tags_created_at
| task_dependencies_created_at
| task_history_timestamp.

Definition t : Type := column -> Z -> datetime.
End Clock.

(** [str(d)] for a date: ISO format, zero padded. *)
Definition pad (width : nat) (s : string) : string :=
  let fix zeros (n : nat) : string :=
    match n with O => "" | S n' => String "0" (zeros n') end in
  (zeros (width - String.length s)%nat ++ s)%string.

Definition str_date (d : date) : string :=
  (pad 4 (Py.str_int (year d)) ++ "-" ++ pad 2 (Py.str_int (month d))
   ++ "-" ++ pad 2 (Py.str_int (day d)))%string.

Module Sql.

(** SQL's three truth values; a row is selected when its WHERE clause is
    [STrue]. *)
Inductive sqlbool := STrue | SFalse | SNull.

Definition of_bool (b : bool) : sqlbool := if b then STrue else SFalse.

Definition is_true (v : sqlbool) : bool :=
  match v with STrue => true | _ => false end.

Definition and2 (a b : sqlbool) : sqlbool :=
  match a, b with
  | SFalse, _ | _, SFalse => SFalse
  | STrue, STrue => STrue
  | _, _ => SNull
  end.

Definition or2 (a b : sqlbool) : sqlbool :=
  match a, b with
  | STrue, _ | _, STrue => STrue
  | SFalse, SFalse => SFalse
  | _, _ => SNull
  end.

(** A comparison with a nullable column. *)
Definition cmp {A} (f : A -> bool) (col : option A) : sqlbool :=
  match col with
  | None => SNull
  | Some v => of_bool (f v)
  end.

(** [LIKE]: [%] matches any run of characters, [_] any one character,
    every other character itself (no ESCAPE clause). The pattern is the
    first argument. *)
Fixpoint like (p : string) : string -> bool :=
  match p with
  | EmptyString =>
      fun s => match s with EmptyString => true | String _ _ => false end
  | String c p' =>
      if Ascii.eqb c "%" then
        fix any (s : string) : bool :=
          like p' s
          || match s with
             | EmptyString => false
             | String _ s' => any s'
             end
      else if Ascii.eqb c "_" then
        fun s => match s with
                 | EmptyString => false
                 | String _ s' => like p' s'
                 end
      else
        fun s => match s with
                 | EmptyString => false
                 | String d s' => Ascii.eqb c d && like p' s'
                 end
  end.

(** [lower()] of the store: the letters A-Z are folded, every other
    character is kept. *)
Definition lower_char (c : ascii) : ascii :=
  let n := N_of_ascii c in
  if ((65 <=? n) && (n <=? 90))%N then ascii_of_N (n + 32) else c.

Fixpoint lower (s : string) : string :=
  match s with
  | EmptyString => EmptyString
  | String c s' => String (lower_char c) (lower s')
  end.

(** [col.ilike(pattern)]: [lower(col) LIKE lower(pattern)]. *)
Definition ilike (col pattern : string) : bool :=
  like (lower pattern) (lower col).

(** [LIMIT limit OFFSET offset] over the rows of a result: a negative
    offset skips nothing, a negative limit keeps every row. *)
Definition page {A} (offset limit : Z) (rows : list A) : list A :=
  let rest := skipn (Z.to_nat offset) rows in
  if limit <? 0 then rest else firstn (Z.to_nat limit) rest.

End Sql.

(* ===================================================================== *)
(** ** app/models.py *)
(* ===================================================================== *)

Inductive UserRole := ADMIN | MANAGER | MEMBER.

Inductive TaskStatus := TODO | IN_PROGRESS | IN_REVIEW | COMPLETED | BLOCKED.

Inductive TaskPriority := LOW | MEDIUM | HIGH | CRITICAL.

Definition TaskStatus_eqb (a b : TaskStatus) : bool :=
  match a, b with
  | TODO, TODO | IN_PROGRESS, IN_PROGRESS | IN_REVIEW, IN_REVIEW
  | COMPLETED, COMPLETED | BLOCKED, BLOCKED => true
  | _, _ => false
  end.

Definition TaskPriority_eqb (a b : TaskPriority) : bool :=
  match a, b with
  | LOW, LOW | MEDIUM, MEDIUM | HIGH, HIGH | CRITICAL, CRITICAL => true
  | _, _ => false
  end.

(** [member.value] and [str(member)] of the two [str, enum.Enum] classes. *)
Definition TaskStatus_value (s : TaskStatus) : string :=
  match s with
  | TODO => "todo"
  | IN_PROGRESS => "in_progress"
  | IN_REVIEW => "in_review"
  | COMPLETED => "completed"
  | BLOCKED => "blocked"
  end.

Definition TaskStatus_str (s : TaskStatus) : string :=
  match s with
  | TODO => "TaskStatus.TODO"
  | IN_PROGRESS => "TaskStatus.IN_PROGRESS"
  | IN_REVIEW => "TaskStatus.IN_REVIEW"
  | COMPLETED => "TaskStatus.COMPLETED"
  | BLOCKED => "TaskStatus.BLOCKED"
  end.

Definition TaskPriority_value (p : TaskPriority) : string :=
  match p with
  | LOW => "low"
  | MEDIUM => "medium"
  | HIGH => "high"
  | CRITICAL => "critical"
  end.

Definition TaskPriority_str (p : TaskPriority) : string :=
  match p with
  | LOW => "TaskPriority.LOW"
  | MEDIUM => "TaskPriority.MEDIUM"
  | HIGH => "TaskPriority.HIGH"
  | CRITICAL => "TaskPriority.CRITICAL"
  end.

Module User.
Record t := mk {
  id : Z;
  username : string;
  role : UserRole
}.
End User.

Module Tag.
Record t := mk {
  id : Z;
  name : string;
  created_at : datetime
}.
End Tag.

Module Task.
Record t := mk {
  id : Z;
  title : string;
  description : option string;
  status : TaskStatus;
  priority : TaskPriority;
  due_date : option date;
  creator_id : Z;
  parent_task_id : option Z;
  created_at : datetime;
  updated_at : datetime;
  completed_at : option datetime;
  (* relationships through task_assignees and task_tags *)
  assignees : list Z;
  tags : list Z
}.
End Task.

Module TaskDependency.
Record t := mk {
  id : Z;
  blocking_task_id : Z;
  blocked_task_id : Z;
  created_at : datetime
}.
End TaskDependency.

Module TaskHistory.
Record t := mk {
  id : Z;
  task_id : Z;
  user_id : Z;
  action : string;
  field_name : option string;
  old_value : option string;
  new_value : option string;
  timestamp : datetime
}.
End TaskHistory.

(** A condition of a WHERE clause over [tasks], as a function of the
    row. *)
Definition condition : Type := Task.t -> Sql.sqlbool.

(** The statements of [tasks.py] that can answer several rows: the queries
    ended by [all()] and the loads of the collections of a task. *)
Inductive statement :=
| select_tasks (where_clause : option condition)
| select_tasks_in (ids : list Z)
| select_users_in (ids : list Z)
| load_assignees (task_id : Z)
| load_tags (task_id : Z)
| load_subtasks (task_id : Z)
| load_blocking_tasks (task_id : Z)
| load_blocked_by_tasks (task_id : Z).

(** The order of a result set. None of the statements has an ORDER BY, so
    the store answers the rows in the order of the access path it picks (a
    table in storage order, an index in the order of the indexed column),
    which depends on the statement and on what is stored.
    [before q users tasks tags dependencies k k'] tells whether, for
    statement [q] over these tables, the row with primary key [k] is
    answered before the row with primary key [k']. *)
Definition row_order : Type :=
  statement -> list User.t -> list Task.t -> list Tag.t
  -> list TaskDependency.t -> Z -> Z -> bool.

(** The database: one list of rows per table, and the order in which the
    store answers. *)
Record DB := mkDB {
  users : list User.t;
  tasks : list Task.t;
  tags : list Tag.t;
  task_dependencies : list TaskDependency.t;
  task_history : list TaskHistory.t;
  answers_before : row_order
}.

Module Store.

(** The rows put in the order of [before]: each row is placed in front of
    the first row it goes before. Whatever [before] is, the result holds
    the same rows. *)
Fixpoint place {A} (before : A -> A -> bool) (x : A) (l : list A) : list A :=
  match l with
  | [] => [x]
  | y :: r => if before x y then x :: y :: r else y :: place before x r
  end.

Definition arrange {A} (before : A -> A -> bool) (rows : list A) : list A :=
  fold_right (place before) [] rows.

(** The rows that satisfy statement [q], as the store answers them. *)
Definition answer {A} (db : DB) (q : statement) (key : A -> Z)
    (rows : list A) : list A :=
  arrange (fun a b => answers_before db q (users db) (tasks db) (tags db)
                                     (task_dependencies db) (key a) (key b))
          rows.

End Store.

(** The primary key the store gives the next inserted row: one more than
    the largest key of the table. *)
Definition next_id (ids : list Z) : Z := 1 + fold_right Z.max 0 ids.

(** [task.assignees] and [task.tags] read from the database (the rows an
    association row of the task refers to, each once), and [task.subtasks]
    (the backref of [parent_task]). *)
Definition Task_assignees (db : DB) (t : Task.t) : list User.t :=
  Store.answer db (load_assignees (Task.id t)) User.id
    (filter (fun u => Py.mem (User.id u) (Task.assignees t)) (users db)).

Definition Task_tags (db : DB) (t : Task.t) : list Tag.t :=
  Store.answer db (load_tags (Task.id t)) Tag.id
    (filter (fun g => Py.mem (Tag.id g) (Task.tags t)) (tags db)).

Definition Task_subtasks (db : DB) (t : Task.t) : list Task.t :=
  Store.answer db (load_subtasks (Task.id t)) Task.id
    (filter (fun c => match Task.parent_task_id c with
                      | Some p => p =? Task.id t
                      | None => false
                      end) (tasks db)).

(* ===================================================================== *)
(** ** app/schemas.py *)
(* ===================================================================== *)

Module TaskCreate.
Record t := mk {
  title : string;
  description : option string;
  status : TaskStatus;
  priority : TaskPriority;
  due_date : option date;
  assignee_ids : option (list Z);
  tag_names : option (list string);
  parent_task_id : option Z
}.

(** [validate_parent_task_id]: 0 is not a valid id. *)
Definition validate_parent_task_id (v : option Z) : option Z :=
  match v with
  | Some 0 => None
  | _ => v
  end.

(** The model after its field validators ran. *)
Definition validate (r : t) : t :=
  mk (title r) (description r) (status r) (priority r) (due_date r)
     (assignee_ids r) (tag_names r)
     (validate_parent_task_id (parent_task_id r)).
End TaskCreate.

(** A field of a partial update: left out of the request ([Unset]), or
    present with a value that may be [null]. [model_dump(exclude_unset=True)]
    keeps exactly the present ones, in the order of the class. *)
Inductive field (A : Type) := Unset | Present (v : option A).
Arguments Unset {A}.
Arguments Present {A} v.

Module TaskUpdate.
Record t := mk {
  title : field string;
  description : field string;
  status : field TaskStatus;
  priority : field TaskPriority;
  due_date : field date;
  assignee_ids : field (list Z);
  tag_names : field (list string)
}.
End TaskUpdate.

Module TaskBulkUpdate.
Record t := mk {
  task_ids : list Z;
  status : field TaskStatus;
  priority : field TaskPriority;
  assignee_ids : field (list Z);
  tag_names : field (list string)
}.
End TaskBulkUpdate.

Module TaskDependencyCreate.
Record t := mk { blocking_task_id : Z }.
End TaskDependencyCreate.

Module TaskFilter.
Record t := mk {
  status : option (list TaskStatus);
  priority : option (list TaskPriority);
  assignee_ids : option (list Z);
  creator_ids : option (list Z);
  tag_names : option (list string);
  due_date_from : option date;
  due_date_to : option date;
  created_from : option date;
  created_to : option date;
  search : option string;
  is_overdue : option bool;
  has_subtasks : option bool;
  parent_task_id : option Z;
  logic_operator : string
}.

(** [validate_parent_task_id]: 0 is not a valid id. *)
Definition validate_parent_task_id (v : option Z) : option Z :=
  match v with
  | Some 0 => None
  | _ => v
  end.

(** [validate_operator]: [None] stands for the [ValueError]. *)
Definition validate_operator (v : string) : option string :=
  if Py.mem_str v ["AND"; "OR"] then Some v else None.

(** The model after its field validators ran; [None] when one raised. *)
Definition validate (r : t) : option t :=
  match validate_operator (logic_operator r) with
  | None => None
  | Some op =>
      Some (mk (status r) (priority r) (assignee_ids r) (creator_ids r)
               (tag_names r) (due_date_from r) (due_date_to r)
               (created_from r) (created_to r) (search r) (is_overdue r)
               (has_subtasks r)
               (validate_parent_task_id (parent_task_id r)) op)
  end.

(** The request with every field at its default. *)
Definition default : t :=
  mk None None None None None None None None None None None None None "AND".
End TaskFilter.

(* ===================================================================== *)
(** ** The session *)
(* ===================================================================== *)

(** What a handler can raise: FastAPI's [HTTPException], and the two errors
    of the persistence layer (a violated constraint, a lost connection),
    which the framework answers with status 500. *)
Inductive Exception :=
| HTTPException (status_code : Z) (detail : string)
| IntegrityError
| OperationalError.

Inductive Result (A : Type) :=
| Ok (a : A)
| Raise (e : Exception).
Arguments Ok {A} a.
Arguments Raise {A} e.

(** The session of one request ([app.database] is configured without
    autoflush, as the handlers call [flush] themselves where they need a
    key).
    - [stored]: the durable database, changed by [commit] alone;
    - [view]: the database as the open transaction sees it;
    - [null_pending]: an object of the session holds [None] in a column
      declared [nullable=False]; the next flush fails on it;
    - [utcnow]: the clock;
    - [commits_left]: how many commits the store still accepts before the
      connection is lost ([None]: it is never lost). *)
Record Session := mkSession {
  stored : DB;
  view : DB;
  null_pending : bool;
  utcnow : Clock.t;
  commits_left : option nat
}.

Definition M (A : Type) : Type := Session -> Result A * Session.

Definition ret {A} (a : A) : M A := fun s => (Ok a, s).

Definition bind {A B} (m : M A) (k : A -> M B) : M B :=
  fun s => match m s with
           | (Ok a, s') => k a s'
           | (Raise e, s') => (Raise e, s')
           end.

Definition raise {A} (e : Exception) : M A := fun s => (Raise e, s).

Notation "x <- m ;; k" := (bind m (fun x => k))
  (at level 61, m at next level, right associativity).
Notation "m ;;; k" := (bind m (fun _ => k))
  (at level 61, right associativity).

Definition query : M DB := fun s => (Ok (view s), s).

(** [datetime.utcnow()], read for column [c] of the row with key [key]. *)
Definition now (c : Clock.column) (key : Z) : M datetime :=
  fun s => (Ok (utcnow s c key), s).

(** The clock itself, for the timestamps a flush writes into several
    rows. *)
Definition readings : M Clock.t := fun s => (Ok (utcnow s), s).

Definition set_view (db : DB) : M unit :=
  fun s => (Ok tt, mkSession (stored s) db (null_pending s) (utcnow s)
                             (commits_left s)).

Definition set_null_pending : M unit :=
  fun s => (Ok tt, mkSession (stored s) (view s) true (utcnow s)
                             (commits_left s)).

(** Modelled from the spec: [app/database.py] (the session factory and
    [get_db]) is not part of the sources. A flush sends the pending changes
    to the store, which refuses a [NULL] in a [nullable=False] column; a
    commit flushes and makes the view durable; a failure of the persistence
    layer rolls the transaction back. *)
Definition rollback (s : Session) : Session :=
  mkSession (stored s) (stored s) false (utcnow s) (commits_left s).

(** Modelled from the spec: the flush of the session of [app/database.py]
    (not part of the sources); it fails on a pending [NULL] in a
    [nullable=False] column. *)
Definition flush : M unit :=
  fun s => if null_pending s then (Raise IntegrityError, rollback s)
           else (Ok tt, s).

(** Modelled from the spec: the commit of the session of [app/database.py]
    (not part of the sources); it flushes, and fails when the connection is
    lost; otherwise the view becomes the durable database. *)
Definition commit : M unit :=
  fun s =>
    if null_pending s then (Raise IntegrityError, rollback s)
    else match commits_left s with
         | Some O => (Raise OperationalError, rollback s)
         | Some (S n) =>
             (Ok tt, mkSession (view s) (view s) false (utcnow s) (Some n))
         | None =>
             (Ok tt, mkSession (view s) (view s) false (utcnow s) None)
         end.

(** Modelled from the spec: [get_db] of [app/database.py] is not part of
    the sources. One request: the handler runs in a fresh session over the
    database; the session is closed when it returns or raises, so only what
    was committed stays. The result is the handler's answer and the
    database the next request finds. *)
Definition serve {A} (handler : M A) (clock : Clock.t)
    (healthy : option nat) (db : DB) : Result A * DB :=
  let (r, s) := handler (mkSession db db false clock healthy) in
  (r, stored s).

(** [for x in l: body x] *)
Fixpoint for_each {A} (l : list A) (body : A -> M unit) : M unit :=
  match l with
  | [] => ret tt
  | x :: r => body x ;;; for_each r body
  end.

(** Writing a row of [tasks] back: the session keeps one object per key. *)
Definition replace_task (t : Task.t) (db : DB) : DB :=
  mkDB (users db)
       (map (fun r => if Task.id r =? Task.id t then t else r) (tasks db))
       (tags db) (task_dependencies db) (task_history db)
       (answers_before db).

Definition find_task (task_id : Z) (db : DB) : option Task.t :=
  hd_error (filter (fun t => Task.id t =? task_id) (tasks db)).

(* ===================================================================== *)
(** ** [json.dumps] *)
(* ===================================================================== *)

#[local] Set Warnings "-register-all".

Inductive json :=
| JNull
| JString (s : string)
| JList (l : list json)
| JDict (items : list (string * json)).

Definition quote_char : ascii := ascii_of_N 34.
Definition backslash : ascii := ascii_of_N 92.

Definition hex_digit (n : N) : ascii :=
  (if n <? 10 then ascii_of_N (48 + n) else ascii_of_N (87 + n))%N.

(** One character of a string literal, with [ensure_ascii] on: the quote
    and the backslash are escaped, and so is whatever lies outside
    [' ' .. '~']. *)
Definition json_escape_char (c : ascii) : string :=
  let n := N_of_ascii c in
  let esc (x : ascii) := String backslash (String x "") in
  if (n =? 34)%N then esc quote_char
  else if (n =? 92)%N then esc backslash
  else if (n =? 10)%N then esc "n"%char
  else if (n =? 13)%N then esc "r"%char
  else if (n =? 9)%N then esc "t"%char
  else if (n =? 8)%N then esc "b"%char
  else if (n =? 12)%N then esc "f"%char
  else if ((32 <=? n) && (n <=? 126))%N then String c ""
  else String backslash
         (String "u"%char (String "0"%char (String "0"%char
            (String (hex_digit (n / 16)) (String (hex_digit (n mod 16)) ""))))).

Fixpoint json_escape (s : string) : string :=
  match s with
  | EmptyString => ""
  | String c s' => (json_escape_char c ++ json_escape s')%string
  end.

Definition json_quote (s : string) : string :=
  String quote_char (json_escape s ++ String quote_char "")%string.

(** [json.dumps] with its default separators. *)
Fixpoint json_dumps (j : json) : string :=
  match j with
  | JNull => "null"
  | JString s => json_quote s
  | JList l =>
      ("[" ++ (fix elems (l : list json) : string :=
                 match l with
                 | [] => ""
                 | x :: r => json_dumps x
                             ++ match r with
                                | [] => ""
                                | _ :: _ => ", " ++ elems r
                                end
                 end) l ++ "]")%string
  | JDict items =>
      ("{" ++ (fix members (l : list (string * json)) : string :=
                 match l with
                 | [] => ""
                 | (k, v) :: r => json_quote k ++ ": " ++ json_dumps v
                                  ++ match r with
                                     | [] => ""
                                     | _ :: _ => ", " ++ members r
                                     end
                 end) items ++ "}")%string
  end.

(* ===================================================================== *)
(** ** app/routers/tasks.py *)
(* ===================================================================== *)

Definition with_task_history (h : list TaskHistory.t) (db : DB) : DB :=
  mkDB (users db) (tasks db) (tags db) (task_dependencies db) h
       (answers_before db).

Definition with_tags (g : list Tag.t) (db : DB) : DB :=
  mkDB (users db) (tasks db) g (task_dependencies db) (task_history db)
       (answers_before db).

Definition with_tasks (t : list Task.t) (db : DB) : DB :=
  mkDB (users db) t (tags db) (task_dependencies db) (task_history db)
       (answers_before db).

Definition with_task_dependencies (d : list TaskDependency.t) (db : DB) : DB :=
  mkDB (users db) (tasks db) (tags db) d (task_history db)
       (answers_before db).

(** [log_task_history]: one more row of [task_history], added to the
    session (stored with the transaction that is open). *)
Definition log_task_history (task_id user_id : Z) (action : string)
    (field_name old_value new_value : option string) : M unit :=
  db <- query ;;
  let key := next_id (map TaskHistory.id (task_history db)) in
  ts <- now Clock.task_history_timestamp key ;;
  let history :=
    TaskHistory.mk key task_id user_id action field_name old_value new_value
                   ts in
  set_view (with_task_history (task_history db ++ [history]) db).

(** [get_or_create_tag] *)
Definition get_or_create_tag (tag_name : string) : M Tag.t :=
  db <- query ;;
  match hd_error (filter (fun g => String.eqb (Tag.name g) (Py.lower tag_name))
                         (tags db)) with
  | Some tag => ret tag
  | None =>
      let key := next_id (map Tag.id (tags db)) in
      ts <- now Clock.tags_created_at key ;;
      let tag := Tag.mk key (Py.lower tag_name) ts in
      set_view (with_tags (tags db ++ [tag]) db) ;;;
      flush ;;;
      ret tag
  end.

(** [for tag_name in names: tag = get_or_create_tag(db, tag_name);
    collection.append(tag)] *)
Fixpoint append_tags (names : list string) (collection : list Tag.t)
  : M (list Tag.t) :=
  match names with
  | [] => ret collection
  | tag_name :: rest =>
      tag <- get_or_create_tag tag_name ;;
      append_tags rest (collection ++ [tag])
  end.

(** [db.query(User).filter(User.id.in_(ids)).all()] *)
Definition users_in (ids : list Z) (db : DB) : list User.t :=
  Store.answer db (select_users_in ids) User.id
    (filter (fun u => Py.mem (User.id u) ids) (users db)).

(** [db.query(Task).filter(Task.id.in_(ids)).all()] *)
Definition tasks_in (ids : list Z) (db : DB) : list Task.t :=
  Store.answer db (select_tasks_in ids) Task.id
    (filter (fun t => Py.mem (Task.id t) ids) (tasks db)).

(** The snapshot [create_task] logs. *)
Definition initial_state (db : DB) (db_task : Task.t) : json :=
  JDict [ ("title", JString (Task.title db_task));
          ("status", JString (TaskStatus_value (Task.status db_task)));
          ("priority", JString (TaskPriority_value (Task.priority db_task)));
          ("due_date", match Task.due_date db_task with
                       | Some d => JString (str_date d)
                       | None => JNull
                       end);
          ("assignees", JList (map (fun u => JString (User.username u))
                                   (Task_assignees db db_task)));
          ("tags", JList (map (fun g => JString (Tag.name g))
                              (Task_tags db db_task))) ].

(** [create_task], given the [TaskCreate] that FastAPI built from the
    request body (see [post_task]); the answer is the task and its
    [subtask_count]. *)
Definition create_task (task : TaskCreate.t) (current_user : User.t)
  : M (Task.t * nat) :=
  (* Validate parent task exists if specified *)
  match TaskCreate.parent_task_id task with
  | Some p =>
      if p =? 0 then ret tt
      else db <- query ;;
           match find_task p db with
           | Some _ => ret tt
           | None => raise (HTTPException 404 "Parent task not found")
           end
  | None => ret tt
  end ;;;
  (* Add assignees *)
  assignees <-
    match TaskCreate.assignee_ids task with
    | Some (i :: ids) =>
        db <- query ;;
        let found := users_in (i :: ids) db in
        if Nat.eqb (List.length found) (List.length (i :: ids)) then ret found
        else raise (HTTPException 400 "One or more assignees not found")
    | _ => ret []
    end ;;
  (* Add tags *)
  task_tags <-
    match TaskCreate.tag_names task with
    | Some (n :: names) => append_tags (n :: names) []
    | _ => ret []
    end ;;
  db <- query ;;
  let key := next_id (map Task.id (tasks db)) in
  created_at <- now Clock.tasks_created_at key ;;
  updated_at <- now Clock.tasks_updated_at key ;;
  let db_task :=
    Task.mk key
            (TaskCreate.title task) (TaskCreate.description task)
            (TaskCreate.status task) (TaskCreate.priority task)
            (TaskCreate.due_date task) (User.id current_user)
            (TaskCreate.parent_task_id task) created_at updated_at None
            (map User.id assignees) (map Tag.id task_tags) in
  set_view (with_tasks (tasks db ++ [db_task]) db) ;;;
  commit ;;;
  (* Log history with initial task details *)
  db <- query ;;
  log_task_history (Task.id db_task) (User.id current_user) "created"
                   (Some "initial_state") None
                   (Some (json_dumps (initial_state db db_task))) ;;;
  commit ;;;
  (* Add subtask count *)
  db <- query ;;
  ret (db_task, List.length (Task_subtasks db db_task)).


(** *** [filter_tasks] *)

Definition status_in (l : list TaskStatus) : condition :=
  fun t => Sql.of_bool (existsb (TaskStatus_eqb (Task.status t)) l).

Definition priority_in (l : list TaskPriority) : condition :=
  fun t => Sql.of_bool (existsb (TaskPriority_eqb (Task.priority t)) l).

Definition creator_in (ids : list Z) : condition :=
  fun t => Sql.of_bool (Py.mem (Task.creator_id t) ids).

(** [Task.assignees.any(User.id.in_(ids))]: an association row of the task
    joins a user whose id is listed. *)
Definition any_assignee_in (db : DB) (ids : list Z) : condition :=
  fun t => Sql.of_bool
    (existsb (fun uid =>
                existsb (fun u => (User.id u =? uid) && Py.mem (User.id u) ids)
                        (users db))
             (Task.assignees t)).

(** [Task.tags.any(Tag.name.in_(names))] *)
Definition any_tag_in (db : DB) (names : list string) : condition :=
  fun t => Sql.of_bool
    (existsb (fun tid =>
                existsb (fun g => (Tag.id g =? tid)
                                  && Py.mem_str (Tag.name g) names)
                        (tags db))
             (Task.tags t)).

Definition due_date_ge (d : date) : condition :=
  fun t => Sql.cmp (fun due => date_leb d due) (Task.due_date t).

Definition due_date_le (d : date) : condition :=
  fun t => Sql.cmp (fun due => date_leb due d) (Task.due_date t).

Definition created_at_ge (d : datetime) : condition :=
  fun t => Sql.of_bool (datetime_leb d (Task.created_at t)).

Definition created_at_le (d : datetime) : condition :=
  fun t => Sql.of_bool (datetime_leb (Task.created_at t) d).

(** [or_(Task.title.ilike(p), Task.description.ilike(p))] with
    [p = f"%{search}%"]. *)
Definition search_pattern (search : string) : string :=
  ("%" ++ search ++ "%")%string.

Definition search_condition (search : string) : condition :=
  fun t => Sql.or2
    (Sql.of_bool (Sql.ilike (Task.title t) (search_pattern search)))
    (Sql.cmp (fun d => Sql.ilike d (search_pattern search))
             (Task.description t)).

(** [and_(Task.due_date < today, Task.status != TaskStatus.COMPLETED)] *)
Definition overdue_condition (today : date) : condition :=
  fun t => Sql.and2
    (Sql.cmp (fun due => date_ltb due today) (Task.due_date t))
    (Sql.of_bool (negb (TaskStatus_eqb (Task.status t) COMPLETED))).

(** [Task.id.in_(subquery)] where the subquery selects [Task.id] of the
    rows with [parent_task_id IS NOT NULL]. *)
Definition id_in_tasks_with_parent (db : DB) : condition :=
  fun t => Sql.of_bool
    (Py.mem (Task.id t)
            (map Task.id
                 (filter (fun r => match Task.parent_task_id r with
                                   | Some _ => true
                                   | None => false
                                   end) (tasks db)))).

(** [Task.parent_task_id.is_(None)] *)
Definition parent_is_null : condition :=
  fun t => Sql.of_bool (match Task.parent_task_id t with
                        | None => true
                        | Some _ => false
                        end).

(** [Task.parent_task_id == v] *)
Definition parent_eq (v : Z) : condition :=
  fun t => Sql.cmp (fun p => p =? v) (Task.parent_task_id t).

(** The list [conditions] the handler builds, in the order of its
    [append]s. *)
Definition conditions (filters : TaskFilter.t) (today : date) (db : DB)
  : list condition :=
  (* Status filter *)
  match TaskFilter.status filters with
  | Some (x :: l) => [status_in (x :: l)]
  | _ => []
  end
  (* Priority filter *)
  ++ match TaskFilter.priority filters with
     | Some (x :: l) => [priority_in (x :: l)]
     | _ => []
     end
  (* Creator filter *)
  ++ match TaskFilter.creator_ids filters with
     | Some (x :: l) => [creator_in (x :: l)]
     | _ => []
     end
  (* Assignee filter *)
  ++ match TaskFilter.assignee_ids filters with
     | Some (x :: l) => [any_assignee_in db (x :: l)]
     | _ => []
     end
  (* Tag filter *)
  ++ match TaskFilter.tag_names filters with
     | Some (x :: l) => [any_tag_in db (map Py.lower (x :: l))]
     | _ => []
     end
  (* Due date filter *)
  ++ match TaskFilter.due_date_from filters with
     | Some d => [due_date_ge d]
     | None => []
     end
  ++ match TaskFilter.due_date_to filters with
     | Some d => [due_date_le d]
     | None => []
     end
  (* Created date filter *)
  ++ match TaskFilter.created_from filters with
     | Some d => [created_at_ge (combine_min d)]
     | None => []
     end
  ++ match TaskFilter.created_to filters with
     | Some d => [created_at_le (combine_max d)]
     | None => []
     end
  (* Search in title and description *)
  ++ match TaskFilter.search filters with
     | Some search => if Py.truthy_str search then [search_condition search]
                      else []
     | None => []
     end
  (* Overdue filter *)
  ++ match TaskFilter.is_overdue filters with
     | Some true => [overdue_condition today]
     | _ => []
     end
  (* Has subtasks filter *)
  ++ match TaskFilter.has_subtasks filters with
     | Some true => [id_in_tasks_with_parent db]
     | Some false => [parent_is_null]
     | None => []
     end
  (* Parent task filter *)
  ++ match TaskFilter.parent_task_id filters with
     | Some v => [parent_eq v]
     | None => []
     end.

(** SQLAlchemy's [and_] and [or_], applied to all the conditions. *)
Definition and_ (cs : list condition) : condition :=
  fun t => fold_right (fun c acc => Sql.and2 (c t) acc) Sql.STrue cs.

Definition or_ (cs : list condition) : condition :=
  fun t => fold_right (fun c acc => Sql.or2 (c t) acc) Sql.SFalse cs.

(** The WHERE clause of the query: none when no condition was appended. *)
Definition where_clause (filters : TaskFilter.t) (today : date) (db : DB)
  : option condition :=
  match conditions filters today db with
  | [] => None
  | c :: cs =>
      Some (if String.eqb (TaskFilter.logic_operator filters) "AND"
            then and_ (c :: cs)
            else or_ (c :: cs))
  end.

(** The rows a query over [tasks] selects. *)
Definition satisfies (w : option condition) (t : Task.t) : bool :=
  match w with
  | None => true
  | Some c => Sql.is_true (c t)
  end.

(** [query.offset(skip).limit(limit).all()] *)
Definition tasks_where (w : option condition) (skip limit : Z) (db : DB)
  : list Task.t :=
  Sql.page skip limit
    (Store.answer db (select_tasks w) Task.id
                  (filter (satisfies w) (tasks db))).

(** A row with its [subtask_count], as the handlers answer it. *)
Definition with_subtask_count (db : DB) (t : Task.t) : Task.t * nat :=
  (t, List.length (Task_subtasks db t)).

(** [filter_tasks]: [today] is [date.today()]; the answer pairs each task
    with its [subtask_count]. *)
Definition filter_tasks (filters : TaskFilter.t) (skip limit : Z)
    (today : date) : M (list (Task.t * nat)) :=
  db <- query ;;
  let tasks := tasks_where (where_clause filters today db) skip limit db in
  (* Add subtask count *)
  ret (map (with_subtask_count db) tasks).

(** The endpoint: the body is validated into a [TaskFilter] first (422 when
    a validator raises). *)
Definition post_filter (body : TaskFilter.t) (skip limit : Z)
    (today : date) : M (list (Task.t * nat)) :=
  match TaskFilter.validate body with
  | Some filters => filter_tasks filters skip limit today
  | None => raise (HTTPException 422 "logic_operator must be 'AND' or 'OR'")
  end.

(** *** [update_task] and [bulk_update_tasks] *)

Definition set_title (v : string) (t : Task.t) : Task.t :=
  Task.mk (Task.id t) v (Task.description t) (Task.status t)
          (Task.priority t) (Task.due_date t) (Task.creator_id t)
          (Task.parent_task_id t) (Task.created_at t) (Task.updated_at t)
          (Task.completed_at t) (Task.assignees t) (Task.tags t).

Definition set_description (v : option string) (t : Task.t) : Task.t :=
  Task.mk (Task.id t) (Task.title t) v (Task.status t)
          (Task.priority t) (Task.due_date t) (Task.creator_id t)
          (Task.parent_task_id t) (Task.created_at t) (Task.updated_at t)
          (Task.completed_at t) (Task.assignees t) (Task.tags t).

Definition set_status (v : TaskStatus) (t : Task.t) : Task.t :=
  Task.mk (Task.id t) (Task.title t) (Task.description t) v
          (Task.priority t) (Task.due_date t) (Task.creator_id t)
          (Task.parent_task_id t) (Task.created_at t) (Task.updated_at t)
          (Task.completed_at t) (Task.assignees t) (Task.tags t).

Definition set_priority (v : TaskPriority) (t : Task.t) : Task.t :=
  Task.mk (Task.id t) (Task.title t) (Task.description t) (Task.status t)
          v (Task.due_date t) (Task.creator_id t)
          (Task.parent_task_id t) (Task.created_at t) (Task.updated_at t)
          (Task.completed_at t) (Task.assignees t) (Task.tags t).

Definition set_due_date (v : option date) (t : Task.t) : Task.t :=
  Task.mk (Task.id t) (Task.title t) (Task.description t) (Task.status t)
          (Task.priority t) v (Task.creator_id t)
          (Task.parent_task_id t) (Task.created_at t) (Task.updated_at t)
          (Task.completed_at t) (Task.assignees t) (Task.tags t).

Definition set_updated_at (v : datetime) (t : Task.t) : Task.t :=
  Task.mk (Task.id t) (Task.title t) (Task.description t) (Task.status t)
          (Task.priority t) (Task.due_date t) (Task.creator_id t)
          (Task.parent_task_id t) (Task.created_at t) v
          (Task.completed_at t) (Task.assignees t) (Task.tags t).

Definition set_completed_at (v : option datetime) (t : Task.t) : Task.t :=
  Task.mk (Task.id t) (Task.title t) (Task.description t) (Task.status t)
          (Task.priority t) (Task.due_date t) (Task.creator_id t)
          (Task.parent_task_id t) (Task.created_at t) (Task.updated_at t)
          v (Task.assignees t) (Task.tags t).

Definition set_assignees (v : list Z) (t : Task.t) : Task.t :=
  Task.mk (Task.id t) (Task.title t) (Task.description t) (Task.status t)
          (Task.priority t) (Task.due_date t) (Task.creator_id t)
          (Task.parent_task_id t) (Task.created_at t) (Task.updated_at t)
          (Task.completed_at t) v (Task.tags t).

Definition set_tags (v : list Z) (t : Task.t) : Task.t :=
  Task.mk (Task.id t) (Task.title t) (Task.description t) (Task.status t)
          (Task.priority t) (Task.due_date t) (Task.creator_id t)
          (Task.parent_task_id t) (Task.created_at t) (Task.updated_at t)
          (Task.completed_at t) (Task.assignees t) v.

(** [setattr(db_task, field, value)] for a column declared
    [nullable=False], and for a nullable one. *)
Definition setattr_required {A} (set : A -> Task.t -> Task.t)
    (value : option A) (db_task : Task.t) : M Task.t :=
  match value with
  | Some v => ret (set v db_task)
  | None => set_null_pending ;;; ret db_task
  end.

Definition setattr_nullable {A} (set : option A -> Task.t -> Task.t)
    (value : option A) (db_task : Task.t) : M Task.t :=
  ret (set value db_task).

Definition option_eqb {A} (eqb : A -> A -> bool) (a b : option A) : bool :=
  match a, b with
  | Some x, Some y => eqb x y
  | None, None => true
  | _, _ => false
  end.

(** [str(v) if v else None] *)
Definition text_if {A} (truthy : A -> bool) (str : A -> string)
    (v : option A) : option string :=
  match v with
  | Some x => if truthy x then Some (str x) else None
  | None => None
  end.

Definition always {A} (_ : A) : bool := true.

(** The last branch of the loop of [update_task], for one column:
    [completes] is [field == "status" and value == TaskStatus.COMPLETED].
    A changed column makes the row dirty ([updated_at] has
    [onupdate=datetime.utcnow]). *)
Definition update_column {A} (task_id user_id : Z) (field_name : string)
    (eqb : A -> A -> bool) (truthy : A -> bool) (str : A -> string)
    (setattr : option A -> Task.t -> M Task.t)
    (old_value value : option A) (completes : bool) (db_task : Task.t)
  : M Task.t :=
  if option_eqb eqb old_value value then ret db_task
  else
    db_task <- setattr value db_task ;;
    updated_at <- now Clock.tasks_updated_at (Task.id db_task) ;;
    let db_task := set_updated_at updated_at db_task in
    log_task_history task_id user_id "updated" (Some field_name)
                     (text_if truthy str old_value)
                     (text_if truthy str value) ;;;
    (* Update completed_at if status changed to completed *)
    if completes then
      completed_at <- now Clock.tasks_completed_at (Task.id db_task) ;;
      ret (set_completed_at (Some completed_at) db_task)
    else ret db_task.

Definition is_completed (value : option TaskStatus) : bool :=
  match value with
  | Some COMPLETED => true
  | _ => false
  end.

(** [for field, value in update_data.items():] the fields that are
    present, in the order of [TaskUpdate]. *)
Definition update_fields (task_id : Z) (task_update : TaskUpdate.t)
    (user_id : Z) (db_task : Task.t) : M Task.t :=
  db_task <-
    match TaskUpdate.title task_update with
    | Unset => ret db_task
    | Present value =>
        update_column task_id user_id "title" String.eqb Py.truthy_str
          (fun v => v) (setattr_required set_title)
          (Some (Task.title db_task)) value false db_task
    end ;;
  db_task <-
    match TaskUpdate.description task_update with
    | Unset => ret db_task
    | Present value =>
        update_column task_id user_id "description" String.eqb
          Py.truthy_str (fun v => v) (setattr_nullable set_description)
          (Task.description db_task) value false db_task
    end ;;
  db_task <-
    match TaskUpdate.status task_update with
    | Unset => ret db_task
    | Present value =>
        update_column task_id user_id "status" TaskStatus_eqb always
          TaskStatus_str (setattr_required set_status)
          (Some (Task.status db_task)) value (is_completed value) db_task
    end ;;
  db_task <-
    match TaskUpdate.priority task_update with
    | Unset => ret db_task
    | Present value =>
        update_column task_id user_id "priority" TaskPriority_eqb always
          TaskPriority_str (setattr_required set_priority)
          (Some (Task.priority db_task)) value false db_task
    end ;;
  db_task <-
    match TaskUpdate.due_date task_update with
    | Unset => ret db_task
    | Present value =>
        update_column task_id user_id "due_date" date_eqb always
          str_date (setattr_nullable set_due_date)
          (Task.due_date db_task) value false db_task
    end ;;
  db_task <-
    match TaskUpdate.assignee_ids task_update with
    | Present (Some value) =>
        db <- query ;;
        let old_assignees :=
          map (fun u => Py.str_int (User.id u))
              (Task_assignees db db_task) in
        let assignees := users_in value db in
        if Nat.eqb (List.length assignees) (List.length value) then
          let new_assignees :=
            map (fun u => Py.str_int (User.id u)) assignees in
          log_task_history task_id user_id "updated" (Some "assignees")
                           (Some (Py.join "," old_assignees))
                           (Some (Py.join "," new_assignees)) ;;;
          ret (set_assignees (map User.id assignees) db_task)
        else raise (HTTPException 400 "One or more assignees not found")
    | _ => ret db_task
    end ;;
  db_task <-
    match TaskUpdate.tag_names task_update with
    | Present (Some value) =>
        db <- query ;;
        let old_tags := map Tag.name (Task_tags db db_task) in
        new <- append_tags value [] ;;
        let new_tags := map Tag.name new in
        log_task_history task_id user_id "updated" (Some "tags")
                         (Some (Py.join "," old_tags))
                         (Some (Py.join "," new_tags)) ;;;
        ret (set_tags (map Tag.id new) db_task)
    | _ => ret db_task
    end ;;
  ret db_task.

(** [update_task] *)
Definition update_task (task_id : Z) (task_update : TaskUpdate.t)
    (current_user : User.t) : M (Task.t * nat) :=
  db <- query ;;
  match find_task task_id db with
  | None => raise (HTTPException 404 "Task not found")
  | Some db_task =>
      (* Update fields and log changes *)
      db_task <- update_fields task_id task_update (User.id current_user)
                               db_task ;;
      db <- query ;;
      set_view (replace_task db_task db) ;;;
      commit ;;;
      (* Add subtask count *)
      db <- query ;;
      ret (db_task, List.length (Task_subtasks db db_task))
  end.

(** The last branch of the loop of [bulk_update_tasks], for one column. *)
Definition bulk_update_column {A} (user_id : Z) (field_name : string)
    (eqb : A -> A -> bool) (str : A -> string)
    (set : A -> Task.t -> Task.t)
    (old_value : A) (value : option A) (completes : bool) (task : Task.t)
  : M Task.t :=
  match value with
  | Some v =>
      if eqb old_value v then ret task
      else
        updated_at <- now Clock.tasks_updated_at (Task.id task) ;;
        let task := set_updated_at updated_at (set v task) in
        log_task_history (Task.id task) user_id "bulk_updated"
                         (Some field_name) (Some (str old_value))
                         (Some (str v)) ;;;
        if completes then
          completed_at <- now Clock.tasks_completed_at (Task.id task) ;;
          ret (set_completed_at (Some completed_at) task)
        else ret task
  | None => ret task
  end.

(** The body of [for task in tasks:] *)
Definition bulk_update_one (bulk_update : TaskBulkUpdate.t) (user_id : Z)
    (task : Task.t) : M unit :=
  task <-
    match TaskBulkUpdate.status bulk_update with
    | Unset => ret task
    | Present value =>
        bulk_update_column user_id "status" TaskStatus_eqb TaskStatus_str
          set_status (Task.status task) value (is_completed value) task
    end ;;
  task <-
    match TaskBulkUpdate.priority bulk_update with
    | Unset => ret task
    | Present value =>
        bulk_update_column user_id "priority" TaskPriority_eqb
          TaskPriority_str set_priority (Task.priority task) value false task
    end ;;
  task <-
    match TaskBulkUpdate.assignee_ids bulk_update with
    | Present (Some value) =>
        db <- query ;;
        let assignees := users_in value db in
        log_task_history (Task.id task) user_id "bulk_updated"
                         (Some "assignees") None None ;;;
        ret (set_assignees (map User.id assignees) task)
    | _ => ret task
    end ;;
  task <-
    match TaskBulkUpdate.tag_names bulk_update with
    | Present (Some value) =>
        new <- append_tags value [] ;;
        log_task_history (Task.id task) user_id "bulk_updated"
                         (Some "tags") None None ;;;
        ret (set_tags (map Tag.id new) task)
    | _ => ret task
    end ;;
  db <- query ;;
  set_view (replace_task task db).

(** [bulk_update_tasks]: the answer is the message and
    [updated_task_ids]. *)
Definition bulk_update_tasks (bulk_update : TaskBulkUpdate.t)
    (current_user : User.t) : M (string * list Z) :=
  db <- query ;;
  let found := tasks_in (TaskBulkUpdate.task_ids bulk_update) db in
  if Nat.eqb (List.length found)
             (List.length (TaskBulkUpdate.task_ids bulk_update)) then
    for_each found (bulk_update_one bulk_update (User.id current_user)) ;;;
    commit ;;;
    let updated_count := Z.of_nat (List.length found) in
    ret (("Successfully updated " ++ Py.str_int updated_count ++ " tasks")%string,
         TaskBulkUpdate.task_ids bulk_update)
  else raise (HTTPException 400 "One or more tasks not found").

(** *** [create_task_dependency] *)

Definition find_dependency (blocking blocked : Z) (db : DB)
  : option TaskDependency.t :=
  hd_error (filter (fun d => (TaskDependency.blocking_task_id d =? blocking)
                             && (TaskDependency.blocked_task_id d =? blocked))
                   (task_dependencies db)).

Definition create_task_dependency (task_id : Z)
    (dependency : TaskDependencyCreate.t) (current_user : User.t)
  : M TaskDependency.t :=
  let blocking_id := TaskDependencyCreate.blocking_task_id dependency in
  db <- query ;;
  (* Validate tasks exist *)
  match find_task blocking_id db, find_task task_id db with
  | Some _, Some _ =>
      (* Prevent self-dependency *)
      if blocking_id =? task_id then
        raise (HTTPException 400 "A task cannot depend on itself")
      else
        (* Check if dependency already exists *)
        match find_dependency blocking_id task_id db with
        | Some _ => raise (HTTPException 400 "Dependency already exists")
        | None =>
            let key :=
              next_id (map TaskDependency.id (task_dependencies db)) in
            ts <- now Clock.task_dependencies_created_at key ;;
            let db_dependency :=
              TaskDependency.mk key blocking_id task_id ts in
            set_view (with_task_dependencies
                        (task_dependencies db ++ [db_dependency]) db) ;;;
            (* Log history *)
            log_task_history task_id (User.id current_user)
                             "dependency_added" (Some "blocking_task") None
                             (Some (Py.str_int blocking_id)) ;;;
            commit ;;;
            ret db_dependency
        end
  | _, _ => raise (HTTPException 404 "One or both tasks not found")
  end.

(** *** [list_tasks], [get_task], [delete_task],
    [delete_task_dependency] *)

(** [list_tasks] *)
Definition list_tasks (skip limit : Z) : M (list (Task.t * nat)) :=
  db <- query ;;
  let tasks := tasks_where None skip limit db in
  (* Add subtask count to each task *)
  ret (map (with_subtask_count db) tasks).

(** The relationships of [Task] to [TaskDependency] in [models.py]:
    [blocking_tasks] joins on [TaskDependency.blocked_task_id] and
    [blocked_by_tasks] on [TaskDependency.blocking_task_id]. *)
Definition Task_blocking_tasks (db : DB) (t : Task.t)
  : list TaskDependency.t :=
  Store.answer db (load_blocking_tasks (Task.id t)) TaskDependency.id
    (filter (fun d => TaskDependency.blocked_task_id d =? Task.id t)
            (task_dependencies db)).

Definition Task_blocked_by_tasks (db : DB) (t : Task.t)
  : list TaskDependency.t :=
  Store.answer db (load_blocked_by_tasks (Task.id t)) TaskDependency.id
    (filter (fun d => TaskDependency.blocking_task_id d =? Task.id t)
            (task_dependencies db)).

Module TaskDetailResponse.
Record t := mk {
  task : Task.t;
  subtask_count : nat;
  subtasks : list Task.t;
  blocking_task_ids : list Z;
  blocked_by_task_ids : list Z
}.
End TaskDetailResponse.

(** [get_task] *)
Definition get_task (task_id : Z) : M TaskDetailResponse.t :=
  db <- query ;;
  match find_task task_id db with
  | None => raise (HTTPException 404 "Task not found")
  | Some task =>
      (* Get blocking and blocked by task IDs *)
      let blocking_task_ids :=
        map TaskDependency.blocked_task_id (Task_blocked_by_tasks db task) in
      let blocked_by_task_ids :=
        map TaskDependency.blocking_task_id (Task_blocking_tasks db task) in
      ret (TaskDetailResponse.mk task
             (List.length (Task_subtasks db task)) (Task_subtasks db task)
             blocking_task_ids blocked_by_task_ids)
  end.

Definition UserRole_value (r : UserRole) : string :=
  match r with
  | ADMIN => "admin"
  | MANAGER => "manager"
  | MEMBER => "member"
  end.

Definition set_parent_task_id (v : option Z) (t : Task.t) : Task.t :=
  Task.mk (Task.id t) (Task.title t) (Task.description t) (Task.status t)
          (Task.priority t) (Task.due_date t) (Task.creator_id t)
          v (Task.created_at t) (Task.updated_at t)
          (Task.completed_at t) (Task.assignees t) (Task.tags t).

(** [db.delete(db_task)] with the relationships of [models.py]: the
    dependencies on either side and the history go with the task
    ([cascade="all, delete-orphan"]); [subtasks] carries no delete cascade,
    so the subtasks stay and lose their parent reference (an update of
    their rows, which renews [updated_at]). *)
Definition delete_row (db_task : Task.t) (clock : Clock.t) (db : DB) : DB :=
  let key := Task.id db_task in
  mkDB (users db)
       (map (fun r => match Task.parent_task_id r with
                      | Some p => if p =? key
                                  then set_updated_at
                                         (clock Clock.tasks_updated_at
                                                (Task.id r))
                                         (set_parent_task_id None r)
                                  else r
                      | None => r
                      end)
            (filter (fun r => negb (Task.id r =? key)) (tasks db)))
       (tags db)
       (filter (fun d => negb (TaskDependency.blocking_task_id d =? key)
                         && negb (TaskDependency.blocked_task_id d =? key))
               (task_dependencies db))
       (filter (fun h => negb (TaskHistory.task_id h =? key))
               (task_history db))
       (answers_before db).

(** [delete_task] *)
Definition delete_task (task_id : Z) (current_user : User.t) : M unit :=
  db <- query ;;
  match find_task task_id db with
  | None => raise (HTTPException 404 "Task not found")
  | Some db_task =>
      (* Check permissions (only creator or admin can delete) *)
      if negb (Task.creator_id db_task =? User.id current_user)
         && negb (Py.mem_str (UserRole_value (User.role current_user))
                             ["admin"; "manager"])
      then raise (HTTPException 403 "Not authorized to delete this task")
      else
        clock <- readings ;;
        set_view (delete_row db_task clock db) ;;;
        commit
  end.

Definition find_dependency_by_id (dependency_id : Z) (db : DB)
  : option TaskDependency.t :=
  hd_error (filter (fun d => TaskDependency.id d =? dependency_id)
                   (task_dependencies db)).

(** [delete_task_dependency] *)
Definition delete_task_dependency (dependency_id : Z)
    (current_user : User.t) : M unit :=
  db <- query ;;
  match find_dependency_by_id dependency_id db with
  | None => raise (HTTPException 404 "Dependency not found")
  | Some dependency =>
      (* Log history *)
      log_task_history (TaskDependency.blocked_task_id dependency)
                       (User.id current_user) "dependency_removed"
                       (Some "blocking_task")
                       (Some (Py.str_int
                                (TaskDependency.blocking_task_id dependency)))
                       None ;;;
      db <- query ;;
      set_view (with_task_dependencies
                  (filter (fun d => negb (TaskDependency.id d
                                          =? TaskDependency.id dependency))
                          (task_dependencies db)) db) ;;;
      commit
  end.

(* ===================================================================== *)
(** ** The specification's vocabulary *)
(* ===================================================================== *)

(** The error kinds of the specification and the status code each is
    answered with. *)
Inductive ErrorKind :=
| NotFound
| InvalidAssignee
| SelfDependency
| DuplicateDependency
| Forbidden.

Definition status_of (k : ErrorKind) : Z :=
  match k with
  | NotFound => 404
  | InvalidAssignee | SelfDependency | DuplicateDependency => 400
  | Forbidden => 403
  end.

(** A request fails with kind [k] when its handler raised an
    [HTTPException] carrying the status code of [k]. *)
Definition fails_with {A} (k : ErrorKind) (r : Result A) : Prop :=
  exists detail, r = Raise (HTTPException (status_of k) detail).

(** "The task's id appears as some other task's parent." *)
Definition has_children (db : DB) (t : Task.t) : bool :=
  existsb (fun c => match Task.parent_task_id c with
                    | Some p => p =? Task.id t
                    | None => false
                    end) (tasks db).





(** The predicate the filter folds: no restriction when no dimension is
    supplied, otherwise all of the conditions (AND) or one of them (OR),
    a condition counting when it is true. *)
Definition selected (filters : TaskFilter.t) (today : date) (db : DB)
    (t : Task.t) : bool :=
  match conditions filters today db with
  | [] => true
  | cs => if String.eqb (TaskFilter.logic_operator filters) "AND"
          then forallb (fun c => Sql.is_true (c t)) cs
          else existsb (fun c => Sql.is_true (c t)) cs
  end.

(** The filter's rows before paging: the selected tasks, in the order the
    store answers the query. *)
Definition answered (filters : TaskFilter.t) (today : date) (db : DB)
  : list Task.t :=
  Store.answer db (select_tasks (where_clause filters today db)) Task.id
               (filter (selected filters today db) (tasks db)).

(* ===================================================================== *)
(** ** Notions used in the proofs *)
(* ===================================================================== *)

(** The place of a key in a list of keys, and the order that answers the
    rows as a list of keys has them. *)
Fixpoint position (k : Z) (keys : list Z) : Z :=
  match keys with
  | [] => 0
  | x :: r => if x =? k then 0 else 1 + position k r
  end.

Definition in_the_order_of (keys : list Z) : row_order :=
  fun _ _ _ _ _ k k' => position k keys <=? position k' keys.

Definition with_answers_before (order : row_order) (db : DB) : DB :=
  mkDB (users db) (tasks db) (tags db) (task_dependencies db)
       (task_history db) order.

(** A computation is steady when it leaves the durable database and the
    clock alone, and, when it succeeds, the rows of [tasks] in view. *)
Definition steady {A} (m : M A) : Prop :=
  forall s r s', m s = (r, s') ->
    stored s' = stored s /\ utcnow s' = utcnow s
    /\ match r with
       | Ok _ => tasks (view s') = tasks (view s)
       | Raise _ => True
       end.

(** What the steps of [update_task] other than the one for [status] keep
    of the task. *)
Definition frame_ok (t t' : Task.t) : Prop :=
  Task.id t' = Task.id t
  /\ Task.status t' = Task.status t
  /\ Task.completed_at t' = Task.completed_at t.

Definition quiet (step : Task.t -> M Task.t) : Prop :=
  forall t s t' s', step t s = (Ok t', s') -> frame_ok t t'.

(** The update asks for the status "completed". *)
Definition asks_completed (f : field TaskStatus) : bool :=
  match f with
  | Present (Some COMPLETED) => true
  | _ => false
  end.

(** The tag carries this name. *)
Definition named (name : string) (g : Tag.t) : bool :=
  String.eqb (Tag.name g) name.

(** Between two sessions, nothing but the rows of [tags] in view has
    changed. *)
Definition tags_only (s s' : Session) : Prop :=
  stored s' = stored s
  /\ null_pending s' = null_pending s
  /\ utcnow s' = utcnow s
  /\ commits_left s' = commits_left s
  /\ users (view s') = users (view s)
  /\ tasks (view s') = tasks (view s)
  /\ task_dependencies (view s') = task_dependencies (view s)
  /\ task_history (view s') = task_history (view s).

(** The parent reference of a creation request passes the check of
    [create_task]: none, the value 0, or the key of a task. *)
Definition parent_accepted (parent : option Z) (db : DB) : Prop :=
  match parent with
  | Some p => p = 0 \/ In p (map Task.id (tasks db))
  | None => True
  end.

(** The listed ids are distinct and each is the key of a user. *)
Definition users_resolve (ids : list Z) (db : DB) : Prop :=
  NoDup ids /\ forall i, In i ids -> In i (map User.id (users db)).

(** Every parent reference of the table is the key of a task. *)
Definition parents_exist (db : DB) : Prop :=
  forall r p, In r (tasks db) -> Task.parent_task_id r = Some p ->
              In p (map Task.id (tasks db)).

(** Between two sessions, nothing but the history in view and the pending
    [NULL] flag has changed. *)
Definition history_only (s s' : Session) : Prop :=
  stored s' = stored s
  /\ utcnow s' = utcnow s
  /\ commits_left s' = commits_left s
  /\ users (view s') = users (view s)
  /\ tasks (view s') = tasks (view s)
  /\ tags (view s') = tags (view s)
  /\ task_dependencies (view s') = task_dependencies (view s).

(** The update repeats what the task holds: each scalar field is left out
    or carries the current value, and no collection is sent. *)
Definition repeats_current (u : TaskUpdate.t) (t : Task.t) : Prop :=
  (TaskUpdate.title u = Unset
   \/ TaskUpdate.title u = Present (Some (Task.title t)))
  /\ (TaskUpdate.description u = Unset
      \/ TaskUpdate.description u = Present (Task.description t))
  /\ (TaskUpdate.status u = Unset
      \/ TaskUpdate.status u = Present (Some (Task.status t)))
  /\ (TaskUpdate.priority u = Unset
      \/ TaskUpdate.priority u = Present (Some (Task.priority t)))
  /\ (TaskUpdate.due_date u = Unset
      \/ TaskUpdate.due_date u = Present (Task.due_date t))
  /\ (TaskUpdate.assignee_ids u = Unset
      \/ TaskUpdate.assignee_ids u = Present None)
  /\ (TaskUpdate.tag_names u = Unset
      \/ TaskUpdate.tag_names u = Present None).

(** The same filter under another operator, and with other tag names. *)
Definition with_logic_operator (op : string) (f : TaskFilter.t)
  : TaskFilter.t :=
  TaskFilter.mk (TaskFilter.status f) (TaskFilter.priority f)
                (TaskFilter.assignee_ids f) (TaskFilter.creator_ids f)
                (TaskFilter.tag_names f) (TaskFilter.due_date_from f)
                (TaskFilter.due_date_to f) (TaskFilter.created_from f)
                (TaskFilter.created_to f) (TaskFilter.search f)
                (TaskFilter.is_overdue f) (TaskFilter.has_subtasks f)
                (TaskFilter.parent_task_id f) op.

Definition with_tag_names (v : option (list string)) (f : TaskFilter.t)
  : TaskFilter.t :=
  TaskFilter.mk (TaskFilter.status f) (TaskFilter.priority f)
                (TaskFilter.assignee_ids f) (TaskFilter.creator_ids f)
                v (TaskFilter.due_date_from f)
                (TaskFilter.due_date_to f) (TaskFilter.created_from f)
                (TaskFilter.created_to f) (TaskFilter.search f)
                (TaskFilter.is_overdue f) (TaskFilter.has_subtasks f)
                (TaskFilter.parent_task_id f) (TaskFilter.logic_operator f).

(** The filter without the fields whose value is falsy in Python: an empty
    list, the empty search text, [is_overdue = false]. *)
Definition nonempty {A} (l : option (list A)) : option (list A) :=
  match l with
  | Some [] => None
  | _ => l
  end.

Definition drop_falsy (f : TaskFilter.t) : TaskFilter.t :=
  TaskFilter.mk (nonempty (TaskFilter.status f))
                (nonempty (TaskFilter.priority f))
                (nonempty (TaskFilter.assignee_ids f))
                (nonempty (TaskFilter.creator_ids f))
                (nonempty (TaskFilter.tag_names f))
                (TaskFilter.due_date_from f)
                (TaskFilter.due_date_to f) (TaskFilter.created_from f)
                (TaskFilter.created_to f)
                match TaskFilter.search f with
                | Some EmptyString => None
                | other => other
                end
                match TaskFilter.is_overdue f with
                | Some false => None
                | other => other
                end
                (TaskFilter.has_subtasks f)
                (TaskFilter.parent_task_id f) (TaskFilter.logic_operator f).

(** "Due date strictly before today and status other than completed." *)
Definition overdue (today : date) (t : Task.t) : bool :=
  match Task.due_date t with
  | Some d => date_ltb d today && negb (TaskStatus_eqb (Task.status t) COMPLETED)
  | None => false
  end.

(** "The day of [created_at] lies between the two dates, both
    included." *)
Definition created_between (from to : date) (t : Task.t) : bool :=
  date_leb from (dt_date (Task.created_at t))
  && date_leb (dt_date (Task.created_at t)) to.

(** The timestamp lies within a day: its microseconds since midnight are
    below 24 hours. *)
Definition within_day (d : datetime) : Prop :=
  0 <= dt_micros d <= 86399999999.

(** The filters of the examples: overdue tasks, with or without an upper
    bound on the due date; tasks created in a range of days. *)
Definition filter_overdue (due_date_to : option date) : TaskFilter.t :=
  TaskFilter.mk None None None None None None due_date_to None None None
                (Some true) None None "AND".

Definition filter_created (from to : date) : TaskFilter.t :=
  TaskFilter.mk None None None None None None None (Some from) (Some to)
                None None None None "AND".

(** Between two sessions, the durable database and, in view, the users,
    the tasks and the dependencies are the same. *)
Definition tables_kept (s s' : Session) : Prop :=
  stored s' = stored s
  /\ users (view s') = users (view s)
  /\ tasks (view s') = tasks (view s)
  /\ task_dependencies (view s') = task_dependencies (view s).

(** The computation never changes the durable database. *)
Definition stored_kept {A} (m : M A) : Prop :=
  forall s r s', m s = (r, s') -> stored s' = stored s.

(** The task is none of those a bulk update lists. *)
Definition unlisted (ids : list Z) (t : Task.t) : bool :=
  negb (Py.mem (Task.id t) ids).

(** What a bulk update to status [v] under [clock] makes of a task: nothing
    when the task has that status already; otherwise the new status, a
    renewed [updated_at], and the completion time when [v] is
    "completed". *)
Definition bulk_status (v : TaskStatus) (clock : Clock.t) (t : Task.t)
  : Task.t :=
  let updated_at := clock Clock.tasks_updated_at (Task.id t) in
  if TaskStatus_eqb (Task.status t) v then t
  else if TaskStatus_eqb v COMPLETED
       then set_completed_at
              (Some (clock Clock.tasks_completed_at (Task.id t)))
              (set_updated_at updated_at (set_status v t))
       else set_updated_at updated_at (set_status v t).

(* ===================================================================== *)
(** ** Sample data *)
(* ===================================================================== *)

Definition noon : datetime := mkdatetime (mkdate 2024 3 7) 43200000000.
Definition march_8 : date := mkdate 2024 3 8.

(** A clock of the afternoon of 7 March 2024 that gives every column of
    every row a reading of its own. *)
Definition afternoon : Clock.t :=
  fun c key =>
    mkdatetime (mkdate 2024 3 7)
               (50400000000 + 10 * key
                + match c with
                  | Clock.tasks_created_at => 0
                  | Clock.tasks_updated_at => 1
                  | Clock.tasks_completed_at => 2
                  | Clock.tags_created_at => 3
                  | Clock.task_dependencies_created_at => 4
                  | Clock.task_history_timestamp => 5
                  end).

(** A store that answers every statement in storage order, and one that
    answers the rows with the larger keys first. *)
Definition storage_order : row_order := fun _ _ _ _ _ _ _ => true.
Definition newest_first : row_order := fun _ _ _ _ _ k k' => k' <=? k.

Definition alice : User.t := User.mk 1 "alice" MEMBER.

Definition plain_task (id : Z) (title : string) (parent : option Z)
  : Task.t :=
  Task.mk id title None TODO MEDIUM None 1 parent noon noon None [] [].

(** A parent (task 1) and its subtask (task 2). *)
Definition task_1 : Task.t := plain_task 1 "a" None.
Definition task_2 : Task.t := plain_task 2 "b" (Some 1).
(** Task 3 is assigned to alice. *)
Definition task_3 : Task.t :=
  Task.mk 3 "c" None TODO MEDIUM None 1 None noon noon None [1] [].

Definition empty_db : DB := mkDB [alice] [] [] [] [] storage_order.
Definition family_db : DB :=
  mkDB [alice] [task_1; task_2] [] [] [] storage_order.
Definition assigned_db : DB := mkDB [alice] [task_3] [] [] [] storage_order.

(** A task titled with the one letter U+00E9 (e with acute accent); U+00C9
    is its capital. *)
Definition e_acute : string := String (ascii_of_N 233) "".
Definition E_acute : string := String (ascii_of_N 201) "".


(** The request of the tag example: two spellings of one tag. *)
Definition urgent_twice (title : string) (assignee_ids : option (list Z))
    (parent_task_id : option Z) : TaskCreate.t :=
  TaskCreate.mk title None TODO MEDIUM None assignee_ids
                (Some ["Urgent"; "urgent"]) parent_task_id.

Definition status_update (value : option TaskStatus) : TaskUpdate.t :=
  TaskUpdate.mk Unset Unset (Present value) Unset Unset Unset Unset.

Definition with_parent_task_id (v : option Z) (f : TaskFilter.t)
  : TaskFilter.t :=
  TaskFilter.mk (TaskFilter.status f) (TaskFilter.priority f)
                (TaskFilter.assignee_ids f) (TaskFilter.creator_ids f)
                (TaskFilter.tag_names f) (TaskFilter.due_date_from f)
                (TaskFilter.due_date_to f) (TaskFilter.created_from f)
                (TaskFilter.created_to f) (TaskFilter.search f)
                (TaskFilter.is_overdue f) (TaskFilter.has_subtasks f)
                v (TaskFilter.logic_operator f).

Definition filter_has_subtasks (b : bool) : TaskFilter.t :=
  TaskFilter.mk None None None None None None None None None None None
                (Some b) None "AND".


Definition report : TaskCreate.t :=
  TaskCreate.mk "write report" None TODO MEDIUM None None None None.

Definition assignees_update (ids : list Z) : TaskUpdate.t :=
  TaskUpdate.mk Unset Unset Unset Unset Unset (Present (Some ids)) Unset.

(** The family with one dependency (task 2 is blocked by task 1) and the
    history record of its creation. *)
Definition linked_db : DB :=
  mkDB [alice] [task_1; task_2] []
       [TaskDependency.mk 1 1 2 noon]
       [TaskHistory.mk 1 2 1 "dependency_added" (Some "blocking_task") None
                       (Some "1") noon]
       storage_order.

(** Tasks in status "todo" that have no parent. *)
Definition filter_todo_roots : TaskFilter.t :=
  TaskFilter.mk (Some [TODO]) None None None None None None None None None
                None (Some false) None "AND".

Definition bulk_for (ids : list Z) (status : field TaskStatus)
    (assignee_ids : field (list Z)) : TaskBulkUpdate.t :=
  TaskBulkUpdate.mk ids status Unset assignee_ids Unset.

(* ===================================================================== *)
(** * Properties *)
(* ===================================================================== *)

Example lower_Urgent : Py.lower "Urgent" = "urgent".
Proof. reflexivity. Qed.

Example str_date_pads : str_date (mkdate 2024 3 7) = "2024-03-07".
Proof. reflexivity. Qed.

Example join_ids : Py.join "," (map Py.str_int [1; 20; 3]) = "1,20,3".
Proof. reflexivity. Qed.

Example ilike_substring : Sql.ilike "Fix the Parser" "%PARS%" = true.
Proof. reflexivity. Qed.

Example ilike_underscore : Sql.ilike "a" "%_%" = true.
Proof. reflexivity. Qed.

Example ilike_folds_ascii_only : Sql.ilike e_acute E_acute = false.
Proof. reflexivity. Qed.

Example negative_limit : Sql.page 1 (-1) [1; 2; 3] = [2; 3].
Proof. reflexivity. Qed.

(** The page depends on the order the store picks: with the larger keys
    first, the first page of one row is task 2. *)
Example list_tasks_newest_first :
  serve (list_tasks 0 1) afternoon None family_db
  = (Ok [(task_1, 1%nat)], family_db)
  /\ serve (list_tasks 0 1) afternoon None
           (mkDB [alice] [task_1; task_2] [] [] [] newest_first)
     = (Ok [(task_2, 0%nat)],
        mkDB [alice] [task_1; task_2] [] [] [] newest_first).
Proof. split; reflexivity. Qed.

(* ===================================================================== *)
(** ** The order of a result set *)
(* ===================================================================== *)

Lemma place_Permutation {A} (before : A -> A -> bool) (x : A) (l : list A) :
  Permutation (x :: l) (Store.place before x l).
Proof.
  induction l as [|y l IH]; simpl; [apply Permutation_refl|].
  destruct (before x y); [apply Permutation_refl|].
  apply perm_trans with (y :: x :: l); [apply perm_swap|].
  now apply perm_skip.
Qed.

Lemma arrange_Permutation {A} (before : A -> A -> bool) (l : list A) :
  Permutation l (Store.arrange before l).
Proof.
  induction l as [|x l IH]; simpl; [apply perm_nil|].
  apply perm_trans with (x :: Store.arrange before l);
    [now apply perm_skip | apply place_Permutation].
Qed.

(** Whatever order the store picks, it answers the rows that satisfy the
    statement, each as often as it is stored. *)
Lemma answer_Permutation {A} (db : DB) (q : statement) (key : A -> Z)
    (rows : list A) :
  Permutation rows (Store.answer db q key rows).
Proof. apply arrange_Permutation. Qed.

Lemma answer_In {A} (db : DB) (q : statement) (key : A -> Z)
    (rows : list A) (x : A) :
  In x (Store.answer db q key rows) <-> In x rows.
Proof.
  split; apply Permutation_in;
    [apply Permutation_sym|]; apply answer_Permutation.
Qed.

Lemma answer_length {A} (db : DB) (q : statement) (key : A -> Z)
    (rows : list A) :
  List.length (Store.answer db q key rows) = List.length rows.
Proof. symmetry. apply Permutation_length, answer_Permutation. Qed.

Lemma answer_nil {A} (db : DB) (q : statement) (key : A -> Z) :
  Store.answer db q key (@nil A) = [].
Proof. reflexivity. Qed.

Lemma answer_one {A} (db : DB) (q : statement) (key : A -> Z) (x : A) :
  Store.answer db q key [x] = [x].
Proof. reflexivity. Qed.

Lemma answer_NoDup {A} (db : DB) (q : statement) (key : A -> Z)
    (rows : list A) :
  NoDup (map key rows) -> NoDup (map key (Store.answer db q key rows)).
Proof.
  apply Permutation_NoDup, Permutation_map, answer_Permutation.
Qed.

(** In storage order the rows come as they are stored. *)
Lemma arrange_storage_order {A} (rows : list A) :
  Store.arrange (fun _ _ => true) rows = rows.
Proof.
  induction rows as [|x l IH]; simpl; [reflexivity|]. rewrite IH.
  destruct l; reflexivity.
Qed.

(** A row that goes before all the rows of a list is placed at its
    front. *)
Lemma place_front {A} (before : A -> A -> bool) (x : A) (l : list A) :
  Forall (fun y => before x y = true) l -> Store.place before x l = x :: l.
Proof.
  intros H. destruct l as [|y l]; [reflexivity|].
  inversion H as [|? ? Hy _]. subst. simpl. now rewrite Hy.
Qed.

(** Placing a row of an ascending list among the selected rows of that
    list selects it as well. *)
Lemma place_filter {A} (rank : A -> Z) (target : list A) (P : A -> bool)
    (x : A) :
  StronglySorted (fun a b => rank a < rank b) target ->
  In x target -> P x = false ->
  Store.place (fun a b => rank a <=? rank b) x (filter P target)
  = filter (fun y => P y || (rank y =? rank x)) target.
Proof.
  intros Hs. induction Hs as [|t0 ts Hs IH Hall]; [contradiction|].
  intros Hin HP. rewrite Forall_forall in Hall. destruct Hin as [->|Hin].
  - cbn [filter]. rewrite HP, Z.eqb_refl. cbn [orb].
    rewrite (filter_ext_in (fun y => P y || (rank y =? rank x)) P).
    + apply place_front. apply Forall_forall. intros y Hy.
      apply filter_In in Hy. destruct Hy as [Hy _].
      apply Z.leb_le. specialize (Hall y Hy). lia.
    + intros y Hy. specialize (Hall y Hy).
      assert (E : (rank y =? rank x) = false) by (apply Z.eqb_neq; lia).
      rewrite E. apply orb_false_r.
  - specialize (Hall x Hin). cbn [filter].
    assert (E : (rank t0 =? rank x) = false) by (apply Z.eqb_neq; lia).
    rewrite E, orb_false_r. destruct (P t0).
    + cbn [Store.place].
      assert (E' : (rank x <=? rank t0) = false) by (apply Z.leb_gt; lia).
      rewrite E'. f_equal. now apply IH.
    + now apply IH.
Qed.

Lemma arrange_ascending {A} (rank : A -> Z) (target l : list A) :
  StronglySorted (fun a b => rank a < rank b) target ->
  (forall x, In x l -> In x target) ->
  NoDup (map rank l) ->
  Store.arrange (fun a b => rank a <=? rank b) l
  = filter (fun y => existsb (fun z => rank y =? rank z) l) target.
Proof.
  intros Hs. induction l as [|x l IH]; intros Hin Hnd.
  - cbn. symmetry. clear. induction target; [reflexivity | assumption].
  - inversion Hnd as [|? ? Hx Hnd']. subst. cbn [Store.arrange fold_right].
    change (fold_right (Store.place (fun a b => rank a <=? rank b)) [] l)
      with (Store.arrange (fun a b => rank a <=? rank b) l).
    rewrite IH; [|intros y Hy; apply Hin; now right | exact Hnd'].
    rewrite place_filter; [|exact Hs | apply Hin; now left|].
    + apply filter_ext. intros y. cbn [existsb]. apply orb_comm.
    + destruct (existsb _ l) eqn:E; [|reflexivity].
      apply existsb_exists in E. destruct E as [z [Hz E]].
      apply Z.eqb_eq in E. exfalso. apply Hx. rewrite E. now apply in_map.
Qed.

Lemma position_nonneg (k : Z) (keys : list Z) : 0 <= position k keys.
Proof.
  induction keys as [|x r IH]; cbn [position]; [lia|].
  destruct (x =? k); lia.
Qed.

Lemma StronglySorted_impl {A} (R R' : A -> A -> Prop) (l : list A) :
  StronglySorted R l ->
  (forall a b, In a l -> In b l -> R a b -> R' a b) ->
  StronglySorted R' l.
Proof.
  intros Hs. induction Hs as [|a l Hs IH Hall]; intros Himp;
    constructor.
  - apply IH. intros x y Hx Hy. apply Himp; now right.
  - rewrite Forall_forall in *. intros y Hy.
    apply Himp; [now left | now right | now apply Hall].
Qed.

(** Rows with distinct keys ascend by the position of their key. *)
Lemma position_ascending {A} (key : A -> Z) (target : list A) :
  NoDup (map key target) ->
  StronglySorted (fun a b => position (key a) (map key target)
                             < position (key b) (map key target)) target.
Proof.
  induction target as [|t0 ts IH]; intros Hnd; [constructor|].
  inversion Hnd as [|? ? Hnotin Hnd']. subst.
  assert (Hshift : forall y, In y ts ->
            position (key y) (map key (t0 :: ts))
            = 1 + position (key y) (map key ts)).
  { intros y Hy. cbn [map position].
    destruct (key t0 =? key y) eqn:E; [|reflexivity].
    apply Z.eqb_eq in E. exfalso. apply Hnotin. rewrite E. now apply in_map. }
  constructor.
  - apply (StronglySorted_impl _ _ _ (IH Hnd')).
    intros a b Ha Hb H. rewrite (Hshift a Ha), (Hshift b Hb). lia.
  - apply Forall_forall. intros y Hy. rewrite (Hshift y Hy).
    cbn [map position]. rewrite Z.eqb_refl.
    pose proof (position_nonneg (key y) (map key ts)). lia.
Qed.

Lemma ascending_NoDup {A} (rank : A -> Z) (l : list A) :
  StronglySorted (fun a b => rank a < rank b) l -> NoDup (map rank l).
Proof.
  intros Hs. induction Hs as [|a l Hs IH Hall]; cbn; constructor;
    [|exact IH].
  rewrite Forall_forall in Hall. intros Hin. apply in_map_iff in Hin.
  destruct Hin as [y [Heq Hy]]. specialize (Hall y Hy). lia.
Qed.

(** The model leaves the order to the store: every arrangement of rows
    with distinct keys is what the store answers under some order. *)
Lemma every_order_is_answered {A} (db : DB) (q : statement) (key : A -> Z)
    (rows target : list A) :
  NoDup (map key rows) -> Permutation target rows ->
  Store.answer (with_answers_before (in_the_order_of (map key target)) db)
               q key rows
  = target.
Proof.
  intros Hnd Hperm. unfold Store.answer, with_answers_before, in_the_order_of.
  cbn [answers_before].
  assert (Hkeys : NoDup (map key target)).
  { apply (Permutation_NoDup (l := map key rows)); [|exact Hnd].
    apply Permutation_map, Permutation_sym, Hperm. }
  pose proof (position_ascending key target Hkeys) as Hs.
  rewrite (arrange_ascending
             (fun a => position (key a) (map key target)) target rows Hs).
  - rewrite filter_ext_in with (g := fun _ => true).
    + clear. induction target as [|a l IH]; cbn; [reflexivity|].
      now rewrite IH.
    + intros y Hy. apply existsb_exists. exists y.
      split; [|apply Z.eqb_refl].
      now apply (Permutation_in _ Hperm).
  - intros x Hx. now apply (Permutation_in _ (Permutation_sym Hperm)).
  - apply (Permutation_NoDup
             (l := map (fun a => position (key a) (map key target)) target)).
    + now apply Permutation_map.
    + now apply ascending_NoDup in Hs.
Qed.

(** A page holds rows of the result. *)
Lemma page_In {A} (offset limit : Z) (rows : list A) (x : A) :
  In x (Sql.page offset limit rows) -> In x rows.
Proof.
  unfold Sql.page. intros H.
  rewrite <- (firstn_skipn (Z.to_nat offset) rows).
  apply in_or_app. right.
  destruct (limit <? 0); [exact H|].
  rewrite <- (firstn_skipn (Z.to_nat limit) (skipn _ rows)).
  apply in_or_app. now left.
Qed.

Lemma page_all {A} (rows : list A) (n : nat) :
  (List.length rows <= n)%nat -> Sql.page 0 (Z.of_nat n) rows = rows.
Proof.
  intros H. unfold Sql.page. cbn [Z.to_nat skipn].
  destruct (Z.of_nat n <? 0) eqn:E; [reflexivity|].
  rewrite Nat2Z.id. now apply firstn_all2.
Qed.

(* ===================================================================== *)
(** ** Lists and keys *)
(* ===================================================================== *)

Lemma mem_In (x : Z) (l : list Z) : Py.mem x l = true <-> In x l.
Proof.
  unfold Py.mem. rewrite existsb_exists. split.
  - intros [y [Hy Heq]]. apply Z.eqb_eq in Heq. now subst.
  - intros H. exists x. split; [assumption | apply Z.eqb_refl].
Qed.

Lemma next_id_above (ids : list Z) (x : Z) : In x ids -> x < next_id ids.
Proof.
  unfold next_id. induction ids as [|y ids IH]; cbn [fold_right In]; [easy|].
  intros [->|H]; [lia|]. specialize (IH H). lia.
Qed.

Lemma next_id_fresh (ids : list Z) : ~ In (next_id ids) ids.
Proof. intros H. apply next_id_above in H. lia. Qed.

Lemma NoDup_map_filter {A} (key : A -> Z) (f : A -> bool) (l : list A) :
  NoDup (map key l) -> NoDup (map key (filter f l)).
Proof.
  induction l as [|a l IH]; simpl; [trivial|].
  intros H. inversion H as [|? ? Hnotin Hnd]; subst.
  destruct (f a); simpl; [|now apply IH].
  constructor; [|now apply IH].
  intros Hin. apply Hnotin. apply in_map_iff in Hin.
  destruct Hin as [b [Hb Hin]]. apply filter_In in Hin.
  apply in_map_iff. exists b. tauto.
Qed.

Lemma nodup_shorter (l : list Z) :
  ~ NoDup l -> (List.length (nodup Z.eq_dec l) < List.length l)%nat.
Proof.
  assert (Hle : forall k : list Z,
             (List.length (nodup Z.eq_dec k) <= List.length k)%nat).
  { induction k as [|y k IHk]; simpl; [lia|].
    destruct (in_dec Z.eq_dec y k); simpl; lia. }
  induction l as [|x l IH]; simpl; intros Hdup.
  - exfalso. apply Hdup. constructor.
  - destruct (in_dec Z.eq_dec x l) as [Hin|Hnotin].
    + specialize (Hle l). lia.
    + simpl. apply -> Nat.succ_lt_mono. apply IH.
      intros Hnd. apply Hdup. now constructor.
Qed.

(** The rows a query by keys finds are no more than the distinct keys. *)
Lemma tasks_in_length (ids : list Z) (db : DB) :
  NoDup (map Task.id (tasks db)) ->
  (List.length (tasks_in ids db) <= List.length (nodup Z.eq_dec ids))%nat.
Proof.
  intros Hnd. unfold tasks_in. rewrite answer_length.
  rewrite <- (length_map Task.id).
  apply NoDup_incl_length.
  - now apply NoDup_map_filter.
  - intros x Hx. apply in_map_iff in Hx. destruct Hx as [t [<- Ht]].
    apply filter_In in Ht. apply nodup_In. apply mem_In. tauto.
Qed.

Lemma tasks_in_missing (ids : list Z) (db : DB) (x : Z) :
  NoDup (map Task.id (tasks db)) ->
  In x ids -> ~ In x (map Task.id (tasks db)) ->
  (List.length (tasks_in ids db) < List.length ids)%nat.
Proof.
  intros Hnd Hx Hmissing. unfold tasks_in. rewrite answer_length.
  rewrite <- (length_map Task.id).
  apply Nat.le_lt_trans with (List.length (remove Z.eq_dec x ids)).
  - apply NoDup_incl_length.
    + now apply NoDup_map_filter.
    + intros y Hy. apply in_map_iff in Hy. destruct Hy as [t [<- Ht]].
      apply filter_In in Ht. destruct Ht as [Hin Hmem].
      apply in_in_remove.
      * intros Heq. apply Hmissing. rewrite <- Heq. now apply in_map.
      * now apply mem_In.
  - now apply remove_length_lt.
Qed.

Lemma tasks_in_In (ids : list Z) (db : DB) (t : Task.t) :
  In t (tasks_in ids db)
  <-> In t (tasks db) /\ Py.mem (Task.id t) ids = true.
Proof. unfold tasks_in. rewrite answer_In. apply filter_In. Qed.

Lemma users_in_In (ids : list Z) (db : DB) (u : User.t) :
  In u (users_in ids db)
  <-> In u (users db) /\ Py.mem (User.id u) ids = true.
Proof. unfold users_in. rewrite answer_In. apply filter_In. Qed.

(* ===================================================================== *)
(** ** Bulk update: the existence check *)
(* ===================================================================== *)

Lemma bulk_update_rejected (bulk_update : TaskBulkUpdate.t)
    (current_user : User.t) (clock : Clock.t) (healthy : option nat)
    (db : DB) :
  List.length (tasks_in (TaskBulkUpdate.task_ids bulk_update) db)
  <> List.length (TaskBulkUpdate.task_ids bulk_update) ->
  serve (bulk_update_tasks bulk_update current_user) clock healthy db
  = (Raise (HTTPException 400 "One or more tasks not found"), db).
Proof.
  intros Hneq. apply Nat.eqb_neq in Hneq.
  unfold serve, bulk_update_tasks, bind, query. simpl.
  now rewrite Hneq.
Qed.

(** X25: when some id of [task_ids] resolves to no task, the bulk update is
    refused before anything is changed: the handler raises the 400 error
    "One or more tasks not found" and the database the next request finds
    is the one this request found. *)
Theorem bulk_update_missing_task_rejects_batch
    (bulk_update : TaskBulkUpdate.t) (current_user : User.t)
    (clock : Clock.t) (healthy : option nat) (db : DB) (missing : Z) :
  NoDup (map Task.id (tasks db)) ->
  In missing (TaskBulkUpdate.task_ids bulk_update) ->
  find_task missing db = None ->
  serve (bulk_update_tasks bulk_update current_user) clock healthy db
  = (Raise (HTTPException 400 "One or more tasks not found"), db).
Proof.
  intros Hnd Hin Hnone. apply bulk_update_rejected.
  assert (Hmissing : ~ In missing (map Task.id (tasks db))).
  { intros H. apply in_map_iff in H. destruct H as [t [Hid Ht]].
    unfold find_task in Hnone.
    assert (Hf : In t (filter (fun t => Task.id t =? missing) (tasks db))).
    { apply filter_In. split; [assumption|]. now apply Z.eqb_eq. }
    destruct (filter (fun t => Task.id t =? missing) (tasks db));
      [contradiction | discriminate]. }
  pose proof (tasks_in_missing _ db missing Hnd Hin Hmissing). lia.
Qed.

(** C10: when [task_ids] lists some id twice, the bulk update is refused
    although every listed id resolves to a task: the rows found are
    counted against the length of the list as it was sent. *)
Theorem bulk_update_repeated_id_rejects_batch
    (bulk_update : TaskBulkUpdate.t) (current_user : User.t)
    (clock : Clock.t) (healthy : option nat) (db : DB) :
  NoDup (map Task.id (tasks db)) ->
  (forall i, In i (TaskBulkUpdate.task_ids bulk_update) ->
             exists t, find_task i db = Some t) ->
  ~ NoDup (TaskBulkUpdate.task_ids bulk_update) ->
  serve (bulk_update_tasks bulk_update current_user) clock healthy db
  = (Raise (HTTPException 400 "One or more tasks not found"), db).
Proof.
  intros Hnd _ Hdup. apply bulk_update_rejected.
  pose proof (tasks_in_length (TaskBulkUpdate.task_ids bulk_update) db Hnd).
  pose proof (nodup_shorter _ Hdup). lia.
Qed.

Lemma family_keys : NoDup (map Task.id (tasks family_db)).
Proof. repeat constructor; simpl; intuition discriminate. Qed.

Lemma bulk_update_missing_task_witness :
  serve (bulk_update_tasks (bulk_for [1; 99] (Present (Some COMPLETED)) Unset)
                           alice) afternoon None family_db
  = (Raise (HTTPException 400 "One or more tasks not found"), family_db).
Proof.
  apply (bulk_update_missing_task_rejects_batch
           (bulk_for [1; 99] (Present (Some COMPLETED)) Unset)
           alice afternoon None family_db 99).
  - exact family_keys.
  - simpl. tauto.
  - reflexivity.
Defined.

(** C2: a bulk update that lists a task that does not exist (here 99,
    beside the existing task 1) is refused and changes nothing, but it is
    answered 400 "One or more tasks not found", where the status of
    [NotFound] is 404 and where every other handler that is addressed to a
    missing task answers 404. *)
Theorem bulk_update_missing_task_answers_400 :
  find_task 99 family_db = None
  /\ find_task 1 family_db = Some task_1
  /\ serve (bulk_update_tasks
              (bulk_for [1; 99] (Present (Some COMPLETED)) Unset) alice)
           afternoon None family_db
     = (Raise (HTTPException 400 "One or more tasks not found"), family_db)
  /\ status_of NotFound = 404
  /\ serve (update_task 99 (status_update (Some COMPLETED)) alice)
           afternoon None family_db
     = (Raise (HTTPException 404 "Task not found"), family_db)
  /\ serve (get_task 99) afternoon None family_db
     = (Raise (HTTPException 404 "Task not found"), family_db)
  /\ serve (delete_task 99 alice) afternoon None family_db
     = (Raise (HTTPException 404 "Task not found"), family_db)
  /\ serve (create_task_dependency 1 (TaskDependencyCreate.mk 99) alice)
           afternoon None family_db
     = (Raise (HTTPException 404 "One or both tasks not found"), family_db)
  /\ serve (create_task (urgent_twice "t" None (Some 99)) alice)
           afternoon None family_db
     = (Raise (HTTPException 404 "Parent task not found"), family_db).
Proof. repeat split. Qed.

Lemma bulk_update_repeated_id_witness :
  serve (bulk_update_tasks (bulk_for [1; 2; 1] (Present (Some COMPLETED)) Unset)
                           alice) afternoon None family_db
  = (Raise (HTTPException 400 "One or more tasks not found"), family_db).
Proof.
  apply (bulk_update_repeated_id_rejects_batch
           (bulk_for [1; 2; 1] (Present (Some COMPLETED)) Unset)
           alice afternoon None family_db).
  - exact family_keys.
  - simpl. intros i [<-|[<-|[<-|[]]]]; eexists; reflexivity.
  - simpl. intros H. inversion H as [|? ? Hnotin _]. apply Hnotin.
    simpl. tauto.
Defined.

(* ===================================================================== *)
(** ** Dependencies *)
(* ===================================================================== *)

Lemma find_dependency_after_insert (blocking blocked : Z) (db : DB)
    (d : TaskDependency.t) (h : list TaskHistory.t) :
  TaskDependency.blocking_task_id d = blocking ->
  TaskDependency.blocked_task_id d = blocked ->
  find_dependency blocking blocked
    (with_task_history h
       (with_task_dependencies (task_dependencies db ++ [d]) db))
  <> None.
Proof.
  intros Hb Hd. unfold find_dependency. simpl.
  rewrite filter_app. simpl. rewrite Hb, Hd, !Z.eqb_refl. simpl.
  destruct (filter _ (task_dependencies db)); discriminate.
Qed.

(** The database after a dependency was created. *)
Lemma create_task_dependency_run (task_id : Z)
    (dependency : TaskDependencyCreate.t) (current_user : User.t)
    (clock : Clock.t) (healthy : option nat) (db : DB) :
  let blocking := TaskDependencyCreate.blocking_task_id dependency in
  serve (create_task_dependency task_id dependency current_user)
        clock healthy db
  = match find_task blocking db, find_task task_id db with
    | Some _, Some _ =>
        if blocking =? task_id then
          (Raise (HTTPException 400 "A task cannot depend on itself"), db)
        else
          match find_dependency blocking task_id db with
          | Some _ => (Raise (HTTPException 400 "Dependency already exists"), db)
          | None =>
              match healthy with
              | Some O => (Raise OperationalError, db)
              | _ =>
                  let key := next_id (map TaskDependency.id
                                          (task_dependencies db)) in
                  let d := TaskDependency.mk key blocking task_id
                             (clock Clock.task_dependencies_created_at key) in
                  let event := next_id (map TaskHistory.id (task_history db)) in
                  (Ok d,
                   with_task_history
                     (task_history db
                      ++ [TaskHistory.mk
                            event
                            task_id (User.id current_user) "dependency_added"
                            (Some "blocking_task") None
                            (Some (Py.str_int blocking))
                            (clock Clock.task_history_timestamp event)])
                     (with_task_dependencies (task_dependencies db ++ [d]) db))
              end
          end
    | _, _ => (Raise (HTTPException 404 "One or both tasks not found"), db)
    end.
Proof.
  intros blocking.
  unfold serve, create_task_dependency, bind, query. simpl. fold blocking.
  destruct (find_task blocking db); [|reflexivity].
  destruct (find_task task_id db); [|reflexivity].
  destruct (blocking =? task_id); [reflexivity|].
  destruct (find_dependency blocking task_id db); [reflexivity|].
  destruct healthy as [[|n]|]; reflexivity.
Qed.

(** C3 (amended): [create_task_dependency] checks, in this order, that both
    tasks exist (404, [NotFound]), that they differ (400 "A task cannot
    depend on itself", [SelfDependency]) and that the ordered pair is not
    yet an edge (400 "Dependency already exists", [DuplicateDependency]);
    a refused request changes nothing. A request with
    [blocking_task_id = task_id] always fails: with [SelfDependency] when
    the task exists, and with [NotFound] when it does not. Once a pair has
    been created, creating it again fails with [DuplicateDependency]. *)
Theorem create_task_dependency_preconditions
    (task_id : Z) (dependency : TaskDependencyCreate.t)
    (current_user : User.t) (clock : Clock.t) (healthy : option nat)
    (db : DB) :
  let blocking := TaskDependencyCreate.blocking_task_id dependency in
  let outcome :=
    serve (create_task_dependency task_id dependency current_user)
          clock healthy db in
  (find_task blocking db = None \/ find_task task_id db = None ->
   outcome = (Raise (HTTPException (status_of NotFound)
                                   "One or both tasks not found"), db))
  /\ (find_task blocking db <> None -> find_task task_id db <> None ->
      blocking = task_id ->
      outcome = (Raise (HTTPException (status_of SelfDependency)
                                      "A task cannot depend on itself"), db))
  /\ (find_task blocking db <> None -> find_task task_id db <> None ->
      blocking <> task_id ->
      find_dependency blocking task_id db <> None ->
      outcome = (Raise (HTTPException (status_of DuplicateDependency)
                                      "Dependency already exists"), db))
  /\ (blocking = task_id -> exists e, outcome = (Raise e, db))
  /\ (forall d db', outcome = (Ok d, db') ->
      TaskDependency.blocking_task_id d = blocking
      /\ TaskDependency.blocked_task_id d = task_id
      /\ In d (task_dependencies db')
      /\ forall user' clock' healthy',
           serve (create_task_dependency task_id dependency user')
                 clock' healthy' db'
           = (Raise (HTTPException (status_of DuplicateDependency)
                                   "Dependency already exists"), db')).
Proof.
  intros blocking outcome. subst outcome.
  rewrite create_task_dependency_run. fold blocking. cbv zeta.
  destruct (find_task blocking db) as [t1|] eqn:E1;
    [destruct (find_task task_id db) as [t2|] eqn:E2|].
  2-3: repeat split; try reflexivity; try congruence;
    try (intros; now eexists); try (intros; discriminate);
    intuition congruence.
  destruct (blocking =? task_id) eqn:Eeq.
  - apply Z.eqb_eq in Eeq.
    repeat split; try reflexivity; try congruence;
      try (intros; now eexists); try (intros [?|?]; congruence);
      intros; discriminate.
  - apply Z.eqb_neq in Eeq.
    destruct (find_dependency blocking task_id db) as [d0|] eqn:Ed.
    + repeat split; try reflexivity; try congruence;
        try (intros [?|?]; congruence); intros; discriminate.
    + split; [intros [?|?]; congruence|].
      split; [congruence|]. split; [congruence|]. split; [congruence|].
      intros d db' H.
      set (key := next_id (map TaskDependency.id (task_dependencies db)))
        in *.
      set (d1 := TaskDependency.mk key blocking task_id
                   (clock Clock.task_dependencies_created_at key)) in *.
      assert (Hd : d = d1
                 /\ exists h, db' = with_task_history h
                        (with_task_dependencies (task_dependencies db ++ [d1])
                                                db)).
      { destruct healthy as [[|n]|]; try discriminate;
          inversion H; subst; (split; [reflexivity|]); eexists;
          reflexivity. }
      destruct Hd as [Hd [h Hdb]]. subst d.
      split; [reflexivity|]. split; [reflexivity|].
      split; [subst db'; simpl; apply in_or_app; right; simpl; tauto|].
      intros user' clock' healthy'. subst db'.
      rewrite create_task_dependency_run. fold blocking. cbv zeta.
      assert (Hfind := find_dependency_after_insert blocking task_id db d1 h
                         eq_refl eq_refl).
      change (find_task blocking (with_task_history h
                (with_task_dependencies (task_dependencies db ++ [d1]) db)))
        with (find_task blocking db).
      change (find_task task_id (with_task_history h
                (with_task_dependencies (task_dependencies db ++ [d1]) db)))
        with (find_task task_id db).
      rewrite E1, E2, (proj2 (Z.eqb_neq _ _) Eeq).
      destruct (find_dependency blocking task_id (with_task_history h _));
        [reflexivity | now elim Hfind].
Qed.

Lemma create_task_dependency_witness :
  serve (create_task_dependency 1 (TaskDependencyCreate.mk 1) alice)
        afternoon None family_db
  = (Raise (HTTPException 400 "A task cannot depend on itself"), family_db)
  /\ exists d db',
       serve (create_task_dependency 2 (TaskDependencyCreate.mk 1) alice)
             afternoon None family_db = (Ok d, db')
       /\ serve (create_task_dependency 2 (TaskDependencyCreate.mk 1) alice)
                afternoon None db'
          = (Raise (HTTPException 400 "Dependency already exists"), db').
Proof.
  split.
  - apply (create_task_dependency_preconditions
             1 (TaskDependencyCreate.mk 1) alice afternoon None family_db);
      [discriminate | discriminate | reflexivity].
  - eexists. eexists. split; [reflexivity|].
    apply (create_task_dependency_preconditions
             2 (TaskDependencyCreate.mk 1) alice afternoon None family_db)
      with (d := TaskDependency.mk 1 1 2
                   (afternoon Clock.task_dependencies_created_at 1)).
    reflexivity.
Defined.

(** A self-dependency on a task that does not exist is answered 404. *)
Lemma self_dependency_on_missing_task_is_NotFound :
  find_task 5 family_db = None
  /\ serve (create_task_dependency 5 (TaskDependencyCreate.mk 5) alice)
           afternoon None family_db
     = (Raise (HTTPException 404 "One or both tasks not found"), family_db)
  /\ ~ fails_with SelfDependency
       (fst (serve (create_task_dependency 5 (TaskDependencyCreate.mk 5)
                                           alice) afternoon None family_db)).
Proof.
  split; [reflexivity|]. split; [reflexivity|].
  intros [detail H]. vm_compute in H. discriminate H.
Qed.

(* ===================================================================== *)
(** ** What a handler leaves untouched before it commits *)
(* ===================================================================== *)

Lemma bind_run {A B} (m : M A) (k : A -> M B) (s : Session) :
  bind m k s = match m s with
               | (Ok a, s') => k a s'
               | (Raise e, s') => (Raise e, s')
               end.
Proof. reflexivity. Qed.

Lemma steady_ret {A} (a : A) : steady (ret a).
Proof. intros s r s' H. inversion H. auto. Qed.

Lemma steady_raise {A} (e : Exception) : steady (@raise A e).
Proof. intros s r s' H. inversion H. auto. Qed.

Lemma steady_query : steady query.
Proof. intros s r s' H. inversion H. auto. Qed.

Lemma steady_now (c : Clock.column) (key : Z) : steady (now c key).
Proof. intros s r s' H. inversion H. auto. Qed.

Lemma steady_set_null_pending : steady set_null_pending.
Proof. intros s r s' H. inversion H. auto. Qed.

Lemma steady_flush : steady flush.
Proof.
  intros s r s' H. unfold flush in H.
  destruct (null_pending s); inversion H; auto.
Qed.

Lemma steady_bind {A B} (m : M A) (k : A -> M B) :
  steady m -> (forall a, steady (k a)) -> steady (bind m k).
Proof.
  intros Hm Hk s r s' H. rewrite bind_run in H.
  destruct (m s) as [[a|e] s1] eqn:E.
  - destruct (Hm _ _ _ E) as (H1 & H2 & H3).
    destruct (Hk a _ _ _ H) as (H4 & H5 & H6).
    repeat split; try congruence. destruct r; [congruence | trivial].
  - inversion H; subst. destruct (Hm _ _ _ E) as (H1 & H2 & _). auto.
Qed.

Lemma steady_log_task_history task_id user_id action field_name old_value
    new_value :
  steady (log_task_history task_id user_id action field_name old_value
                           new_value).
Proof. intros s r s' H. inversion H. auto. Qed.

Lemma steady_get_or_create_tag (tag_name : string) :
  steady (get_or_create_tag tag_name).
Proof.
  intros s r s' H. unfold get_or_create_tag, bind, query, now, set_view in H.
  simpl in H.
  destruct (hd_error _) in H.
  - inversion H. auto.
  - unfold flush in H. simpl in H.
    destruct (null_pending s); inversion H; auto.
Qed.

Lemma steady_append_tags (names : list string) (collection : list Tag.t) :
  steady (append_tags names collection).
Proof.
  revert collection. induction names as [|n names IH]; intros collection.
  - apply steady_ret.
  - simpl. apply steady_bind; [apply steady_get_or_create_tag|].
    intros tag. apply IH.
Qed.

Create HintDb steady.

#[local] Hint Resolve steady_ret steady_raise steady_query steady_now
  steady_set_null_pending steady_flush steady_log_task_history
  steady_get_or_create_tag steady_append_tags : steady.

Lemma steady_setattr_required {A} (set : A -> Task.t -> Task.t)
    (value : option A) (t : Task.t) :
  steady (setattr_required set value t).
Proof.
  destruct value; simpl; [apply steady_ret|].
  apply steady_bind; auto with steady.
Qed.

Lemma steady_setattr_nullable {A} (set : option A -> Task.t -> Task.t)
    (value : option A) (t : Task.t) :
  steady (setattr_nullable set value t).
Proof. apply steady_ret. Qed.

Lemma steady_update_column {A} task_id user_id field_name
    (eqb : A -> A -> bool) truthy str setattr old_value value completes t :
  (forall v t0, steady (setattr v t0)) ->
  steady (update_column task_id user_id field_name eqb truthy str setattr
                        old_value value completes t).
Proof.
  intros Hset. unfold update_column.
  destruct (option_eqb eqb old_value value); [apply steady_ret|].
  apply steady_bind; [apply Hset|]. intros t1.
  apply steady_bind; [apply steady_now|]. intros ts.
  apply steady_bind; [apply steady_log_task_history|]. intros _.
  destruct completes; [|apply steady_ret].
  apply steady_bind; [apply steady_now|]. intros c. apply steady_ret.
Qed.

#[local] Hint Resolve steady_setattr_required steady_setattr_nullable
  steady_update_column : steady.

Lemma frame_ok_refl (t : Task.t) : frame_ok t t.
Proof. repeat split. Qed.

Lemma frame_ok_trans (a b c : Task.t) :
  frame_ok a b -> frame_ok b c -> frame_ok a c.
Proof. unfold frame_ok. intuition congruence. Qed.

Lemma quiet_setattr_required {A} (set : A -> Task.t -> Task.t)
    (value : option A) :
  (forall a t, frame_ok t (set a t)) -> quiet (setattr_required set value).
Proof.
  intros Hset t s t' s' H. destruct value; simpl in H.
  - inversion H. apply Hset.
  - inversion H. apply frame_ok_refl.
Qed.

Lemma quiet_setattr_nullable {A} (set : option A -> Task.t -> Task.t)
    (value : option A) :
  (forall a t, frame_ok t (set a t)) -> quiet (setattr_nullable set value).
Proof. intros Hset t s t' s' H. inversion H. apply Hset. Qed.

Lemma quiet_update_column {A} task_id user_id field_name
    (eqb : A -> A -> bool) truthy str setattr old_value value :
  quiet (setattr value) ->
  quiet (update_column task_id user_id field_name eqb truthy str setattr
                       old_value value false).
Proof.
  intros Hset t s t' s' H. unfold update_column in H.
  destruct (option_eqb eqb old_value value).
  - inversion H. apply frame_ok_refl.
  - rewrite bind_run in H.
    destruct (setattr value t s) as [[t1|e] s1] eqn:E; [|discriminate].
    inversion H. subst. destruct (Hset _ _ _ _ E) as (H1 & H2 & H3).
    repeat split; assumption.
Qed.

Lemma TaskStatus_eqb_eq (a b : TaskStatus) :
  TaskStatus_eqb a b = true <-> a = b.
Proof. destruct a, b; simpl; split; congruence. Qed.

(** The step of [update_task] for [status]: the completion time is stamped
    exactly when the status changes to [COMPLETED]. *)
Lemma status_step_result task_id user_id value t s t' s' :
  update_column task_id user_id "status" TaskStatus_eqb always
    TaskStatus_str (setattr_required set_status) (Some (Task.status t))
    value (is_completed value) t s = (Ok t', s') ->
  Task.id t' = Task.id t
  /\ Task.completed_at t'
     = if is_completed value
          && negb (TaskStatus_eqb (Task.status t) COMPLETED)
       then Some (utcnow s Clock.tasks_completed_at (Task.id t))
       else Task.completed_at t.
Proof.
  unfold update_column. intros H.
  destruct value as [v|]; simpl in H.
  - destruct (TaskStatus_eqb (Task.status t) v) eqn:E.
    + inversion H. subst. split; [reflexivity|].
      apply TaskStatus_eqb_eq in E. subst v.
      destruct (Task.status t'); reflexivity.
    + destruct v;
        cbv [bind ret now query set_view log_task_history setattr_required]
          in H; simpl in H; inversion H; subst; simpl;
        (split; [reflexivity|]); try reflexivity.
      now rewrite E.
  - cbv [bind ret now query set_view log_task_history setattr_required
         set_null_pending] in H.
    simpl in H. inversion H. split; reflexivity.
Qed.

Lemma find_task_replace (task_id : Z) (db : DB) (old new : Task.t) :
  find_task task_id db = Some old ->
  Task.id new = task_id ->
  find_task task_id (replace_task new db) = Some new.
Proof.
  unfold find_task, replace_task. simpl. intros Hold Hid. subst task_id.
  induction (tasks db) as [|r l IH]; simpl in *; [discriminate|].
  destruct (Task.id r =? Task.id new) eqn:E; simpl.
  - rewrite Z.eqb_refl. reflexivity.
  - rewrite E. apply IH. exact Hold.
Qed.

Lemma bind_Ok {A B} (m : M A) (k : A -> M B) (s : Session) (b : B)
    (s2 : Session) :
  bind m k s = (Ok b, s2) ->
  exists a s1, m s = (Ok a, s1) /\ k a s1 = (Ok b, s2).
Proof.
  rewrite bind_run. destruct (m s) as [[a|e] s1]; [|discriminate].
  intros H. now exists a, s1.
Qed.

(** A step of the loop for a column other than [status]. *)
Lemma column_step {A} (f : field A) task_id user_id name
    (eqb : A -> A -> bool) truthy str setattr (old : option A)
    (t : Task.t) (s : Session) (t1 : Task.t) (s1 : Session) :
  (forall v, quiet (setattr v)) ->
  (forall v t0, steady (setattr v t0)) ->
  match f with
  | Unset => ret t
  | Present value =>
      update_column task_id user_id name eqb truthy str setattr old value
                    false t
  end s = (Ok t1, s1) ->
  frame_ok t t1 /\ utcnow s1 = utcnow s.
Proof.
  intros Hq Hs H. destruct f as [|value].
  - inversion H. split; [apply frame_ok_refl | reflexivity].
  - split.
    + eapply quiet_update_column; [apply Hq | exact H].
    + eapply steady_update_column in H; [tauto | exact Hs].
Qed.

Lemma status_step (f : field TaskStatus) task_id user_id
    (t : Task.t) (s : Session) (t1 : Task.t) (s1 : Session) :
  match f with
  | Unset => ret t
  | Present value =>
      update_column task_id user_id "status" TaskStatus_eqb always
        TaskStatus_str (setattr_required set_status) (Some (Task.status t))
        value (is_completed value) t
  end s = (Ok t1, s1) ->
  Task.id t1 = Task.id t /\ utcnow s1 = utcnow s
  /\ Task.completed_at t1
     = if asks_completed f && negb (TaskStatus_eqb (Task.status t) COMPLETED)
       then Some (utcnow s Clock.tasks_completed_at (Task.id t))
       else Task.completed_at t.
Proof.
  intros H. destruct f as [|value].
  - inversion H. repeat split.
  - pose proof (status_step_result _ _ _ _ _ _ _ H) as [Hid Hc].
    split; [exact Hid|]. split.
    + eapply steady_update_column in H; [tauto|].
      intros. apply steady_setattr_required.
    + rewrite Hc. destruct value as [[]|]; reflexivity.
Qed.

Lemma assignees_step (f : field (list Z)) task_id user_id
    (t : Task.t) (s : Session) (t1 : Task.t) (s1 : Session) :
  match f with
  | Present (Some value) =>
      db <- query ;;
      let old_assignees :=
        map (fun u => Py.str_int (User.id u)) (Task_assignees db t) in
      let assignees := users_in value db in
      if Nat.eqb (List.length assignees) (List.length value) then
        let new_assignees :=
          map (fun u => Py.str_int (User.id u)) assignees in
        log_task_history task_id user_id "updated" (Some "assignees")
                         (Some (Py.join "," old_assignees))
                         (Some (Py.join "," new_assignees)) ;;;
        ret (set_assignees (map User.id assignees) t)
      else raise (HTTPException 400 "One or more assignees not found")
  | _ => ret t
  end s = (Ok t1, s1) ->
  frame_ok t t1 /\ utcnow s1 = utcnow s.
Proof.
  intros H. destruct f as [|[value|]];
    try (inversion H; split; [apply frame_ok_refl | reflexivity]).
  cbv [bind query] in H. cbv zeta in H.
  destruct (Nat.eqb _ _); [|discriminate].
  inversion H. subst. split; [repeat split | reflexivity].
Qed.

Lemma tags_step (f : field (list string)) task_id user_id
    (t : Task.t) (s : Session) (t1 : Task.t) (s1 : Session) :
  match f with
  | Present (Some value) =>
      db <- query ;;
      let old_tags := map Tag.name (Task_tags db t) in
      new <- append_tags value [] ;;
      let new_tags := map Tag.name new in
      log_task_history task_id user_id "updated" (Some "tags")
                       (Some (Py.join "," old_tags))
                       (Some (Py.join "," new_tags)) ;;;
      ret (set_tags (map Tag.id new) t)
  | _ => ret t
  end s = (Ok t1, s1) ->
  frame_ok t t1 /\ utcnow s1 = utcnow s.
Proof.
  intros H. destruct f as [|[value|]];
    try (inversion H; split; [apply frame_ok_refl | reflexivity]).
  apply bind_Ok in H. destruct H as (db & s0 & Hq & H).
  inversion Hq. subst. cbv zeta in H.
  apply bind_Ok in H. destruct H as (new & s2 & Hnew & H).
  apply steady_append_tags in Hnew. destruct Hnew as (_ & Hclock & _).
  inversion H. subst. split; [repeat split | exact Hclock].
Qed.

(** The loop of [update_task]: it keeps the key of the task, and stamps
    the completion time exactly when the status changes to [COMPLETED]. *)
Lemma update_fields_result task_id task_update user_id
    (t : Task.t) (s : Session) (t' : Task.t) (s' : Session) :
  update_fields task_id task_update user_id t s = (Ok t', s') ->
  Task.id t' = Task.id t
  /\ Task.completed_at t'
     = if asks_completed (TaskUpdate.status task_update)
          && negb (TaskStatus_eqb (Task.status t) COMPLETED)
       then Some (utcnow s Clock.tasks_completed_at (Task.id t))
       else Task.completed_at t.
Proof.
  unfold update_fields. intros H.
  apply bind_Ok in H. destruct H as (t1 & s1 & E1 & H).
  apply column_step in E1;
    [| intros; apply quiet_setattr_required; repeat split
     | intros; apply steady_setattr_required].
  apply bind_Ok in H. destruct H as (t2 & s2 & E2 & H).
  apply column_step in E2;
    [| intros; apply quiet_setattr_nullable; repeat split
     | intros; apply steady_setattr_nullable].
  apply bind_Ok in H. destruct H as (t3 & s3 & E3 & H).
  apply status_step in E3.
  apply bind_Ok in H. destruct H as (t4 & s4 & E4 & H).
  apply column_step in E4;
    [| intros; apply quiet_setattr_required; repeat split
     | intros; apply steady_setattr_required].
  apply bind_Ok in H. destruct H as (t5 & s5 & E5 & H).
  apply column_step in E5;
    [| intros; apply quiet_setattr_nullable; repeat split
     | intros; apply steady_setattr_nullable].
  apply bind_Ok in H. destruct H as (t6 & s6 & E6 & H).
  apply assignees_step in E6.
  apply bind_Ok in H. destruct H as (t7 & s7 & E7 & H).
  apply tags_step in E7.
  inversion H. subst t7 s7. clear H.
  unfold frame_ok in *.
  destruct E1 as ((I1 & S1 & C1) & K1), E2 as ((I2 & S2 & C2) & K2),
    E3 as (I3 & K3 & C3), E4 as ((I4 & S4 & C4) & K4),
    E5 as ((I5 & S5 & C5) & K5), E6 as ((I6 & S6 & C6) & K6),
    E7 as ((I7 & S7 & C7) & K7).
  split; [congruence|].
  rewrite C7, C6, C5, C4, C3, C2, C1, S2, S1, K2, K1, I2, I1. reflexivity.
Qed.

Lemma steady_update_fields task_id task_update user_id (t : Task.t) :
  steady (update_fields task_id task_update user_id t).
Proof.
  unfold update_fields.
  repeat (apply steady_bind; [|intros ?]);
    repeat match goal with
           | |- steady (match ?f with _ => _ end) => destruct f
           end;
    auto with steady.
  - apply steady_bind; [apply steady_query|]. intros db. cbv zeta.
    destruct (Nat.eqb _ _); [|apply steady_raise].
    apply steady_bind; auto with steady.
  - apply steady_bind; [apply steady_query|]. intros db. cbv zeta.
    apply steady_bind; [apply steady_append_tags|]. intros new.
    apply steady_bind; auto with steady.
Qed.

Lemma find_task_id (task_id : Z) (db : DB) (t : Task.t) :
  find_task task_id db = Some t -> Task.id t = task_id.
Proof.
  unfold find_task. intros H.
  assert (Hin : In t (filter (fun t => Task.id t =? task_id) (tasks db))).
  { destruct (filter _ (tasks db)); inversion H. now left. }
  apply filter_In in Hin. now apply Z.eqb_eq.
Qed.

(** The outcomes of [update_task]: a refusal, which leaves the database as
    it was, or the updated row, stored under the same key. *)
Lemma update_task_outcome task_id task_update current_user clock healthy db :
  match serve (update_task task_id task_update current_user)
              clock healthy db with
  | (Raise _, db') => db' = db
  | (Ok (db_task, _), db') =>
      exists old s',
        find_task task_id db = Some old
        /\ update_fields task_id task_update (User.id current_user) old
             (mkSession db db false clock healthy) = (Ok db_task, s')
        /\ find_task task_id db' = Some db_task
  end.
Proof.
  unfold serve.
  destruct (update_task _ _ _ _) as [r s] eqn:E.
  unfold update_task in E. rewrite bind_run in E. cbn [query view] in E.
  destruct (find_task task_id db) as [old|] eqn:Hold.
  2: { inversion E. reflexivity. }
  rewrite bind_run in E.
  destruct (update_fields _ _ _ _ _) as [[t1|e] s1] eqn:E1.
  2: { inversion E. subst r s.
       apply steady_update_fields in E1. simpl in E1. tauto. }
  pose proof (steady_update_fields _ _ _ _ _ _ _ E1) as (Hst & _ & Htasks).
  simpl in Hst, Htasks.
  cbv [bind query set_view commit] in E. simpl in E.
  destruct (null_pending s1).
  { inversion E. subst r s. simpl. exact Hst. }
  destruct (commits_left s1) as [[|n]|]; inversion E; subst r s; simpl;
    try exact Hst;
    (exists old, s1; split; [reflexivity|]; split; [exact E1|];
     apply find_task_replace with (old := old);
     [ unfold find_task in *; rewrite Htasks; exact Hold
     | apply update_fields_result in E1; destruct E1 as [-> _];
       now apply find_task_id with (db := db) ]).
Qed.

(** C5: an update that changes the status to "completed" stamps
    [completed_at] with the reading of the clock; an update to any other
    status, in particular away from "completed", keeps [completed_at] as
    it was; so does an update that does not touch the status. (An update
    that is refused changes nothing at all.) *)
Theorem update_task_completed_at
    (task_id : Z) (task_update : TaskUpdate.t) (current_user : User.t)
    (clock : Clock.t) (healthy : option nat) (db : DB) :
  match serve (update_task task_id task_update current_user)
              clock healthy db with
  | (Raise _, db') => db' = db
  | (Ok (db_task, _), db') =>
      exists old,
        find_task task_id db = Some old
        /\ find_task task_id db' = Some db_task
        /\ (TaskUpdate.status task_update = Present (Some COMPLETED) ->
            Task.status old <> COMPLETED ->
            Task.completed_at db_task
            = Some (clock Clock.tasks_completed_at task_id))
        /\ (forall v, TaskUpdate.status task_update = Present (Some v) ->
                      v <> COMPLETED ->
                      Task.completed_at db_task = Task.completed_at old)
        /\ (TaskUpdate.status task_update = Unset ->
            Task.completed_at db_task = Task.completed_at old)
  end.
Proof.
  pose proof (update_task_outcome task_id task_update current_user clock
                                  healthy db) as H.
  destruct (serve _ _ _ _) as [[[db_task n]|e] db']; [|exact H].
  destruct H as (old & s' & Hold & Hrun & Hnew).
  apply update_fields_result in Hrun. destruct Hrun as [_ Hc]. simpl in Hc.
  rewrite (find_task_id _ _ _ Hold) in Hc.
  exists old. split; [exact Hold|]. split; [exact Hnew|].
  split; [|split].
  - intros Hs Hne. rewrite Hc, Hs. simpl.
    destruct (TaskStatus_eqb (Task.status old) COMPLETED) eqn:E;
      [|reflexivity].
    apply TaskStatus_eqb_eq in E. contradiction.
  - intros v Hs Hne. rewrite Hc, Hs.
    destruct v; try reflexivity. contradiction.
  - intros Hs. rewrite Hc, Hs. reflexivity.
Qed.

Lemma update_task_completed_at_witness :
  exists db_task n db',
    serve (update_task 1 (status_update (Some COMPLETED)) alice)
          afternoon None family_db = (Ok (db_task, n), db')
    /\ Task.completed_at db_task
       = Some (afternoon Clock.tasks_completed_at 1)
    /\ exists db_task' n' db'',
         serve (update_task 1 (status_update (Some TODO)) alice)
               afternoon None db' = (Ok (db_task', n'), db'')
         /\ Task.completed_at db_task'
            = Some (afternoon Clock.tasks_completed_at 1).
Proof.
  do 3 eexists. split; [reflexivity|]. split.
  - pose proof (update_task_completed_at 1 (status_update (Some COMPLETED))
                  alice afternoon None family_db) as H.
    vm_compute in H. destruct H as (old & Hold & _ & Hc & _).
    inversion Hold. subst old. apply Hc; [reflexivity | discriminate].
  - do 3 eexists. split; [reflexivity|]. reflexivity.
Defined.

(* ===================================================================== *)
(** ** The tag resolver *)
(* ===================================================================== *)

Lemma get_or_create_tag_run (tag_name : string) (s : Session) :
  get_or_create_tag tag_name s
  = match hd_error (filter (named (Py.lower tag_name)) (tags (view s))) with
    | Some tag => (Ok tag, s)
    | None =>
        let key := next_id (map Tag.id (tags (view s))) in
        let tag := Tag.mk key (Py.lower tag_name)
                          (utcnow s Clock.tags_created_at key) in
        let s1 := mkSession (stored s)
                            (with_tags (tags (view s) ++ [tag]) (view s))
                            (null_pending s) (utcnow s) (commits_left s) in
        if null_pending s then (Raise IntegrityError, rollback s1)
        else (Ok tag, s1)
    end.
Proof.
  unfold get_or_create_tag, bind, query, now, set_view, flush, named. simpl.
  destruct (hd_error _); [reflexivity|].
  destruct (null_pending s); reflexivity.
Qed.

Lemma hd_error_In {A} (l : list A) (x : A) : hd_error l = Some x -> In x l.
Proof. destruct l; simpl; intros H; inversion H. now left. Qed.

Lemma hd_error_filter_None {A} (f : A -> bool) (l : list A) :
  hd_error (filter f l) = None <-> forall x, In x l -> f x = false.
Proof.
  split.
  - intros H x Hx. destruct (f x) eqn:E; [|reflexivity].
    assert (Hin : In x (filter f l)) by (apply filter_In; tauto).
    destruct (filter f l); [contradiction | discriminate].
  - intros H. destruct (filter f l) as [|y r] eqn:E; [reflexivity|].
    assert (Hin : In y (filter f l)) by (rewrite E; now left).
    apply filter_In in Hin. destruct Hin as [Hy Hf].
    rewrite (H y Hy) in Hf. discriminate.
Qed.

Lemma filter_none {A} (f : A -> bool) (l : list A) :
  (forall x, In x l -> f x = false) -> filter f l = [].
Proof.
  intros H. induction l as [|a l IH]; simpl; [reflexivity|].
  rewrite (H a (or_introl eq_refl)). apply IH.
  intros x Hx. apply H. now right.
Qed.

(** A key that is unique selects its row alone. *)
Lemma filter_unique_key {A} (key : A -> Z) (l : list A) (x : A) :
  NoDup (map key l) -> In x l ->
  filter (fun y => key y =? key x) l = [x].
Proof.
  induction l as [|a l IH]; simpl; [contradiction|].
  intros Hnd Hin. inversion Hnd as [|? ? Hnotin Hnd']. subst.
  destruct Hin as [->|Hin].
  - rewrite Z.eqb_refl. f_equal. apply filter_none.
    intros y Hy. apply Z.eqb_neq. intros Heq. apply Hnotin.
    rewrite <- Heq. now apply in_map.
  - destruct (key a =? key x) eqn:E.
    + apply Z.eqb_eq in E. exfalso. apply Hnotin. rewrite E.
      now apply in_map.
    + now apply IH.
Qed.

Lemma named_spec (name : string) (g : Tag.t) :
  named name g = true <-> Tag.name g = name.
Proof. unfold named. apply String.eqb_eq. Qed.

Lemma get_or_create_tag_spec (tag_name : string) (s : Session) :
  match get_or_create_tag tag_name s with
  | (Ok g, s') =>
      Tag.name g = Py.lower tag_name
      /\ In g (tags (view s'))
      /\ ((exists g0, In g0 (tags (view s))
                      /\ Tag.name g0 = Py.lower tag_name) ->
          In g (tags (view s)) /\ s' = s)
      /\ ((forall g0, In g0 (tags (view s)) ->
                      Tag.name g0 <> Py.lower tag_name) ->
          tags (view s') = tags (view s) ++ [g]
          /\ ~ In (Tag.id g) (map Tag.id (tags (view s))))
  | (Raise _, _) =>
      null_pending s = true
      /\ forall g0, In g0 (tags (view s)) ->
                    Tag.name g0 <> Py.lower tag_name
  end.
Proof.
  rewrite get_or_create_tag_run.
  destruct (hd_error _) as [g|] eqn:E.
  - pose proof (hd_error_In _ _ E) as Hin. apply filter_In in Hin.
    destruct Hin as [Hin Hname]. apply named_spec in Hname.
    split; [exact Hname|]. split; [exact Hin|]. split; [tauto|].
    intros Hnone. elim (Hnone g Hin Hname).
  - assert (Hnone : forall g0, In g0 (tags (view s)) ->
                               Tag.name g0 <> Py.lower tag_name).
    { intros g0 Hin Hname.
      rewrite hd_error_filter_None in E. specialize (E g0 Hin).
      apply named_spec in Hname. congruence. }
    cbv zeta. destruct (null_pending s); [split; [reflexivity | exact Hnone]|].
    split; [reflexivity|]. simpl.
    split; [apply in_or_app; right; now left|].
    split.
    + intros [g0 [Hin Hname]]. elim (Hnone g0 Hin Hname).
    + intros _. split; [reflexivity | apply next_id_fresh].
Qed.

(** Resolving "Urgent" and then "urgent" yields one tag twice; at most one
    row is added to [tags]. *)
Lemma append_tags_urgent_twice (s : Session) (tags1 : list Tag.t)
    (s1 : Session) :
  null_pending s = false ->
  append_tags ["Urgent"; "urgent"] [] s = (Ok tags1, s1) ->
  exists g,
    tags1 = [g; g] /\ Tag.name g = "urgent"
    /\ ((In g (tags (view s)) /\ s1 = s)
        \/ (~ In (Tag.id g) (map Tag.id (tags (view s)))
            /\ s1 = mkSession (stored s)
                              (with_tags (tags (view s) ++ [g]) (view s))
                              false (utcnow s) (commits_left s))).
Proof.
  intros Hnull H. cbn [append_tags] in H.
  apply bind_Ok in H. destruct H as (g & s0 & E1 & H).
  apply bind_Ok in H. destruct H as (g' & s0' & E2 & H).
  inversion H. subst tags1 s0'. clear H.
  rewrite get_or_create_tag_run in E1, E2.
  change (Py.lower "Urgent") with "urgent" in E1.
  change (Py.lower "urgent") with "urgent" in E2.
  destruct (hd_error (filter (named "urgent") (tags (view s))))
    as [g0|] eqn:E.
  - inversion E1. subst g0 s0. rewrite E in E2. inversion E2. subst g' s1.
    exists g. split; [reflexivity|].
    apply hd_error_In, filter_In in E. destruct E as [Hin Hname].
    apply named_spec in Hname. auto.
  - cbv zeta in E1. rewrite Hnull in E1. inversion E1. subst s0. clear E1.
    cbn [view tags with_tags] in E2. rewrite filter_app in E2.
    rewrite hd_error_filter_None in E. rewrite (filter_none _ _ E) in E2.
    rewrite H0 in E2. cbn in E2. subst g. cbn in E2.
    inversion E2. subst g' s1. eexists. split; [reflexivity|].
    split; [reflexivity|]. right. split; [apply next_id_fresh|].
    reflexivity.
Qed.

(** The checks of [create_task] that come before the tags only read. *)
Lemma create_task_parent_check (parent : option Z) (s : Session) (u : unit)
    (s1 : Session) :
  match parent with
  | Some p =>
      if p =? 0 then ret tt
      else db <- query ;;
           match find_task p db with
           | Some _ => ret tt
           | None => raise (HTTPException 404 "Parent task not found")
           end
  | None => ret tt
  end s = (Ok u, s1) -> s1 = s.
Proof.
  destruct parent as [p|]; [|intros H; now inversion H].
  destruct (p =? 0); [intros H; now inversion H|].
  cbv [bind query]. destruct (find_task p (view s)); intros H;
    now inversion H.
Qed.

Lemma create_task_assignee_check (ids : option (list Z)) (s : Session)
    (found : list User.t) (s1 : Session) :
  match ids with
  | Some (i :: ids) =>
      db <- query ;;
      let found := users_in (i :: ids) db in
      if Nat.eqb (List.length found) (List.length (i :: ids)) then ret found
      else raise (HTTPException 400 "One or more assignees not found")
  | _ => ret []
  end s = (Ok found, s1) -> s1 = s.
Proof.
  destruct ids as [[|i ids]|]; try (intros H; now inversion H).
  cbv [bind query]. cbv zeta. destruct (Nat.eqb _ _); intros H;
    now inversion H.
Qed.

(* ===================================================================== *)
(** ** Task creation and its history record *)
(* ===================================================================== *)

(** C4: [create_task] commits the task, and only then logs and commits the
    "created" record. When the store is lost between the two commits the
    request fails, and the task stays, without any history record; the
    other mutations log and commit once, and lose nothing of the kind. *)
Theorem create_task_commits_before_logging :
  exists t,
    serve (create_task report alice) afternoon (Some 1%nat) empty_db
    = (Raise OperationalError,
       mkDB [alice] [t] [] [] [] storage_order)
    /\ Task.title t = "write report"
    /\ filter (fun h => TaskHistory.task_id h =? Task.id t)
              (task_history (mkDB [alice] [t] [] [] [] storage_order)) = []
    /\ (exists h n,
          serve (create_task report alice) afternoon None empty_db
          = (Ok (t, n), mkDB [alice] [t] [] [] [h] storage_order)
          /\ TaskHistory.task_id h = Task.id t
          /\ TaskHistory.action h = "created")
    /\ snd (serve (create_task_dependency 2 (TaskDependencyCreate.mk 1) alice)
                  afternoon (Some 0%nat) family_db) = family_db.
Proof.
  eexists. split; [reflexivity|]. split; [reflexivity|].
  split; [reflexivity|]. split; [|reflexivity].
  do 2 eexists. split; [reflexivity|]. split; reflexivity.
Qed.

Lemma tags_only_refl (s : Session) : tags_only s s.
Proof. repeat split. Qed.

Lemma tags_only_trans (a b c : Session) :
  tags_only a b -> tags_only b c -> tags_only a c.
Proof. unfold tags_only. intuition congruence. Qed.

Lemma get_or_create_tag_frame (tag_name : string) (s : Session) (g : Tag.t)
    (s' : Session) :
  get_or_create_tag tag_name s = (Ok g, s') -> tags_only s s'.
Proof.
  rewrite get_or_create_tag_run. destruct (hd_error _).
  - intros H. inversion H. apply tags_only_refl.
  - cbv zeta. destruct (null_pending s) eqn:E; [discriminate|].
    intros H. inversion H. subst. unfold tags_only. simpl. rewrite E.
    repeat split.
Qed.

Lemma append_tags_frame (names : list string) (collection : list Tag.t)
    (s : Session) (r : list Tag.t) (s' : Session) :
  append_tags names collection s = (Ok r, s') -> tags_only s s'.
Proof.
  revert collection s. induction names as [|n names IH];
    intros collection s H.
  - inversion H. apply tags_only_refl.
  - cbn [append_tags] in H. apply bind_Ok in H.
    destruct H as (g & s1 & E1 & H).
    apply get_or_create_tag_frame in E1. apply IH in H.
    now apply tags_only_trans with s1.
Qed.


(* ===================================================================== *)
(** ** Bulk update and the assignees *)
(* ===================================================================== *)

(** C9: a bulk update whose [assignee_ids] name a user that does not exist
    is carried out: the task loses its assignees and the request succeeds.
    The same ids sent to [update_task] are refused with the 400 error
    "One or more assignees not found". *)
Theorem bulk_update_skips_assignee_validation :
  users_in [99] assigned_db = []
  /\ (exists t' h,
        serve (bulk_update_tasks (bulk_for [3] Unset (Present (Some [99])))
                                 alice) afternoon None assigned_db
        = (Ok ("Successfully updated 1 tasks", [3]),
           mkDB [alice] [t'] [] [] [h] storage_order)
        /\ Task.assignees task_3 = [1]
        /\ Task.assignees t' = [])
  /\ serve (update_task 3 (assignees_update [99]) alice) afternoon None assigned_db
     = (Raise (HTTPException (status_of InvalidAssignee)
                             "One or more assignees not found"),
        assigned_db).
Proof.
  split; [reflexivity|]. split; [|reflexivity].
  do 2 eexists. split; [reflexivity|]. split; reflexivity.
Qed.

(* ===================================================================== *)
(** ** The filter: subtasks and parents *)
(* ===================================================================== *)

(** C7: with [has_subtasks = true] the filter answers the tasks that have
    a parent, not the tasks that have subtasks: of a parent (task 1) and
    its subtask (task 2) it returns the subtask. With
    [has_subtasks = false] it answers the tasks without a parent. *)
Theorem has_subtasks_selects_children :
  has_children family_db task_1 = true
  /\ has_children family_db task_2 = false
  /\ serve (filter_tasks (filter_has_subtasks true) 0 100 march_8)
           afternoon None family_db
     = (Ok [(task_2, 0%nat)], family_db)
  /\ serve (filter_tasks (filter_has_subtasks false) 0 100 march_8)
           afternoon None family_db
     = (Ok [(task_1, 1%nat)], family_db).
Proof. repeat split. Qed.

(** The filter sent with [parent_task_id = 0] answers every task, the
    subtask as well. *)
Lemma parent_zero_returns_every_task :
  serve (post_filter (with_parent_task_id (Some 0) TaskFilter.default)
                     0 100 march_8) afternoon None family_db
  = (Ok [(task_1, 1%nat); (task_2, 0%nat)], family_db)
  /\ Task.parent_task_id task_2 = Some 1.
Proof. split; reflexivity. Qed.

(** C8 (amended): the parent filter is an exact match on the parent
    reference. The value 0 is dropped by the validator, and a filter sent
    with [parent_task_id = 0] is the filter sent without the field: it puts
    no condition on the parent. *)
Theorem parent_filter_exact_and_zero_unset
    (body : TaskFilter.t) (skip limit : Z) (today : date)
    (clock : Clock.t) (healthy : option nat) (db : DB) :
  post_filter (with_parent_task_id (Some 0) body) skip limit today
  = post_filter (with_parent_task_id None body) skip limit today
  /\ (forall v f,
        v <> 0 ->
        TaskFilter.validate (with_parent_task_id (Some v) body) = Some f ->
        In (parent_eq v) (conditions f today db)
        /\ forall t, Sql.is_true (parent_eq v t) = true
                     <-> Task.parent_task_id t = Some v)
  /\ (forall v,
        v <> 0 ->
        serve (post_filter (with_parent_task_id (Some v) TaskFilter.default)
                           0 (Z.of_nat (List.length (tasks db))) today)
              clock healthy db
        = (Ok (map (with_subtask_count db)
                   (Store.answer db
                      (select_tasks (Some (and_ [parent_eq v]))) Task.id
                      (filter (fun t => match Task.parent_task_id t with
                                        | Some p => p =? v
                                        | None => false
                                        end) (tasks db)))), db)).
Proof.
  split; [reflexivity|]. split.
  - intros v f Hv Hf. unfold TaskFilter.validate in Hf. simpl in Hf.
    destruct (TaskFilter.validate_operator _); [|discriminate].
    inversion Hf. subst f. clear Hf. split.
    + unfold conditions. simpl.
      repeat (apply in_or_app; right).
      destruct v; [contradiction | now left | now left].
    + intros t. unfold parent_eq, Sql.cmp.
      destruct (Task.parent_task_id t) as [p|]; simpl.
      * destruct (p =? v) eqn:E; simpl.
        -- apply Z.eqb_eq in E. subst. tauto.
        -- apply Z.eqb_neq in E. split; [discriminate | congruence].
      * split; discriminate.
  - intros v Hv. unfold serve, post_filter, filter_tasks, bind, query, ret.
    assert (Hval : TaskFilter.validate
                     (with_parent_task_id (Some v) TaskFilter.default)
                   = Some (with_parent_task_id (Some v) TaskFilter.default)).
    { destruct v; [contradiction | reflexivity | reflexivity]. }
    rewrite Hval. cbn [view stored]. unfold tasks_where.
    change (where_clause (with_parent_task_id (Some v) TaskFilter.default)
                         today db)
      with (Some (and_ [parent_eq v])).
    rewrite page_all by (rewrite answer_length; apply filter_length_le).
    do 4 f_equal. apply filter_ext. intros t.
    unfold satisfies, and_, parent_eq, Sql.cmp. cbn [fold_right].
    destruct (Task.parent_task_id t) as [p|]; simpl; [|reflexivity].
    destruct (p =? v); reflexivity.
Qed.

Lemma parent_filter_witness :
  serve (post_filter (with_parent_task_id (Some 1) TaskFilter.default)
                     0 2 march_8) afternoon None family_db
  = (Ok [(task_2, 0%nat)], family_db).
Proof.
  apply (parent_filter_exact_and_zero_unset TaskFilter.default 0 0 march_8
           afternoon None family_db).
  discriminate.
Defined.

(* ===================================================================== *)
(** ** The filter: one operator over all the conditions *)
(* ===================================================================== *)

Lemma and_is_true (cs : list condition) (t : Task.t) :
  Sql.is_true (and_ cs t) = forallb (fun c => Sql.is_true (c t)) cs.
Proof.
  unfold and_. induction cs as [|c cs IH]; simpl; [reflexivity|].
  rewrite <- IH. destruct (c t), (fold_right _ _ cs); reflexivity.
Qed.

Lemma or_is_true (cs : list condition) (t : Task.t) :
  Sql.is_true (or_ cs t) = existsb (fun c => Sql.is_true (c t)) cs.
Proof.
  unfold or_. induction cs as [|c cs IH]; simpl; [reflexivity|].
  rewrite <- IH. destruct (c t), (fold_right _ _ cs); reflexivity.
Qed.

Lemma where_clause_selected filters today db t :
  satisfies (where_clause filters today db) t = selected filters today db t.
Proof.
  unfold where_clause, selected, satisfies.
  destruct (conditions filters today db) as [|c cs]; [reflexivity|].
  destruct (String.eqb _ _); [apply and_is_true | apply or_is_true].
Qed.














Lemma filter_selected filters today db :
  filter (satisfies (where_clause filters today db)) (tasks db)
  = filter (selected filters today db) (tasks db).
Proof. apply filter_ext. intros t. apply where_clause_selected. Qed.

Lemma filter_tasks_run filters skip limit today clock healthy db :
  serve (filter_tasks filters skip limit today) clock healthy db
  = (Ok (map (with_subtask_count db)
             (Sql.page skip limit (answered filters today db))),
     db).
Proof.
  unfold serve, filter_tasks, bind, query, ret, tasks_where, answered.
  cbn [view stored]. now rewrite filter_selected.
Qed.

Lemma with_subtask_count_In (db : DB) (t : Task.t) (l : list Task.t) :
  In (with_subtask_count db t) (map (with_subtask_count db) l) <-> In t l.
Proof.
  split.
  - intros H. apply in_map_iff in H. destruct H as [t0 [Heq Hin]].
    inversion Heq. now subst.
  - intros H. now apply in_map.
Qed.

(** The rows of the filter when the page covers the table. *)
Lemma filter_tasks_all filters today clock healthy db :
  exists rows,
    serve (filter_tasks filters 0 (Z.of_nat (List.length (tasks db))) today)
          clock healthy db = (Ok rows, db)
    /\ forall t, In (with_subtask_count db t) rows
                 <-> In t (tasks db) /\ selected filters today db t = true.
Proof.
  eexists. split; [apply filter_tasks_run|]. intros t.
  rewrite page_all
    by (unfold answered; rewrite answer_length; apply filter_length_le).
  rewrite with_subtask_count_In. unfold answered.
  rewrite answer_In. apply filter_In.
Qed.




(* ===================================================================== *)
(** ** Queries by a list of keys *)
(* ===================================================================== *)

Lemma filter_by_keys_le {A} (key : A -> Z) (l : list A) (ids : list Z) :
  NoDup (map key l) ->
  (List.length (filter (fun a => Py.mem (key a) ids) l)
   <= List.length (nodup Z.eq_dec ids))%nat.
Proof.
  intros Hnd. rewrite <- (length_map key).
  apply NoDup_incl_length.
  - now apply NoDup_map_filter.
  - intros x Hx. apply in_map_iff in Hx. destruct Hx as [a [<- Ha]].
    apply filter_In in Ha. apply nodup_In. apply mem_In. tauto.
Qed.

Lemma filter_by_keys_missing {A} (key : A -> Z) (l : list A) (ids : list Z)
    (x : Z) :
  NoDup (map key l) -> In x ids -> ~ In x (map key l) ->
  (List.length (filter (fun a => Py.mem (key a) ids) l)
   < List.length ids)%nat.
Proof.
  intros Hnd Hx Hmissing. rewrite <- (length_map key).
  apply Nat.le_lt_trans with (List.length (remove Z.eq_dec x ids)).
  - apply NoDup_incl_length.
    + now apply NoDup_map_filter.
    + intros y Hy. apply in_map_iff in Hy. destruct Hy as [a [<- Ha]].
      apply filter_In in Ha. destruct Ha as [Hin Hmem].
      apply in_in_remove.
      * intros Heq. apply Hmissing. rewrite <- Heq. now apply in_map.
      * now apply mem_In.
  - now apply remove_length_lt.
Qed.

Lemma nodup_same_length (l : list Z) :
  (List.length l <= List.length (nodup Z.eq_dec l))%nat -> NoDup l.
Proof.
  assert (Hle : forall k : list Z,
             (List.length (nodup Z.eq_dec k) <= List.length k)%nat).
  { induction k as [|y k IHk]; simpl; [lia|].
    destruct (in_dec Z.eq_dec y k); simpl; lia. }
  induction l as [|x l IH]; simpl; intros H; [constructor|].
  destruct (in_dec Z.eq_dec x l) as [Hin|Hnotin].
  - specialize (Hle l). lia.
  - simpl in H. constructor; [exact Hnotin | apply IH; lia].
Qed.

(** A query by keys finds as many rows as keys were listed exactly when
    the keys are distinct and each one is the key of a row. *)
Lemma filter_by_keys_complete {A} (key : A -> Z) (l : list A)
    (ids : list Z) :
  NoDup (map key l) ->
  List.length (filter (fun a => Py.mem (key a) ids) l) = List.length ids
  <-> NoDup ids /\ forall i, In i ids -> In i (map key l).
Proof.
  intros Hnd. split.
  - intros Hlen. split.
    + apply nodup_same_length.
      pose proof (filter_by_keys_le key l ids Hnd). lia.
    + intros i Hi.
      destruct (in_dec Z.eq_dec i (map key l)) as [H|H]; [exact H|].
      pose proof (filter_by_keys_missing key l ids i Hnd Hi H). lia.
  - intros [Hids Hall]. apply Nat.le_antisymm.
    + pose proof (filter_by_keys_le key l ids Hnd) as H.
      now rewrite (nodup_fixed_point Z.eq_dec Hids) in H.
    + rewrite <- (length_map key (filter _ l)).
      apply NoDup_incl_length; [exact Hids|].
      intros i Hi. specialize (Hall i Hi). apply in_map_iff in Hall.
      destruct Hall as [a [<- Ha]]. apply in_map. apply filter_In.
      split; [exact Ha | now apply mem_In].
Qed.

Lemma find_task_None (task_id : Z) (db : DB) :
  find_task task_id db = None <-> ~ In task_id (map Task.id (tasks db)).
Proof.
  unfold find_task. rewrite hd_error_filter_None. split.
  - intros H Hin. apply in_map_iff in Hin. destruct Hin as [t [<- Ht]].
    specialize (H t Ht). rewrite Z.eqb_refl in H. discriminate.
  - intros H t Ht. apply Z.eqb_neq. intros <-. apply H. now apply in_map.
Qed.

Lemma bind_Ok_run {A B} (m : M A) (k : A -> M B) (s : Session) (a : A)
    (s1 : Session) :
  m s = (Ok a, s1) -> bind m k s = k a s1.
Proof. intros H. rewrite bind_run, H. reflexivity. Qed.

Lemma bind_Raise_run {A B} (m : M A) (k : A -> M B) (s : Session)
    (e : Exception) (s1 : Session) :
  m s = (Raise e, s1) -> bind m k s = (Raise e, s1).
Proof. intros H. rewrite bind_run, H. reflexivity. Qed.

(* ===================================================================== *)
(** ** Task creation: validation and outcome *)
(* ===================================================================== *)

(** X1: [create_task] answers 404 when the parent task does not exist, and
    stores nothing. *)
Theorem create_task_parent_not_found
    (task : TaskCreate.t) (current_user : User.t) (clock : Clock.t)
    (healthy : option nat) (db : DB) (p : Z) :
  TaskCreate.parent_task_id task = Some p ->
  p <> 0 ->
  find_task p db = None ->
  serve (create_task task current_user) clock healthy db
  = (Raise (HTTPException 404 "Parent task not found"), db).
Proof.
  intros Hp Hz Hnone. unfold serve, create_task. rewrite Hp.
  apply Z.eqb_neq in Hz. rewrite Hz.
  rewrite bind_run. cbv [bind query]. cbn [view]. rewrite Hnone.
  reflexivity.
Qed.

Lemma create_task_parent_not_found_witness :
  serve (create_task (urgent_twice "t" None (Some 7)) alice) afternoon None
        family_db
  = (Raise (HTTPException 404 "Parent task not found"), family_db).
Proof.
  apply (create_task_parent_not_found (urgent_twice "t" None (Some 7)) alice
           afternoon None family_db 7); [reflexivity | discriminate | reflexivity].
Defined.

Lemma create_task_parent_accepts (parent : option Z) (s : Session) :
  parent_accepted parent (view s) ->
  match parent with
  | Some p =>
      if p =? 0 then ret tt
      else db <- query ;;
           match find_task p db with
           | Some _ => ret tt
           | None => raise (HTTPException 404 "Parent task not found")
           end
  | None => ret tt
  end s = (Ok tt, s).
Proof.
  destruct parent as [p|]; [|reflexivity]. simpl.
  destruct (p =? 0) eqn:E; [reflexivity|].
  intros [H|H]; [apply Z.eqb_neq in E; contradiction|].
  cbv [bind query].
  destruct (find_task p (view s)) eqn:Ef; [reflexivity|].
  apply find_task_None in Ef. contradiction.
Qed.

(** X2: [create_task] answers 400 when the assignee ids do not resolve: an id
    that is no user's key, and also an id listed twice. Nothing is
    stored. *)
Theorem create_task_rejects_unresolved_assignees
    (task : TaskCreate.t) (current_user : User.t) (clock : Clock.t)
    (healthy : option nat) (db : DB) (ids : list Z) :
  NoDup (map User.id (users db)) ->
  parent_accepted (TaskCreate.parent_task_id task) db ->
  TaskCreate.assignee_ids task = Some ids ->
  ids <> [] ->
  ~ users_resolve ids db ->
  serve (create_task task current_user) clock healthy db
  = (Raise (HTTPException 400 "One or more assignees not found"), db).
Proof.
  intros Hnd Hparent Hids Hne Hbad. unfold serve, create_task.
  rewrite (bind_Ok_run _ _ _ _ _
             (create_task_parent_accepts
                _ (mkSession db db false clock healthy) Hparent)).
  rewrite Hids. destruct ids as [|i ids]; [contradiction|].
  rewrite bind_run. cbv [bind query]. cbv zeta. cbn [view].
  destruct (Nat.eqb _ _) eqn:E; [|reflexivity].
  apply Nat.eqb_eq in E. unfold users_in in E. rewrite answer_length in E.
  apply (filter_by_keys_complete User.id (users db) (i :: ids) Hnd) in E.
  contradiction.
Qed.

Lemma create_task_rejects_unresolved_assignees_witness :
  serve (create_task (urgent_twice "t" (Some [1; 1]) None) alice) afternoon None
        family_db
  = (Raise (HTTPException 400 "One or more assignees not found"), family_db).
Proof.
  apply (create_task_rejects_unresolved_assignees
           (urgent_twice "t" (Some [1; 1]) None) alice afternoon None family_db
           [1; 1]).
  - repeat constructor. simpl. tauto.
  - exact I.
  - reflexivity.
  - discriminate.
  - intros [H _]. inversion H as [|? ? Hnotin _]. apply Hnotin. now left.
Defined.


(** The tag loop cannot fail while no [NULL] is pending. *)
Lemma append_tags_total (names : list string) (collection : list Tag.t)
    (s : Session) :
  null_pending s = false ->
  exists r s', append_tags names collection s = (Ok r, s')
               /\ tags_only s s'.
Proof.
  revert collection s. induction names as [|n names IH];
    intros collection s Hnull.
  - exists collection, s. split; [reflexivity | apply tags_only_refl].
  - cbn [append_tags].
    destruct (get_or_create_tag n s) as [[g|e] s1] eqn:E.
    + pose proof (get_or_create_tag_frame _ _ _ _ E) as Hf.
      assert (Hnull1 : null_pending s1 = false).
      { destruct Hf as (_ & H & _). congruence. }
      destruct (IH (collection ++ [g]) s1 Hnull1) as (r & s' & Hr & Hf').
      exists r, s'. split.
      * rewrite (bind_Ok_run _ _ _ _ _ E). exact Hr.
      * now apply tags_only_trans with s1.
    + exfalso. rewrite get_or_create_tag_run in E.
      destruct (hd_error _); [discriminate|].
      cbv zeta in E. rewrite Hnull in E. discriminate.
Qed.

Lemma create_task_assignees_accepted (ids : option (list Z)) (s : Session) :
  NoDup (map User.id (users (view s))) ->
  match ids with
  | Some l => users_resolve l (view s)
  | None => True
  end ->
  match ids with
  | Some (i :: ids) =>
      db <- query ;;
      let found := users_in (i :: ids) db in
      if Nat.eqb (List.length found) (List.length (i :: ids)) then ret found
      else raise (HTTPException 400 "One or more assignees not found")
  | _ => ret []
  end s
  = (Ok match ids with
        | Some l => users_in l (view s)
        | None => []
        end, s).
Proof.
  intros Hnd Hres. destruct ids as [[|i ids]|]; try reflexivity.
  - unfold users_in. cbn [Py.mem existsb]. rewrite filter_none; [reflexivity|].
    intros x _. reflexivity.
  - cbv [bind query]. cbv zeta.
    apply (filter_by_keys_complete User.id _ _ Hnd) in Hres.
    unfold users_in. rewrite answer_length, Hres, Nat.eqb_refl. reflexivity.
Qed.


(** What [create_task] does with a [TaskCreate] whose parent and assignees
    resolve, on a healthy store. *)
Lemma create_task_runs
    (task : TaskCreate.t) (current_user : User.t) (clock : Clock.t)
    (db : DB) :
  NoDup (map User.id (users db)) ->
  parent_accepted (TaskCreate.parent_task_id task) db ->
  match TaskCreate.assignee_ids task with
  | Some ids => users_resolve ids db
  | None => True
  end ->
  exists tag_ids n db',
    let key := next_id (map Task.id (tasks db)) in
    let t :=
      Task.mk key
              (TaskCreate.title task) (TaskCreate.description task)
              (TaskCreate.status task) (TaskCreate.priority task)
              (TaskCreate.due_date task) (User.id current_user)
              (TaskCreate.parent_task_id task)
              (clock Clock.tasks_created_at key)
              (clock Clock.tasks_updated_at key) None
              (map User.id match TaskCreate.assignee_ids task with
                           | Some ids => users_in ids db
                           | None => []
                           end)
              tag_ids in
    serve (create_task task current_user) clock None db = (Ok (t, n), db')
    /\ ~ In (Task.id t) (map Task.id (tasks db))
    /\ tasks db' = tasks db ++ [t]
    /\ users db' = users db
    /\ task_dependencies db' = task_dependencies db
    /\ (parents_exist db -> n = 0%nat).
Proof.
  intros Hnd Hparent Hres. unfold serve, create_task.
  set (s0 := mkSession db db false clock None).
  rewrite (bind_Ok_run _ _ _ _ _
             (create_task_parent_accepts _ s0 Hparent)).
  rewrite (bind_Ok_run _ _ _ _ _
             (create_task_assignees_accepted _ s0 Hnd Hres)).
  assert (Htags : exists r s',
             match TaskCreate.tag_names task with
             | Some (n :: names) => append_tags (n :: names) []
             | _ => ret []
             end s0 = (Ok r, s') /\ tags_only s0 s').
  { destruct (TaskCreate.tag_names task) as [[|x l]|].
    - exists [], s0. split; [reflexivity | apply tags_only_refl].
    - now apply append_tags_total.
    - exists [], s0. split; [reflexivity | apply tags_only_refl]. }
  destruct Htags as (r & s1 & Hr & Hf).
  rewrite (bind_Ok_run _ _ _ _ _ Hr).
  destruct Hf as (Hst & Hnull & Hclock & Hleft & Hu & Ht & Hd & Hh).
  cbn [s0 stored view null_pending utcnow commits_left] in *.
  cbv [bind query now set_view commit log_task_history ret].
  cbn [view stored null_pending utcnow commits_left].
  rewrite Hnull, Hleft, Hclock, Ht. cbn -[next_id json_dumps Store.answer].
  exists (map Tag.id r). eexists. eexists. cbv zeta.
  split; [reflexivity|]. cbn -[next_id json_dumps Store.answer].
  split; [apply next_id_fresh|]. split; [reflexivity|].
  split; [exact Hu|]. split; [exact Hd|].
  intros Hfk. unfold Task_subtasks.
  rewrite answer_length. cbn -[next_id].
  rewrite filter_app. rewrite filter_none.
  - cbn -[next_id].
    destruct (TaskCreate.parent_task_id task) as [p|] eqn:Ep;
      [|reflexivity].
    destruct (p =? next_id (map Task.id (tasks db))) eqn:E; [|reflexivity].
    apply Z.eqb_eq in E. exfalso. destruct Hparent as [H0|Hin].
    + pose proof (next_id_fresh (0 :: map Task.id (tasks db))) as Hfresh.
      unfold next_id in *. cbn [fold_right] in Hfresh. subst p.
      assert (0 <= fold_right Z.max 0 (map Task.id (tasks db))).
      { clear. induction (map Task.id (tasks db)); simpl; lia. }
      lia.
    + subst p. now apply next_id_fresh in Hin.
  - intros x Hx. destruct (Task.parent_task_id x) as [p|] eqn:Ep;
      [|reflexivity].
    apply Z.eqb_neq. intros ->. apply (Hfk x _ Hx) in Ep.
    now apply next_id_fresh in Ep.
Qed.



(* ===================================================================== *)
(** ** Updates: refusals, repetitions, and the history they write *)
(* ===================================================================== *)

Lemma history_only_refl (s : Session) : history_only s s.
Proof. repeat split. Qed.

Lemma history_only_trans (a b c : Session) :
  history_only a b -> history_only b c -> history_only a c.
Proof. unfold history_only. intuition congruence. Qed.

Lemma setattr_required_total {A} (set : A -> Task.t -> Task.t)
    (v : option A) (t0 : Task.t) (s0 : Session) :
  exists t1 s1, setattr_required set v t0 s0 = (Ok t1, s1)
                /\ history_only s0 s1.
Proof.
  destruct v; do 2 eexists; (split; [reflexivity|]); repeat split.
Qed.

Lemma setattr_nullable_total {A} (set : option A -> Task.t -> Task.t)
    (v : option A) (t0 : Task.t) (s0 : Session) :
  exists t1 s1, setattr_nullable set v t0 s0 = (Ok t1, s1)
                /\ history_only s0 s1.
Proof. do 2 eexists. split; [reflexivity|]. repeat split. Qed.

(** The steps of [update_task] for the columns never raise. *)
Lemma column_step_total {A} (f : field A) task_id user_id name
    (eqb : A -> A -> bool) truthy str setattr (old : option A)
    (completes : option A -> bool) (t : Task.t) (s : Session) :
  (forall v t0 s0, exists t1 s1, setattr v t0 s0 = (Ok t1, s1)
                                 /\ history_only s0 s1) ->
  exists t1 s1,
    match f with
    | Unset => ret t
    | Present value =>
        update_column task_id user_id name eqb truthy str setattr old value
                      (completes value) t
    end s = (Ok t1, s1)
    /\ history_only s s1.
Proof.
  intros Hset. destruct f as [|value].
  - exists t, s. split; [reflexivity | apply history_only_refl].
  - unfold update_column. destruct (option_eqb eqb old value).
    + exists t, s. split; [reflexivity | apply history_only_refl].
    + destruct (Hset value t s) as (t1 & s1 & E & Hf).
      rewrite (bind_Ok_run _ _ _ _ _ E).
      cbv [bind now log_task_history query set_view ret].
      destruct (completes value); do 2 eexists;
        (split; [reflexivity|]);
        unfold history_only in *; simpl; intuition congruence.
Qed.

Lemma update_fields_refuses_assignees task_id task_update user_id
    (t : Task.t) (s : Session) (ids : list Z) :
  NoDup (map User.id (users (view s))) ->
  TaskUpdate.assignee_ids task_update = Present (Some ids) ->
  ~ users_resolve ids (view s) ->
  exists s',
    update_fields task_id task_update user_id t s
    = (Raise (HTTPException 400 "One or more assignees not found"), s')
    /\ stored s' = stored s.
Proof.
  intros Hnd Hids Hbad. unfold update_fields.
  pose proof (column_step_total (TaskUpdate.title task_update) task_id
                user_id "title" String.eqb Py.truthy_str (fun v => v)
                (setattr_required set_title) (Some (Task.title t))
                (fun _ => false) t s (setattr_required_total set_title))
    as H1.
  cbv beta in H1. destruct H1 as (t1 & s1 & E1 & F1).
  rewrite (bind_Ok_run _ _ _ _ _ E1).
  pose proof (column_step_total (TaskUpdate.description task_update) task_id
                user_id "description" String.eqb Py.truthy_str (fun v => v)
                (setattr_nullable set_description) (Task.description t1)
                (fun _ => false) t1 s1
                (setattr_nullable_total set_description)) as H2.
  cbv beta in H2. destruct H2 as (t2 & s2 & E2 & F2).
  rewrite (bind_Ok_run _ _ _ _ _ E2).
  pose proof (column_step_total (TaskUpdate.status task_update) task_id
                user_id "status" TaskStatus_eqb always TaskStatus_str
                (setattr_required set_status) (Some (Task.status t2))
                is_completed t2 s2 (setattr_required_total set_status))
    as H3.
  destruct H3 as (t3 & s3 & E3 & F3).
  rewrite (bind_Ok_run _ _ _ _ _ E3).
  pose proof (column_step_total (TaskUpdate.priority task_update) task_id
                user_id "priority" TaskPriority_eqb always TaskPriority_str
                (setattr_required set_priority) (Some (Task.priority t3))
                (fun _ => false) t3 s3
                (setattr_required_total set_priority)) as H4.
  cbv beta in H4. destruct H4 as (t4 & s4 & E4 & F4).
  rewrite (bind_Ok_run _ _ _ _ _ E4).
  pose proof (column_step_total (TaskUpdate.due_date task_update) task_id
                user_id "due_date" date_eqb always str_date
                (setattr_nullable set_due_date) (Task.due_date t4)
                (fun _ => false) t4 s4
                (setattr_nullable_total set_due_date)) as H5.
  cbv beta in H5. destruct H5 as (t5 & s5 & E5 & F5).
  rewrite (bind_Ok_run _ _ _ _ _ E5).
  assert (F : history_only s s5).
  { repeat (eapply history_only_trans; [eassumption|]).
    apply history_only_refl. }
  destruct F as (Hst & _ & _ & Hu & _).
  rewrite Hids. rewrite bind_run. cbv [bind query]. cbv zeta.
  destruct (Nat.eqb _ _) eqn:E.
  - exfalso. apply Hbad. apply Nat.eqb_eq in E. unfold users_in in E.
    rewrite answer_length, Hu in E.
    apply (filter_by_keys_complete User.id _ ids Hnd) in E. exact E.
  - exists s5. split; [reflexivity | exact Hst].
Qed.

(** X6: [update_task] refuses the whole update with 400 when the assignee ids
    do not resolve (an unknown id, or an id listed twice): the scalar
    fields sent along are not applied and no history is written. *)
Theorem update_task_rejects_unresolved_assignees
    (task_id : Z) (task_update : TaskUpdate.t) (current_user : User.t)
    (clock : Clock.t) (healthy : option nat) (db : DB)
    (old : Task.t) (ids : list Z) :
  NoDup (map User.id (users db)) ->
  find_task task_id db = Some old ->
  TaskUpdate.assignee_ids task_update = Present (Some ids) ->
  ~ users_resolve ids db ->
  serve (update_task task_id task_update current_user) clock healthy db
  = (Raise (HTTPException 400 "One or more assignees not found"), db).
Proof.
  intros Hnd Hold Hids Hbad. unfold serve, update_task.
  rewrite bind_run. cbn [query view]. rewrite Hold.
  destruct (update_fields_refuses_assignees task_id task_update
              (User.id current_user) old
              (mkSession db db false clock healthy) ids Hnd Hids Hbad)
    as (s' & E & Hst).
  rewrite (bind_Raise_run _ _ _ _ _ E). now rewrite Hst.
Qed.

Lemma update_task_rejects_unresolved_assignees_witness :
  serve (update_task 3
           (TaskUpdate.mk (Present (Some "renamed")) Unset
                          (Present (Some COMPLETED)) Unset Unset
                          (Present (Some [1; 99])) Unset)
           alice) afternoon None assigned_db
  = (Raise (HTTPException 400 "One or more assignees not found"),
     assigned_db).
Proof.
  apply (update_task_rejects_unresolved_assignees 3
           (TaskUpdate.mk (Present (Some "renamed")) Unset
                          (Present (Some COMPLETED)) Unset Unset
                          (Present (Some [1; 99])) Unset)
           alice afternoon None assigned_db task_3 [1; 99]).
  - repeat constructor. simpl. tauto.
  - reflexivity.
  - reflexivity.
  - intros [_ H]. specialize (H 99 (or_intror (or_introl eq_refl))).
    simpl in H. destruct H as [H|[]]. discriminate H.
Defined.

Lemma option_eqb_refl {A} (eqb : A -> A -> bool) (a : option A) :
  (forall x, eqb x x = true) -> option_eqb eqb a a = true.
Proof. intros H. destruct a; simpl; [apply H | reflexivity]. Qed.

Lemma TaskStatus_eqb_refl (a : TaskStatus) : TaskStatus_eqb a a = true.
Proof. destruct a; reflexivity. Qed.

Lemma TaskPriority_eqb_refl (a : TaskPriority) : TaskPriority_eqb a a = true.
Proof. destruct a; reflexivity. Qed.

Lemma date_eqb_refl (d : date) : date_eqb d d = true.
Proof. unfold date_eqb. now rewrite !Z.eqb_refl. Qed.

Lemma update_fields_repeats task_id task_update user_id (t : Task.t)
    (s : Session) :
  repeats_current task_update t ->
  update_fields task_id task_update user_id t s = (Ok t, s).
Proof.
  intros (H1 & H2 & H3 & H4 & H5 & H6 & H7). unfold update_fields.
  assert (E1 : match TaskUpdate.title task_update with
               | Unset => ret t
               | Present value =>
                   update_column task_id user_id "title" String.eqb
                     Py.truthy_str (fun v => v) (setattr_required set_title)
                     (Some (Task.title t)) value false t
               end s = (Ok t, s)).
  { destruct H1 as [-> | ->]; [reflexivity|]. unfold update_column.
    cbn [option_eqb]. now rewrite String.eqb_refl. }
  rewrite (bind_Ok_run _ _ _ _ _ E1). clear E1.
  assert (E2 : match TaskUpdate.description task_update with
               | Unset => ret t
               | Present value =>
                   update_column task_id user_id "description" String.eqb
                     Py.truthy_str (fun v => v)
                     (setattr_nullable set_description)
                     (Task.description t) value false t
               end s = (Ok t, s)).
  { destruct H2 as [-> | ->]; [reflexivity|]. unfold update_column.
    now rewrite (option_eqb_refl _ _ String.eqb_refl). }
  rewrite (bind_Ok_run _ _ _ _ _ E2). clear E2.
  assert (E3 : match TaskUpdate.status task_update with
               | Unset => ret t
               | Present value =>
                   update_column task_id user_id "status" TaskStatus_eqb
                     always TaskStatus_str (setattr_required set_status)
                     (Some (Task.status t)) value (is_completed value) t
               end s = (Ok t, s)).
  { destruct H3 as [-> | ->]; [reflexivity|]. unfold update_column.
    cbn [option_eqb]. now rewrite TaskStatus_eqb_refl. }
  rewrite (bind_Ok_run _ _ _ _ _ E3). clear E3.
  assert (E4 : match TaskUpdate.priority task_update with
               | Unset => ret t
               | Present value =>
                   update_column task_id user_id "priority" TaskPriority_eqb
                     always TaskPriority_str (setattr_required set_priority)
                     (Some (Task.priority t)) value false t
               end s = (Ok t, s)).
  { destruct H4 as [-> | ->]; [reflexivity|]. unfold update_column.
    cbn [option_eqb]. now rewrite TaskPriority_eqb_refl. }
  rewrite (bind_Ok_run _ _ _ _ _ E4). clear E4.
  assert (E5 : match TaskUpdate.due_date task_update with
               | Unset => ret t
               | Present value =>
                   update_column task_id user_id "due_date" date_eqb always
                     str_date (setattr_nullable set_due_date)
                     (Task.due_date t) value false t
               end s = (Ok t, s)).
  { destruct H5 as [-> | ->]; [reflexivity|]. unfold update_column.
    now rewrite (option_eqb_refl _ _ date_eqb_refl). }
  rewrite (bind_Ok_run _ _ _ _ _ E5). clear E5.
  destruct H6 as [-> | ->]; destruct H7 as [-> | ->]; reflexivity.
Qed.

Lemma NoDup_key_inj {A} (key : A -> Z) (l : list A) (a b : A) :
  NoDup (map key l) -> In a l -> In b l -> key a = key b -> a = b.
Proof.
  induction l as [|x l IH]; simpl; [contradiction|].
  intros Hnd Ha Hb Heq. inversion Hnd as [|? ? Hnotin Hnd']. subst.
  destruct Ha as [->|Ha], Hb as [->|Hb]; try reflexivity.
  - exfalso. apply Hnotin. rewrite Heq. now apply in_map.
  - exfalso. apply Hnotin. rewrite <- Heq. now apply in_map.
  - now apply IH.
Qed.

Lemma find_task_In (task_id : Z) (db : DB) (t : Task.t) :
  find_task task_id db = Some t -> In t (tasks db).
Proof.
  unfold find_task. intros H. apply hd_error_In in H.
  apply filter_In in H. tauto.
Qed.

Lemma replace_task_same (task_id : Z) (db : DB) (t : Task.t) :
  NoDup (map Task.id (tasks db)) ->
  find_task task_id db = Some t ->
  replace_task t db = db.
Proof.
  intros Hnd Hfind. apply find_task_In in Hfind.
  unfold replace_task. destruct db as [u l g d h]. simpl in *. f_equal.
  rewrite <- (map_id l) at 2. apply map_ext_in. intros r Hr.
  destruct (Task.id r =? Task.id t) eqn:E; [|reflexivity].
  apply Z.eqb_eq in E. symmetry.
  now apply (NoDup_key_inj Task.id l r t Hnd).
Qed.

(** X7: An update that repeats the values the task holds succeeds and writes
    nothing: no history record, and the row keeps its [updated_at]. *)
Theorem update_task_repeating_values_writes_nothing
    (task_id : Z) (task_update : TaskUpdate.t) (current_user : User.t)
    (clock : Clock.t) (db : DB) (old : Task.t) :
  NoDup (map Task.id (tasks db)) ->
  find_task task_id db = Some old ->
  repeats_current task_update old ->
  serve (update_task task_id task_update current_user) clock None db
  = (Ok (old, List.length (Task_subtasks db old)), db).
Proof.
  intros Hnd Hold Hrep. unfold serve, update_task.
  rewrite bind_run. cbn [query view]. rewrite Hold.
  rewrite (bind_Ok_run _ _ _ _ _
             (update_fields_repeats task_id task_update
                (User.id current_user) old _ Hrep)).
  cbv [bind query set_view commit ret].
  cbn [view stored null_pending utcnow commits_left].
  rewrite (replace_task_same task_id db old Hnd Hold). reflexivity.
Qed.

Lemma update_task_repeating_values_witness :
  serve (update_task 1
           (TaskUpdate.mk (Present (Some "a")) (Present None)
                          (Present (Some TODO)) Unset Unset Unset
                          (Present None))
           alice) afternoon None family_db
  = (Ok (task_1, 1%nat), family_db).
Proof.
  apply (update_task_repeating_values_writes_nothing 1
           (TaskUpdate.mk (Present (Some "a")) (Present None)
                          (Present (Some TODO)) Unset Unset Unset
                          (Present None))
           alice afternoon family_db task_1).
  - exact family_keys.
  - reflexivity.
  - unfold repeats_current. simpl. tauto.
Defined.

(** X8: A status change through [update_task] stores the new status, renews
    [updated_at] and appends one history record, "updated" / "status",
    carrying [str] of the old and of the new member. *)
Theorem update_task_logs_status_change
    (task_id : Z) (v : TaskStatus) (current_user : User.t)
    (clock : Clock.t) (db : DB) (old : Task.t) :
  find_task task_id db = Some old ->
  v <> Task.status old ->
  exists t' n db',
    serve (update_task task_id (status_update (Some v)) current_user)
          clock None db = (Ok (t', n), db')
    /\ find_task task_id db' = Some t'
    /\ Task.status t' = v
    /\ Task.updated_at t' = clock Clock.tasks_updated_at task_id
    /\ Task.title t' = Task.title old
    /\ Task.assignees t' = Task.assignees old
    /\ task_history db'
       = task_history db
         ++ [TaskHistory.mk (next_id (map TaskHistory.id (task_history db)))
               task_id (User.id current_user) "updated" (Some "status")
               (Some (TaskStatus_str (Task.status old)))
               (Some (TaskStatus_str v))
               (clock Clock.task_history_timestamp
                      (next_id (map TaskHistory.id (task_history db))))].
Proof.
  intros Hold Hv.
  assert (Hneq : TaskStatus_eqb (Task.status old) v = false).
  { destruct (TaskStatus_eqb (Task.status old) v) eqn:E; [|reflexivity].
    apply TaskStatus_eqb_eq in E. congruence. }
  pose proof (find_task_id _ _ _ Hold) as Hid.
  assert (Hrep : forall t' h,
             Task.id t' = task_id ->
             find_task task_id
               (replace_task t' (with_task_history h db)) = Some t').
  { intros t' h Ht'. apply find_task_replace with (old := old);
      [exact Hold | exact Ht']. }
  unfold serve, update_task. rewrite bind_run. cbn [query view].
  rewrite Hold. unfold update_fields, status_update, update_column.
  cbn [TaskUpdate.title TaskUpdate.description TaskUpdate.status
       TaskUpdate.priority TaskUpdate.due_date TaskUpdate.assignee_ids
       TaskUpdate.tag_names option_eqb].
  cbv [bind ret]. rewrite Hneq.
  cbv [setattr_required bind ret now log_task_history query set_view commit].
  cbn [view stored null_pending utcnow commits_left].
  cbn [Task.id set_status]. rewrite Hid.
  destruct v; cbn [is_completed]; do 3 eexists;
    (split; [reflexivity|]);
    (split; [apply Hrep; exact Hid|]); repeat split.
Qed.

Lemma update_task_logs_status_change_witness :
  exists t' n db',
    serve (update_task 1 (status_update (Some IN_REVIEW)) alice)
          afternoon None family_db = (Ok (t', n), db')
    /\ Task.status t' = IN_REVIEW
    /\ List.length (task_history db') = 1%nat.
Proof.
  destruct (update_task_logs_status_change 1 IN_REVIEW alice afternoon family_db
              task_1 eq_refl)
    as (t' & n & db' & Hrun & _ & Hs & _ & _ & _ & Hh).
  - discriminate.
  - exists t', n, db'. split; [exact Hrun|]. split; [exact Hs|].
    rewrite Hh. reflexivity.
Defined.

(* ===================================================================== *)
(** ** Handlers addressed to a row that does not exist *)
(* ===================================================================== *)

(** X10: [get_task], [update_task] and [delete_task] answer 404 "Task not
    found" for a key that no task has, and [delete_task_dependency] 404
    "Dependency not found" for a key that no dependency has; none of them
    changes the database. *)
Theorem missing_rows_are_answered_404
    (key : Z) (task_update : TaskUpdate.t) (current_user : User.t)
    (clock : Clock.t) (healthy : option nat) (db : DB) :
  (find_task key db = None ->
   serve (get_task key) clock healthy db
   = (Raise (HTTPException 404 "Task not found"), db)
   /\ serve (update_task key task_update current_user) clock healthy db
      = (Raise (HTTPException 404 "Task not found"), db)
   /\ serve (delete_task key current_user) clock healthy db
      = (Raise (HTTPException 404 "Task not found"), db))
  /\ (find_dependency_by_id key db = None ->
      serve (delete_task_dependency key current_user) clock healthy db
      = (Raise (HTTPException 404 "Dependency not found"), db)).
Proof.
  split.
  - intros H. unfold serve, get_task, update_task, delete_task.
    rewrite !bind_run. cbn [query view]. rewrite H. repeat split.
  - intros H. unfold serve, delete_task_dependency.
    rewrite bind_run. cbn [query view]. rewrite H. reflexivity.
Qed.

Lemma missing_rows_witness :
  serve (delete_task 9 alice) afternoon None family_db
  = (Raise (HTTPException 404 "Task not found"), family_db)
  /\ serve (delete_task_dependency 9 alice) afternoon None family_db
     = (Raise (HTTPException 404 "Dependency not found"), family_db).
Proof.
  destruct (missing_rows_are_answered_404 9 (status_update None) alice afternoon
              None family_db) as [Ht Hd].
  split.
  - apply Ht. reflexivity.
  - apply Hd. reflexivity.
Defined.

(* ===================================================================== *)
(** ** Deleting a task *)
(* ===================================================================== *)

(** X11: A member who did not create the task may not delete it: the answer is
    403 and nothing is deleted. *)
Theorem delete_task_forbidden_to_other_members
    (task_id : Z) (current_user : User.t) (clock : Clock.t)
    (healthy : option nat) (db : DB) (t : Task.t) :
  find_task task_id db = Some t ->
  Task.creator_id t <> User.id current_user ->
  User.role current_user = MEMBER ->
  serve (delete_task task_id current_user) clock healthy db
  = (Raise (HTTPException (status_of Forbidden)
                          "Not authorized to delete this task"), db).
Proof.
  intros Hfind Hcreator Hrole. unfold serve, delete_task.
  rewrite bind_run. cbn [query view]. rewrite Hfind.
  apply Z.eqb_neq in Hcreator. rewrite Hcreator, Hrole. reflexivity.
Qed.

Lemma delete_task_forbidden_witness :
  serve (delete_task 1 (User.mk 2 "bob" MEMBER)) afternoon None family_db
  = (Raise (HTTPException 403 "Not authorized to delete this task"),
     family_db).
Proof.
  apply (delete_task_forbidden_to_other_members 1 (User.mk 2 "bob" MEMBER)
           afternoon None family_db task_1);
    [reflexivity | discriminate | reflexivity].
Defined.

(** X12: The creator of a task, and any admin or manager, deletes it: the task
    is gone, no dependency names it on either side, no history record
    refers to it, no task keeps it as parent, and the other tasks keep
    their keys. *)
Theorem delete_task_cascades
    (task_id : Z) (current_user : User.t) (clock : Clock.t) (db : DB)
    (t : Task.t) :
  find_task task_id db = Some t ->
  Task.creator_id t = User.id current_user
  \/ User.role current_user <> MEMBER ->
  exists db',
    serve (delete_task task_id current_user) clock None db = (Ok tt, db')
    /\ find_task task_id db' = None
    /\ (forall d, In d (task_dependencies db') ->
                  TaskDependency.blocking_task_id d <> task_id
                  /\ TaskDependency.blocked_task_id d <> task_id)
    /\ (forall h, In h (task_history db') ->
                  TaskHistory.task_id h <> task_id)
    /\ (forall r, In r (tasks db') ->
                  Task.parent_task_id r <> Some task_id)
    /\ map Task.id (tasks db')
       = filter (fun i => negb (i =? task_id)) (map Task.id (tasks db))
    /\ users db' = users db
    /\ tags db' = tags db.
Proof.
  intros Hfind Hauth. pose proof (find_task_id _ _ _ Hfind) as Hid.
  assert (Hpass : negb (Task.creator_id t =? User.id current_user)
                  && negb (Py.mem_str
                             (UserRole_value (User.role current_user))
                             ["admin"; "manager"]) = false).
  { destruct Hauth as [H|H].
    - apply Z.eqb_eq in H. now rewrite H.
    - destruct (User.role current_user); try contradiction;
        apply andb_false_r. }
  unfold serve, delete_task. rewrite bind_run. cbn [query view].
  rewrite Hfind, Hpass.
  cbv [bind readings set_view commit].
  cbn [view stored null_pending utcnow commits_left].
  eexists. split; [reflexivity|]. unfold delete_row. rewrite Hid.
  cbn [tasks task_dependencies task_history users tags].
  split.
  { apply find_task_None. cbn [tasks]. intros Hin.
    apply in_map_iff in Hin. destruct Hin as [r [Hr Hin]].
    apply in_map_iff in Hin. destruct Hin as [r0 [Hr0 Hin]].
    apply filter_In in Hin. destruct Hin as [_ Hne].
    apply negb_true_iff, Z.eqb_neq in Hne. apply Hne. subst r.
    rewrite <- Hr. destruct (Task.parent_task_id r0) as [p|];
      [destruct (p =? task_id)|]; reflexivity. }
  split.
  { intros d Hd. apply filter_In in Hd. destruct Hd as [_ Hd].
    apply andb_prop in Hd. destruct Hd as [H1 H2].
    apply negb_true_iff, Z.eqb_neq in H1.
    apply negb_true_iff, Z.eqb_neq in H2. tauto. }
  split.
  { intros h Hh. apply filter_In in Hh. destruct Hh as [_ Hh].
    now apply negb_true_iff, Z.eqb_neq in Hh. }
  split.
  { intros r Hr. apply in_map_iff in Hr. destruct Hr as [r0 [<- _]].
    destruct (Task.parent_task_id r0) as [p|] eqn:Ep.
    - destruct (p =? task_id) eqn:E.
      + simpl. discriminate.
      + rewrite Ep. apply Z.eqb_neq in E. congruence.
    - rewrite Ep. discriminate. }
  split; [|split; reflexivity].
  induction (tasks db) as [|r l IH]; [reflexivity|].
  cbn [filter map]. destruct (Task.id r =? task_id) eqn:E; cbn [negb].
  - exact IH.
  - cbn [map]. rewrite IH. f_equal.
    destruct (Task.parent_task_id r) as [p|];
      [destruct (p =? task_id)|]; reflexivity.
Qed.

Lemma delete_task_cascades_witness :
  exists db',
    serve (delete_task 1 alice) afternoon None linked_db = (Ok tt, db')
    /\ find_task 1 db' = None
    /\ map Task.id (tasks db') = [2].
Proof.
  destruct (delete_task_cascades 1 alice afternoon linked_db task_1 eq_refl)
    as (db' & Hrun & Hnone & _ & _ & _ & Hkeys & _).
  - left. reflexivity.
  - exists db'. split; [exact Hrun|]. split; [exact Hnone|].
    rewrite Hkeys. reflexivity.
Defined.

(* ===================================================================== *)
(** ** Dependencies: creation, removal, and what [get_task] shows *)
(* ===================================================================== *)

Lemma filter_all {A} (f : A -> bool) (l : list A) :
  (forall x, In x l -> f x = true) -> filter f l = l.
Proof.
  intros H. induction l as [|a l IH]; simpl; [reflexivity|].
  rewrite (H a (or_introl eq_refl)). f_equal. apply IH.
  intros x Hx. apply H. now right.
Qed.

Lemma create_task_dependency_Ok (task_id : Z)
    (dependency : TaskDependencyCreate.t) (current_user : User.t)
    (clock : Clock.t) (healthy : option nat) (db : DB)
    (d : TaskDependency.t) (db1 : DB) :
  serve (create_task_dependency task_id dependency current_user)
        clock healthy db = (Ok d, db1) ->
  let blocking := TaskDependencyCreate.blocking_task_id dependency in
  find_task blocking db <> None
  /\ find_task task_id db <> None
  /\ blocking <> task_id
  /\ d = TaskDependency.mk
           (next_id (map TaskDependency.id (task_dependencies db)))
           blocking task_id
           (clock Clock.task_dependencies_created_at
                  (next_id (map TaskDependency.id (task_dependencies db))))
  /\ db1 = with_task_history
             (task_history db
              ++ [TaskHistory.mk
                    (next_id (map TaskHistory.id (task_history db)))
                    task_id (User.id current_user) "dependency_added"
                    (Some "blocking_task") None
                    (Some (Py.str_int blocking))
                    (clock Clock.task_history_timestamp
                           (next_id (map TaskHistory.id (task_history db))))])
             (with_task_dependencies (task_dependencies db ++ [d]) db).
Proof.
  intros H blocking. rewrite create_task_dependency_run in H.
  fold blocking in H. cbv zeta in H.
  destruct (find_task blocking db); [|discriminate].
  destruct (find_task task_id db); [|discriminate].
  destruct (blocking =? task_id) eqn:E; [discriminate|].
  apply Z.eqb_neq in E.
  destruct (find_dependency blocking task_id db); [discriminate|].
  destruct healthy as [[|k]|]; inversion H; subst;
    repeat split; congruence.
Qed.

(** X13: Removing a dependency that was just created restores the table of
    dependencies; the history keeps both records, "dependency_added" with
    the blocking task as new value and "dependency_removed" with it as old
    value, on the blocked task. *)
Theorem dependency_created_then_removed
    (task_id : Z) (dependency : TaskDependencyCreate.t)
    (current_user remover : User.t) (clock clock' : Clock.t)
    (healthy : option nat) (db : DB) (d : TaskDependency.t) (db1 : DB) :
  serve (create_task_dependency task_id dependency current_user)
        clock healthy db = (Ok d, db1) ->
  exists db2 added removed,
    serve (delete_task_dependency (TaskDependency.id d) remover)
          clock' None db1 = (Ok tt, db2)
    /\ task_dependencies db2 = task_dependencies db
    /\ tasks db2 = tasks db
    /\ task_history db2 = task_history db ++ [added; removed]
    /\ TaskHistory.action added = "dependency_added"
    /\ TaskHistory.new_value added
       = Some (Py.str_int (TaskDependencyCreate.blocking_task_id dependency))
    /\ TaskHistory.action removed = "dependency_removed"
    /\ TaskHistory.old_value removed
       = Some (Py.str_int (TaskDependencyCreate.blocking_task_id dependency))
    /\ TaskHistory.new_value removed = None
    /\ TaskHistory.task_id added = task_id
    /\ TaskHistory.task_id removed = task_id.
Proof.
  intros H. apply create_task_dependency_Ok in H. cbv zeta in H.
  destruct H as (_ & _ & _ & Hd & Hdb1).
  set (key := next_id (map TaskDependency.id (task_dependencies db))) in *.
  assert (Hold : filter (fun x => TaskDependency.id x =? key)
                        (task_dependencies db) = []).
  { apply filter_none. intros x Hx. apply Z.eqb_neq. intros Heq.
    apply (next_id_fresh (map TaskDependency.id (task_dependencies db))).
    fold key. rewrite <- Heq. now apply in_map. }
  assert (Hkeep : filter (fun x => negb (TaskDependency.id x =? key))
                         (task_dependencies db) = task_dependencies db).
  { apply filter_all. intros x Hx. apply negb_true_iff, Z.eqb_neq.
    intros Heq.
    apply (next_id_fresh (map TaskDependency.id (task_dependencies db))).
    fold key. rewrite <- Heq. now apply in_map. }
  assert (Hidd : TaskDependency.id d = key) by (subst d; reflexivity).
  unfold serve, delete_task_dependency. rewrite bind_run.
  cbn [query view]. unfold find_dependency_by_id. rewrite Hidd.
  subst db1. cbn [task_dependencies with_task_history
                  with_task_dependencies].
  rewrite filter_app, Hold. cbn [filter app].
  rewrite Hidd, Z.eqb_refl. cbn [hd_error].
  cbv [bind log_task_history query now set_view commit].
  cbn [view stored null_pending utcnow commits_left task_dependencies
       with_task_history with_task_dependencies task_history tasks users
       tags].
  do 3 eexists. split; [reflexivity|].
  cbn [task_dependencies with_task_dependencies tasks task_history].
  rewrite Hidd, filter_app, Hkeep. cbn [filter].
  rewrite Hidd, Z.eqb_refl. cbn [negb].
  rewrite app_nil_r. split; [reflexivity|]. split; [reflexivity|].
  rewrite <- app_assoc. cbn [app]. split; [reflexivity|].
  subst d. repeat split.
Qed.

Lemma dependency_created_then_removed_witness :
  exists d db1 db2,
    serve (create_task_dependency 2 (TaskDependencyCreate.mk 1) alice)
          afternoon None family_db = (Ok d, db1)
    /\ serve (delete_task_dependency (TaskDependency.id d) alice)
             afternoon None db1 = (Ok tt, db2)
    /\ task_dependencies db2 = task_dependencies family_db
    /\ List.length (task_history db2) = 2%nat.
Proof.
  do 2 eexists.
  destruct (dependency_created_then_removed 2 (TaskDependencyCreate.mk 1)
              alice alice afternoon afternoon None family_db
              (TaskDependency.mk 1 1 2
                 (afternoon Clock.task_dependencies_created_at 1)) _ eq_refl)
    as (db2 & added & removed & Hrun & Hdeps & _ & Hh & _).
  exists db2. split; [reflexivity|]. split; [exact Hrun|].
  split; [exact Hdeps|]. rewrite Hh. reflexivity.
Defined.

(** X14: Once task [task_id] has been made to depend on task [blocking],
    [get_task] lists [blocking] among the [blocked_by_task_ids] of
    [task_id], and [task_id] among the [blocking_task_ids] of
    [blocking]. *)
Theorem get_task_shows_new_dependency
    (task_id : Z) (dependency : TaskDependencyCreate.t)
    (current_user : User.t) (clock clock' : Clock.t)
    (healthy healthy' : option nat) (db : DB) (d : TaskDependency.t)
    (db1 : DB) :
  serve (create_task_dependency task_id dependency current_user)
        clock healthy db = (Ok d, db1) ->
  let blocking := TaskDependencyCreate.blocking_task_id dependency in
  exists blocked_view blocking_view,
    serve (get_task task_id) clock' healthy' db1 = (Ok blocked_view, db1)
    /\ In blocking (TaskDetailResponse.blocked_by_task_ids blocked_view)
    /\ serve (get_task blocking) clock' healthy' db1
       = (Ok blocking_view, db1)
    /\ In task_id (TaskDetailResponse.blocking_task_ids blocking_view).
Proof.
  intros H blocking. apply create_task_dependency_Ok in H. cbv zeta in H.
  fold blocking in H. destruct H as (H1 & H2 & _ & Hd & Hdb1).
  destruct (find_task blocking db) as [tb|] eqn:Eb; [|congruence].
  destruct (find_task task_id db) as [tt0|] eqn:Et; [|congruence].
  pose proof (find_task_id _ _ _ Eb) as Hidb.
  pose proof (find_task_id _ _ _ Et) as Hidt.
  assert (Eb1 : find_task blocking db1 = Some tb) by (subst db1; exact Eb).
  assert (Et1 : find_task task_id db1 = Some tt0) by (subst db1; exact Et).
  assert (Hdeps : task_dependencies db1 = task_dependencies db ++ [d])
    by (subst db1; reflexivity).
  unfold serve, get_task. rewrite !bind_run. cbn [query view].
  rewrite Eb1, Et1. cbv [ret]. do 2 eexists.
  split; [reflexivity|]. cbn [TaskDetailResponse.blocked_by_task_ids
                              TaskDetailResponse.blocking_task_ids].
  split; [|split; [reflexivity|]].
  - unfold Task_blocking_tasks.
    apply in_map_iff. exists d. split; [subst d; reflexivity|].
    apply answer_In. rewrite Hdeps, Hidt.
    apply filter_In. split; [apply in_or_app; right; now left|].
    subst d. apply Z.eqb_refl.
  - unfold Task_blocked_by_tasks.
    apply in_map_iff. exists d. split; [subst d; reflexivity|].
    apply answer_In. rewrite Hdeps, Hidb.
    apply filter_In. split; [apply in_or_app; right; now left|].
    subst d. apply Z.eqb_refl.
Qed.

Lemma get_task_shows_new_dependency_witness :
  exists d db1 blocked_view blocking_view,
    serve (create_task_dependency 2 (TaskDependencyCreate.mk 1) alice)
          afternoon None family_db = (Ok d, db1)
    /\ serve (get_task 2) afternoon None db1 = (Ok blocked_view, db1)
    /\ In 1 (TaskDetailResponse.blocked_by_task_ids blocked_view)
    /\ serve (get_task 1) afternoon None db1 = (Ok blocking_view, db1)
    /\ In 2 (TaskDetailResponse.blocking_task_ids blocking_view).
Proof.
  do 2 eexists.
  destruct (get_task_shows_new_dependency 2 (TaskDependencyCreate.mk 1)
              alice afternoon afternoon None None family_db
              (TaskDependency.mk 1 1 2
                 (afternoon Clock.task_dependencies_created_at 1)) _ eq_refl)
    as (bv & gv & H1 & H2 & H3 & H4).
  exists bv, gv. split; [reflexivity|]. tauto.
Defined.

(** X15: The dependency manager looks at the ordered pair only: once [b] is
    blocked by [a], making [a] blocked by [b] is accepted, and the table
    then holds the two edges of a cycle. *)
Theorem dependency_cycle_is_accepted
    (a b : Z) (current_user : User.t) (clock : Clock.t) (db : DB) :
  find_task a db <> None ->
  find_task b db <> None ->
  a <> b ->
  find_dependency a b db = None ->
  find_dependency b a db = None ->
  exists d1 db1 d2 db2,
    serve (create_task_dependency b (TaskDependencyCreate.mk a) current_user)
          clock None db = (Ok d1, db1)
    /\ serve (create_task_dependency a (TaskDependencyCreate.mk b)
                                     current_user)
             clock None db1 = (Ok d2, db2)
    /\ task_dependencies db2 = task_dependencies db ++ [d1; d2]
    /\ TaskDependency.blocking_task_id d1 = a
    /\ TaskDependency.blocked_task_id d1 = b
    /\ TaskDependency.blocking_task_id d2 = b
    /\ TaskDependency.blocked_task_id d2 = a.
Proof.
  intros Ha Hb Hab Hno1 Hno2.
  destruct (find_task a db) as [ta|] eqn:Ea; [|congruence].
  destruct (find_task b db) as [tb|] eqn:Eb; [|congruence].
  assert (Hba : b <> a) by congruence.
  do 4 eexists. split.
  { rewrite create_task_dependency_run.
    cbn [TaskDependencyCreate.blocking_task_id]. cbv zeta.
    rewrite Ea, Eb, (proj2 (Z.eqb_neq _ _) Hab), Hno1. reflexivity. }
  split.
  { rewrite create_task_dependency_run.
    cbn [TaskDependencyCreate.blocking_task_id]. cbv zeta.
    change (find_task b (with_task_history ?h
                           (with_task_dependencies ?l db)))
      with (find_task b db).
    change (find_task a (with_task_history ?h
                           (with_task_dependencies ?l db)))
      with (find_task a db).
    rewrite Ea, Eb, (proj2 (Z.eqb_neq _ _) Hba).
    unfold find_dependency in *.
    cbn [task_dependencies with_task_history with_task_dependencies].
    rewrite filter_app.
    rewrite hd_error_filter_None in Hno2. rewrite (filter_none _ _ Hno2).
    cbn [filter app TaskDependency.blocking_task_id
         TaskDependency.blocked_task_id].
    rewrite (proj2 (Z.eqb_neq _ _) Hab). cbn [andb hd_error].
    reflexivity. }
  cbn [task_dependencies with_task_dependencies with_task_history].
  rewrite <- app_assoc. repeat split.
Qed.

Lemma dependency_cycle_witness :
  exists d1 db1 d2 db2,
    serve (create_task_dependency 2 (TaskDependencyCreate.mk 1) alice)
          afternoon None family_db = (Ok d1, db1)
    /\ serve (create_task_dependency 1 (TaskDependencyCreate.mk 2) alice)
             afternoon None db1 = (Ok d2, db2)
    /\ List.length (task_dependencies db2) = 2%nat.
Proof.
  destruct (dependency_cycle_is_accepted 1 2 alice afternoon family_db)
    as (d1 & db1 & d2 & db2 & H1 & H2 & H3 & _);
    try discriminate; try reflexivity.
  exists d1, db1, d2, db2. split; [exact H1|]. split; [exact H2|].
  rewrite H3. reflexivity.
Defined.

(* ===================================================================== *)
(** ** Listing and filtering: pages, operators, supplied dimensions *)
(* ===================================================================== *)

Lemma list_tasks_run skip limit clock healthy db :
  serve (list_tasks skip limit) clock healthy db
  = (Ok (map (with_subtask_count db)
             (Sql.page skip limit
                (Store.answer db (select_tasks None) Task.id (tasks db)))),
     db).
Proof.
  unfold serve, list_tasks, bind, query, ret, tasks_where.
  cbn [view stored]. rewrite filter_all; [reflexivity|].
  intros t _. reflexivity.
Qed.

(** X16: A filter that supplies no dimension answers what [list_tasks] answers,
    whatever its operator. *)
Theorem filter_without_conditions_lists_tasks
    (filters : TaskFilter.t) (skip limit : Z) (today : date)
    (clock : Clock.t) (healthy : option nat) (db : DB) :
  conditions filters today db = [] ->
  serve (filter_tasks filters skip limit today) clock healthy db
  = serve (list_tasks skip limit) clock healthy db.
Proof.
  intros H. unfold serve, filter_tasks, list_tasks, bind, query, ret.
  cbn [view stored]. unfold where_clause. now rewrite H.
Qed.

Lemma filter_without_conditions_witness :
  serve (filter_tasks (with_logic_operator "OR" TaskFilter.default) 0 100
                      march_8) afternoon None family_db
  = serve (list_tasks 0 100) afternoon None family_db.
Proof.
  apply (filter_without_conditions_lists_tasks
           (with_logic_operator "OR" TaskFilter.default) 0 100 march_8
           afternoon None family_db).
  reflexivity.
Defined.

(** X18: Whatever a filter answers under "AND" it also answers under "OR". *)
Theorem and_rows_are_or_rows
    (filters : TaskFilter.t) (today : date) (clock : Clock.t)
    (healthy : option nat) (db : DB)
    (rows_and rows_or : list (Task.t * nat)) (row : Task.t * nat) :
  serve (filter_tasks (with_logic_operator "AND" filters) 0
                      (Z.of_nat (List.length (tasks db))) today)
        clock healthy db
  = (Ok rows_and, db) ->
  serve (filter_tasks (with_logic_operator "OR" filters) 0
                      (Z.of_nat (List.length (tasks db))) today)
        clock healthy db
  = (Ok rows_or, db) ->
  In row rows_and -> In row rows_or.
Proof.
  rewrite !filter_tasks_run.
  rewrite !page_all
    by (unfold answered; rewrite answer_length; apply filter_length_le).
  intros Hand Hor. inversion Hand. inversion Hor. subst. clear Hand Hor.
  intros Hin. apply in_map_iff in Hin. destruct Hin as [t [<- Ht]].
  apply in_map. unfold answered in *. apply answer_In in Ht.
  apply answer_In. apply filter_In in Ht. destruct Ht as [Ht Hsel].
  apply filter_In. split; [exact Ht|].
  unfold selected in *.
  change (conditions (with_logic_operator "AND" filters) today db)
    with (conditions filters today db) in Hsel.
  change (conditions (with_logic_operator "OR" filters) today db)
    with (conditions filters today db).
  destruct (conditions filters today db) as [|c cs]; [reflexivity|].
  cbn in Hsel |- *. apply andb_prop in Hsel. destruct Hsel as [Hc _].
  now rewrite Hc.
Qed.

Lemma and_rows_are_or_rows_witness :
  serve (filter_tasks (with_logic_operator "AND" filter_todo_roots) 0 2
                      march_8) afternoon None family_db
  = (Ok [(task_1, 1%nat)], family_db)
  /\ serve (filter_tasks (with_logic_operator "OR" filter_todo_roots) 0 2
                         march_8) afternoon None family_db
     = (Ok [(task_1, 1%nat); (task_2, 0%nat)], family_db)
  /\ In (task_1, 1%nat) [(task_1, 1%nat); (task_2, 0%nat)].
Proof.
  split; [reflexivity|]. split; [reflexivity|].
  apply (and_rows_are_or_rows filter_todo_roots march_8 afternoon None
           family_db
           [(task_1, 1%nat)] [(task_1, 1%nat); (task_2, 0%nat)]
           (task_1, 1%nat)); [reflexivity | reflexivity | now left].
Defined.

(** Two filters that build the same conditions under the same operator
    send the same query. *)
Lemma filter_tasks_same_query (f1 f2 : TaskFilter.t) skip limit today clock
    healthy db :
  conditions f1 today db = conditions f2 today db ->
  TaskFilter.logic_operator f1 = TaskFilter.logic_operator f2 ->
  serve (filter_tasks f1 skip limit today) clock healthy db
  = serve (filter_tasks f2 skip limit today) clock healthy db.
Proof.
  intros Hc Hop. unfold serve, filter_tasks, bind, query, ret.
  cbn [view stored]. unfold where_clause. now rewrite Hc, Hop.
Qed.

(** The rows of a filter whose selection is known: a page holds selected
    tasks only, and the page that covers the table holds them all. *)
Lemma filter_tasks_members (filters : TaskFilter.t) (g : Task.t -> bool)
    today clock healthy db :
  (forall t, In t (tasks db) -> selected filters today db t = g t) ->
  (forall skip limit rows,
     serve (filter_tasks filters skip limit today) clock healthy db
     = (Ok rows, db) ->
     forall row, In row rows ->
                 In (fst row) (tasks db) /\ g (fst row) = true)
  /\ exists rows,
       serve (filter_tasks filters 0 (Z.of_nat (List.length (tasks db)))
                           today) clock healthy db = (Ok rows, db)
       /\ forall t, In (with_subtask_count db t) rows
                    <-> In t (tasks db) /\ g t = true.
Proof.
  intros Hg. split.
  - intros skip limit rows Hrun row Hin.
    rewrite filter_tasks_run in Hrun. inversion Hrun. subst rows.
    apply in_map_iff in Hin. destruct Hin as [t [<- Ht]].
    apply page_In in Ht. unfold answered in Ht. apply answer_In in Ht.
    apply filter_In in Ht. destruct Ht as [Ht Hsel].
    unfold with_subtask_count. cbn [fst].
    split; [exact Ht|]. now rewrite <- (Hg t Ht).
  - destruct (filter_tasks_all filters today clock healthy db)
      as (rows & Hrun & Hrows).
    exists rows. split; [exact Hrun|]. intros t. rewrite Hrows.
    split; intros [Ht Hs]; (split; [exact Ht|]).
    + now rewrite <- (Hg t Ht).
    + now rewrite (Hg t Ht).
Qed.

Lemma conditions_drop_falsy (filters : TaskFilter.t) (today : date)
    (db : DB) :
  conditions (drop_falsy filters) today db = conditions filters today db.
Proof.
  destruct filters as [st pr asg cr tg df dt cf ct se ov hs pa op].
  unfold conditions, drop_falsy, nonempty.
  cbn [TaskFilter.status TaskFilter.priority TaskFilter.assignee_ids
       TaskFilter.creator_ids TaskFilter.tag_names TaskFilter.due_date_from
       TaskFilter.due_date_to TaskFilter.created_from TaskFilter.created_to
       TaskFilter.search TaskFilter.is_overdue TaskFilter.has_subtasks
       TaskFilter.parent_task_id].
  f_equal; [destruct st as [[|]|]; reflexivity|].
  f_equal; [destruct pr as [[|]|]; reflexivity|].
  f_equal; [destruct cr as [[|]|]; reflexivity|].
  f_equal; [destruct asg as [[|]|]; reflexivity|].
  f_equal; [destruct tg as [[|]|]; reflexivity|].
  do 4 f_equal.
  f_equal; [destruct se as [[|]|]; reflexivity|].
  f_equal. destruct ov as [[|]|]; reflexivity.
Qed.

(** X19: A dimension sent with a falsy value is not supplied: an empty list of
    statuses, priorities, assignees, creators or tags, the empty search
    text and [is_overdue = false] put no condition on the tasks. *)
Theorem falsy_dimensions_are_not_supplied
    (filters : TaskFilter.t) (skip limit : Z) (today : date)
    (clock : Clock.t) (healthy : option nat) (db : DB) :
  serve (filter_tasks (drop_falsy filters) skip limit today) clock healthy db
  = serve (filter_tasks filters skip limit today) clock healthy db
  /\ conditions
       (TaskFilter.mk (Some []) (Some []) (Some []) (Some []) (Some [])
                      None None None None (Some "") (Some false) None None
                      (TaskFilter.logic_operator filters)) today db = [].
Proof.
  split; [|reflexivity].
  apply filter_tasks_same_query; [apply conditions_drop_falsy | reflexivity].
Qed.

Lemma overdue_selected (due_date_to : option date) (today : date) (db : DB)
    (t : Task.t) :
  due_date_to = None \/ due_date_to = Some today ->
  selected (filter_overdue due_date_to) today db t = overdue today t.
Proof.
  intros [-> | ->]; unfold selected; cbn;
    unfold overdue, overdue_condition, due_date_le, date_leb, Sql.cmp;
    destruct (TaskStatus_eqb (Task.status t) COMPLETED);
    destruct (Task.due_date t) as [d|]; cbn; try reflexivity;
    destruct (date_ltb d today), (date_eqb d today); reflexivity.
Qed.

(** X20: The overdue filter answers the tasks whose due date lies strictly
    before today and whose status is not "completed"; a task without due
    date is never overdue. Bounding the due date by today as well selects
    the same tasks: every page of either filter holds overdue tasks only,
    and the page that covers the table holds all of them. *)
Theorem overdue_filter_selects_overdue_tasks
    (today : date) (clock : Clock.t) (healthy : option nat) (db : DB) :
  let overdue_rows (bound : option date) :=
    (forall skip limit rows,
       serve (filter_tasks (filter_overdue bound) skip limit today)
             clock healthy db = (Ok rows, db) ->
       forall row, In row rows ->
                   In (fst row) (tasks db)
                   /\ overdue today (fst row) = true)
    /\ exists rows,
         serve (filter_tasks (filter_overdue bound) 0
                             (Z.of_nat (List.length (tasks db))) today)
               clock healthy db = (Ok rows, db)
         /\ forall t, In (with_subtask_count db t) rows
                      <-> In t (tasks db) /\ overdue today t = true in
  overdue_rows None
  /\ overdue_rows (Some today)
  /\ forall t, Task.due_date t = None -> overdue today t = false.
Proof.
  cbv zeta. split; [|split].
  - apply filter_tasks_members. intros t _. apply overdue_selected.
    now left.
  - apply filter_tasks_members. intros t _. apply overdue_selected.
    now right.
  - intros t H. unfold overdue. now rewrite H.
Qed.

Lemma combine_min_leb (d : date) (c : datetime) :
  within_day c -> datetime_leb (combine_min d) c = date_leb d (dt_date c).
Proof.
  intros [H _]. unfold datetime_leb, date_leb, combine_min. cbn.
  apply Z.leb_le in H. rewrite H. now rewrite andb_true_r.
Qed.

Lemma combine_max_leb (d : date) (c : datetime) :
  within_day c -> datetime_leb c (combine_max d) = date_leb (dt_date c) d.
Proof.
  intros [_ H]. unfold datetime_leb, date_leb, combine_max. cbn.
  apply Z.leb_le in H. rewrite H. now rewrite andb_true_r.
Qed.

(** X21: The bounds of the created-date filter are whole days: a task is
    answered when the day of its [created_at] lies between the two dates,
    both included, whatever the time of day. Every page holds such tasks
    only, and the page that covers the table holds all of them. *)
Theorem created_range_covers_whole_days
    (from to : date) (today : date) (clock : Clock.t)
    (healthy : option nat) (db : DB) :
  Forall (fun t => within_day (Task.created_at t)) (tasks db) ->
  (forall skip limit rows,
     serve (filter_tasks (filter_created from to) skip limit today)
           clock healthy db = (Ok rows, db) ->
     forall row, In row rows ->
                 In (fst row) (tasks db)
                 /\ created_between from to (fst row) = true)
  /\ exists rows,
       serve (filter_tasks (filter_created from to) 0
                           (Z.of_nat (List.length (tasks db))) today)
             clock healthy db = (Ok rows, db)
       /\ forall t, In (with_subtask_count db t) rows
                    <-> In t (tasks db) /\ created_between from to t = true.
Proof.
  intros Hday. apply filter_tasks_members. intros t Ht.
  rewrite Forall_forall in Hday. specialize (Hday t Ht).
  unfold selected, created_between.
  cbn -[datetime_leb combine_min combine_max date_leb].
  unfold created_at_ge, created_at_le.
  rewrite combine_min_leb, combine_max_leb by assumption.
  destruct (date_leb from _), (date_leb _ to); reflexivity.
Qed.

Lemma created_range_witness :
  exists rows,
    serve (filter_tasks (filter_created (mkdate 2024 3 7) (mkdate 2024 3 7))
                        0 2 march_8) afternoon None family_db
    = (Ok rows, family_db)
    /\ forall t, In (with_subtask_count family_db t) rows
                 <-> In t (tasks family_db)
                     /\ created_between (mkdate 2024 3 7) (mkdate 2024 3 7) t
                        = true.
Proof.
  apply (created_range_covers_whole_days (mkdate 2024 3 7) (mkdate 2024 3 7)
           march_8 afternoon None family_db).
  repeat constructor; discriminate.
Defined.

Lemma lower_char_idempotent (c : ascii) :
  Py.lower_char (Py.lower_char c) = Py.lower_char c.
Proof. destruct c as [[] [] [] [] [] [] [] []]; reflexivity. Qed.

Lemma lower_idempotent (s : string) : Py.lower (Py.lower s) = Py.lower s.
Proof.
  induction s as [|c s IH]; simpl; [reflexivity|].
  now rewrite lower_char_idempotent, IH.
Qed.

(** X22: The tag filter does not depend on the case of the names it is sent:
    it answers the same tasks as the filter sent the lowercased names. *)
Theorem tag_filter_ignores_case
    (filters : TaskFilter.t) (names : list string) (skip limit : Z)
    (today : date) (clock : Clock.t) (healthy : option nat) (db : DB) :
  serve (filter_tasks (with_tag_names (Some (map Py.lower names)) filters)
                      skip limit today) clock healthy db
  = serve (filter_tasks (with_tag_names (Some names) filters)
                        skip limit today) clock healthy db.
Proof.
  apply filter_tasks_same_query; [|reflexivity].
  unfold conditions, with_tag_names.
  cbn [TaskFilter.status TaskFilter.priority TaskFilter.assignee_ids
       TaskFilter.creator_ids TaskFilter.tag_names
       TaskFilter.due_date_from TaskFilter.due_date_to
       TaskFilter.created_from TaskFilter.created_to TaskFilter.search
       TaskFilter.is_overdue TaskFilter.has_subtasks
       TaskFilter.parent_task_id].
  do 4 f_equal. f_equal.
  destruct names as [|x l]; [reflexivity|]. cbn [map].
  rewrite lower_idempotent. do 3 f_equal.
  induction l as [|y l IH]; [reflexivity|]. cbn [map].
  now rewrite lower_idempotent, IH.
Qed.

(* ===================================================================== *)
(** ** Bulk update: the tasks it does not list *)
(* ===================================================================== *)

Lemma tables_kept_refl (s : Session) : tables_kept s s.
Proof. repeat split. Qed.

Lemma tables_kept_trans (a b c : Session) :
  tables_kept a b -> tables_kept b c -> tables_kept a c.
Proof. unfold tables_kept. intuition congruence. Qed.

Lemma history_only_tables (s s' : Session) :
  history_only s s' -> tables_kept s s'.
Proof. unfold history_only, tables_kept. tauto. Qed.

Lemma tags_only_tables (s s' : Session) : tags_only s s' -> tables_kept s s'.
Proof. unfold tags_only, tables_kept. tauto. Qed.

Lemma stored_kept_steady {A} (m : M A) : steady m -> stored_kept m.
Proof. intros H s r s' E. apply H in E. tauto. Qed.

Lemma stored_kept_bind {A B} (m : M A) (k : A -> M B) :
  stored_kept m -> (forall a, stored_kept (k a)) -> stored_kept (bind m k).
Proof.
  intros Hm Hk s r s' H. rewrite bind_run in H.
  destruct (m s) as [[a|e] s1] eqn:E.
  - apply Hk in H. apply Hm in E. congruence.
  - inversion H. subst. now apply Hm in E.
Qed.

Lemma stored_kept_set_view (db : DB) : stored_kept (set_view db).
Proof. intros s r s' H. inversion H. reflexivity. Qed.

Lemma bulk_column_step {A} (f : field A) user_id name
    (eqb : A -> A -> bool) str (set : A -> Task.t -> Task.t) (old : A)
    (completes : option A -> bool) (task : Task.t) (s : Session)
    (r : Result Task.t) (s1 : Session) :
  (forall v t, Task.id (set v t) = Task.id t) ->
  match f with
  | Unset => ret task
  | Present value =>
      bulk_update_column user_id name eqb str set old value
                         (completes value) task
  end s = (r, s1) ->
  history_only s s1
  /\ match r with
     | Ok t1 => Task.id t1 = Task.id task
     | Raise _ => False
     end.
Proof.
  intros Hset H. destruct f as [|[v|]];
    try (inversion H; split; [apply history_only_refl | reflexivity]).
  unfold bulk_update_column in H.
  destruct (eqb old v);
    [inversion H; split; [apply history_only_refl | reflexivity]|].
  cbv [bind now log_task_history query set_view ret] in H.
  destruct (completes (Some v)); inversion H; subst;
    (split; [repeat split | simpl; apply Hset]).
Qed.

Lemma bulk_update_one_result (bulk_update : TaskBulkUpdate.t) (user_id : Z)
    (task : Task.t) (s : Session) (r : Result unit) (s' : Session) :
  bulk_update_one bulk_update user_id task s = (r, s') ->
  stored s' = stored s
  /\ match r with
     | Ok _ =>
         exists task', Task.id task' = Task.id task
           /\ users (view s') = users (view s)
           /\ task_dependencies (view s') = task_dependencies (view s)
           /\ tasks (view s') = tasks (replace_task task' (view s))
     | Raise _ => True
     end.
Proof.
  unfold bulk_update_one. intros H.
  rewrite bind_run in H.
  destruct (match TaskBulkUpdate.status bulk_update with
            | Unset => ret task
            | Present value => _
            end s) as [r1 s1] eqn:E1.
  apply (bulk_column_step (TaskBulkUpdate.status bulk_update) user_id
           "status" TaskStatus_eqb TaskStatus_str set_status
           (Task.status task) is_completed task s r1 s1) in E1;
    [|reflexivity].
  destruct E1 as [F1 I1]. destruct r1 as [t1|]; [|contradiction].
  apply history_only_tables in F1.
  rewrite bind_run in H.
  destruct (match TaskBulkUpdate.priority bulk_update with
            | Unset => ret t1
            | Present value => _
            end s1) as [r2 s2] eqn:E2.
  apply (bulk_column_step (TaskBulkUpdate.priority bulk_update) user_id
           "priority" TaskPriority_eqb TaskPriority_str set_priority
           (Task.priority t1) (fun _ => false) t1 s1 r2 s2) in E2;
    [|reflexivity].
  destruct E2 as [F2 I2]. destruct r2 as [t2|]; [|contradiction].
  apply history_only_tables in F2.
  rewrite bind_run in H.
  destruct (match TaskBulkUpdate.assignee_ids bulk_update with
            | Present (Some value) => _
            | _ => ret t2
            end s2) as [r3 s3] eqn:E3.
  assert (H3 : tables_kept s2 s3
               /\ exists t3, r3 = Ok t3 /\ Task.id t3 = Task.id t2).
  { destruct (TaskBulkUpdate.assignee_ids bulk_update) as [|[value|]];
      try (inversion E3; split; [apply tables_kept_refl|]; eexists;
           split; reflexivity).
    cbv [bind query log_task_history now set_view ret] in E3.
    inversion E3. split; [repeat split|]. eexists. split; reflexivity. }
  destruct H3 as (F3 & t3 & -> & I3).
  rewrite bind_run in H.
  destruct (match TaskBulkUpdate.tag_names bulk_update with
            | Present (Some value) => _
            | _ => ret t3
            end s3) as [r4 s4] eqn:E4.
  assert (H4 : stored s4 = stored s3
               /\ match r4 with
                  | Ok t4 => tables_kept s3 s4 /\ Task.id t4 = Task.id t3
                  | Raise _ => True
                  end).
  { destruct (TaskBulkUpdate.tag_names bulk_update) as [|[value|]];
      try (inversion E4; split; [reflexivity|]; split;
           [apply tables_kept_refl | reflexivity]).
    rewrite bind_run in E4.
    destruct (append_tags value [] s3) as [[new|e] sa] eqn:Ea.
    - pose proof (append_tags_frame _ _ _ _ _ Ea) as Fa.
      apply tags_only_tables in Fa.
      cbv [bind log_task_history query now set_view ret] in E4.
      inversion E4. subst. destruct Fa as (Fa1 & Fa2 & Fa3 & Fa4).
      split; [exact Fa1|]. split; [repeat split; assumption | reflexivity].
    - inversion E4. subst. split; [|exact I].
      apply steady_append_tags in Ea. tauto. }
  destruct H4 as [St4 H4].
  assert (Hst3 : stored s3 = stored s).
  { destruct F1 as (A & _), F2 as (B & _), F3 as (C & _). congruence. }
  destruct r4 as [t4|e].
  - destruct H4 as [F4 I4].
    cbv [bind query set_view] in H. inversion H. subst r s'. clear H.
    cbn [stored view]. split; [congruence|].
    exists t4. split; [congruence|].
    pose proof (tables_kept_trans _ _ _ F1
                  (tables_kept_trans _ _ _ F2
                     (tables_kept_trans _ _ _ F3 F4)))
      as (_ & Hu & Ht & Hd).
    unfold replace_task. cbn [users tasks task_dependencies].
    rewrite Hu, Hd, Ht. repeat split.
  - inversion H. subst. split; [congruence | exact I].
Qed.

Lemma replace_task_unlisted (ids : list Z) (t' : Task.t) (l : list Task.t) :
  Py.mem (Task.id t') ids = true ->
  let l' := map (fun r => if Task.id r =? Task.id t' then t' else r) l in
  map Task.id l' = map Task.id l
  /\ filter (unlisted ids) l' = filter (unlisted ids) l.
Proof.
  intros Hmem. cbv zeta. induction l as [|r l [IH1 IH2]];
    [split; reflexivity|].
  cbn [map filter]. destruct (Task.id r =? Task.id t') eqn:E.
  - apply Z.eqb_eq in E. split; [now rewrite IH1, E|].
    assert (H1 : unlisted ids t' = false)
      by (unfold unlisted; now rewrite Hmem).
    assert (H2 : unlisted ids r = false)
      by (unfold unlisted; now rewrite E, Hmem).
    rewrite H1, H2. exact IH2.
  - split; [now rewrite IH1 | now rewrite IH2].
Qed.

Lemma for_each_bulk_update (bulk_update : TaskBulkUpdate.t) (user_id : Z)
    (ids : list Z) (found : list Task.t) (s : Session) (r : Result unit)
    (s' : Session) :
  (forall t, In t found -> Py.mem (Task.id t) ids = true) ->
  for_each found (bulk_update_one bulk_update user_id) s = (r, s') ->
  stored s' = stored s
  /\ match r with
     | Ok _ =>
         users (view s') = users (view s)
         /\ task_dependencies (view s') = task_dependencies (view s)
         /\ map Task.id (tasks (view s')) = map Task.id (tasks (view s))
         /\ filter (unlisted ids) (tasks (view s'))
            = filter (unlisted ids) (tasks (view s))
     | Raise _ => True
     end.
Proof.
  revert s. induction found as [|t found IH]; intros s Hall H.
  - inversion H. repeat split.
  - cbn [for_each] in H. rewrite bind_run in H.
    destruct (bulk_update_one bulk_update user_id t s) as [[u|e] s1] eqn:E.
    + apply bulk_update_one_result in E.
      destruct E as (St & t' & Hid & Hu & Hd & Ht).
      apply IH in H; [|intros x Hx; apply Hall; now right].
      destruct H as [St' H]. split; [congruence|].
      destruct r; [|exact I]. destruct H as (Hu' & Hd' & Hk & Hf).
      assert (Hmem : Py.mem (Task.id t') ids = true).
      { rewrite Hid. apply Hall. now left. }
      destruct (replace_task_unlisted ids t' (tasks (view s)) Hmem)
        as [R1 R2].
      unfold replace_task in Ht. cbn [tasks] in Ht.
      rewrite Hk, Hf, Ht. repeat split; congruence.
    + inversion H. subst. apply bulk_update_one_result in E.
      destruct E as [St _]. split; [exact St | exact I].
Qed.

(** X23: A bulk update touches the listed tasks only: whatever it answers, the
    tasks whose key is not in [task_ids] are stored as they were, in
    their places, no task is added or removed, and users and dependencies
    are as before. *)
Theorem bulk_update_leaves_other_tasks
    (bulk_update : TaskBulkUpdate.t) (current_user : User.t)
    (clock : Clock.t) (healthy : option nat) (db : DB) :
  let db' := snd (serve (bulk_update_tasks bulk_update current_user)
                        clock healthy db) in
  filter (unlisted (TaskBulkUpdate.task_ids bulk_update)) (tasks db')
  = filter (unlisted (TaskBulkUpdate.task_ids bulk_update)) (tasks db)
  /\ map Task.id (tasks db') = map Task.id (tasks db)
  /\ users db' = users db
  /\ task_dependencies db' = task_dependencies db.
Proof.
  cbv zeta. unfold serve, bulk_update_tasks.
  set (ids := TaskBulkUpdate.task_ids bulk_update).
  rewrite bind_run. cbn [query view].
  destruct (Nat.eqb _ _); [|cbn; repeat split].
  rewrite bind_run.
  destruct (for_each _ _ _) as [[u|e] s1] eqn:E.
  - apply (for_each_bulk_update _ _ ids) in E.
    + destruct E as (St & Hu & Hd & Hk & Hf). cbn [view stored] in *.
      cbv [bind commit ret].
      destruct (null_pending s1); [cbn; rewrite St; repeat split|].
      destruct (commits_left s1) as [[|k]|]; cbn;
        try (rewrite St; repeat split); repeat split; assumption.
    + intros t Ht. apply tasks_in_In in Ht. tauto.
  - apply (for_each_bulk_update _ _ ids) in E.
    + destruct E as [St _]. cbn in *. rewrite St. repeat split.
    + intros t Ht. apply tasks_in_In in Ht. tauto.
Qed.

(* ===================================================================== *)
(** ** Updates: the assignees *)
(* ===================================================================== *)

Lemma column_step_frame {A} (f : field A) task_id user_id name
    (eqb : A -> A -> bool) truthy str setattr (old : option A)
    (completes : option A -> bool) (t : Task.t) (s : Session)
    (t1 : Task.t) (s1 : Session) :
  (forall v t0 s0, exists t1 s1, setattr v t0 s0 = (Ok t1, s1)
                                 /\ history_only s0 s1) ->
  match f with
  | Unset => ret t
  | Present value =>
      update_column task_id user_id name eqb truthy str setattr old value
                    (completes value) t
  end s = (Ok t1, s1) ->
  history_only s s1.
Proof.
  intros Hset H.
  destruct (column_step_total f task_id user_id name eqb truthy str setattr
              old completes t s Hset) as (t1' & s1' & E & Hf).
  rewrite H in E. inversion E. now subst.
Qed.

(** The loop of [update_task], when it succeeds with [assignee_ids]
    present: the users found were as many as the ids, and they are the
    new assignees. *)
Lemma update_fields_assignees task_id task_update user_id
    (t : Task.t) (s : Session) (t' : Task.t) (s' : Session)
    (ids : list Z) :
  TaskUpdate.assignee_ids task_update = Present (Some ids) ->
  update_fields task_id task_update user_id t s = (Ok t', s') ->
  (forall i, In i (Task.assignees t')
             <-> In i (map User.id (users_in ids (view s))))
  /\ List.length (users_in ids (view s)) = List.length ids.
Proof.
  intros Hids H. unfold update_fields in H.
  apply bind_Ok in H. destruct H as (t1 & s1 & E1 & H).
  apply (column_step_frame (TaskUpdate.title task_update) task_id user_id
           "title" String.eqb Py.truthy_str (fun v => v)
           (setattr_required set_title) (Some (Task.title t))
           (fun _ => false) t s t1 s1 (setattr_required_total set_title))
    in E1.
  apply bind_Ok in H. destruct H as (t2 & s2 & E2 & H).
  apply (column_step_frame (TaskUpdate.description task_update) task_id
           user_id "description" String.eqb Py.truthy_str (fun v => v)
           (setattr_nullable set_description) (Task.description t1)
           (fun _ => false) t1 s1 t2 s2
           (setattr_nullable_total set_description)) in E2.
  apply bind_Ok in H. destruct H as (t3 & s3 & E3 & H).
  apply (column_step_frame (TaskUpdate.status task_update) task_id user_id
           "status" TaskStatus_eqb always TaskStatus_str
           (setattr_required set_status) (Some (Task.status t2))
           is_completed t2 s2 t3 s3 (setattr_required_total set_status))
    in E3.
  apply bind_Ok in H. destruct H as (t4 & s4 & E4 & H).
  apply (column_step_frame (TaskUpdate.priority task_update) task_id user_id
           "priority" TaskPriority_eqb always TaskPriority_str
           (setattr_required set_priority) (Some (Task.priority t3))
           (fun _ => false) t3 s3 t4 s4
           (setattr_required_total set_priority)) in E4.
  apply bind_Ok in H. destruct H as (t5 & s5 & E5 & H).
  apply (column_step_frame (TaskUpdate.due_date task_update) task_id user_id
           "due_date" date_eqb always str_date
           (setattr_nullable set_due_date) (Task.due_date t4)
           (fun _ => false) t4 s4 t5 s5
           (setattr_nullable_total set_due_date)) in E5.
  assert (F : history_only s s5).
  { repeat (eapply history_only_trans; [eassumption|]).
    apply history_only_refl. }
  destruct F as (_ & _ & _ & Hu & _).
  apply bind_Ok in H. destruct H as (t6 & s6 & E6 & H).
  rewrite Hids in E6. cbv [bind query] in E6. cbv zeta in E6.
  unfold users_in in *. rewrite Hu in E6.
  destruct (Nat.eqb _ _) eqn:Elen; [|discriminate].
  apply Nat.eqb_eq in Elen. rewrite answer_length in Elen.
  cbv [log_task_history bind query now set_view ret] in E6.
  inversion E6. subst t6. clear E6.
  apply bind_Ok in H. destruct H as (t7 & s7 & E7 & H).
  inversion H. subst t7. clear H.
  split; [|now rewrite answer_length].
  assert (Ha : Task.assignees t'
               = map User.id
                   (Store.answer (view s5) (select_users_in ids) User.id
                      (filter (fun u => Py.mem (User.id u) ids)
                              (users (view s))))).
  { destruct (TaskUpdate.tag_names task_update) as [|[value|]];
      try (inversion E7; reflexivity).
    apply bind_Ok in E7. destruct E7 as (db7 & s8 & _ & E7).
    cbv zeta in E7.
    apply bind_Ok in E7. destruct E7 as (new & s9 & _ & E7).
    inversion E7. reflexivity. }
  intros i. rewrite Ha, !in_map_iff.
  split; intros [u [Hid Hin]]; exists u; (split; [exact Hid|]).
  - apply answer_In in Hin. now apply answer_In.
  - apply answer_In in Hin. now apply answer_In.
Qed.

(** X9: A successful update with [assignee_ids] replaces the assignees of the
    task by the listed users: an id is an assignee afterwards exactly when
    it was listed. *)
Theorem update_task_replaces_assignees
    (task_id : Z) (task_update : TaskUpdate.t) (current_user : User.t)
    (clock : Clock.t) (healthy : option nat) (db : DB)
    (ids : list Z) (t' : Task.t) (n : nat) (db' : DB) :
  NoDup (map User.id (users db)) ->
  TaskUpdate.assignee_ids task_update = Present (Some ids) ->
  serve (update_task task_id task_update current_user) clock healthy db
  = (Ok (t', n), db') ->
  find_task task_id db' = Some t'
  /\ forall i, In i (Task.assignees t') <-> In i ids.
Proof.
  intros Hnd Hids Hrun.
  pose proof (update_task_outcome task_id task_update current_user clock
                                  healthy db) as H.
  rewrite Hrun in H. destruct H as (old & s' & _ & Hf & Hnew).
  split; [exact Hnew|].
  apply (update_fields_assignees _ _ _ _ _ _ _ ids Hids) in Hf.
  cbn [view] in Hf. destruct Hf as [Ha Hlen].
  unfold users_in in Hlen. rewrite answer_length in Hlen.
  apply (filter_by_keys_complete User.id (users db) ids Hnd) in Hlen.
  destruct Hlen as [_ Hall]. intros i. rewrite Ha. split.
  - intros Hin. apply in_map_iff in Hin. destruct Hin as [u [<- Hu]].
    apply users_in_In in Hu. now apply mem_In.
  - intros Hin. specialize (Hall i Hin). apply in_map_iff in Hall.
    destruct Hall as [u [<- Hu]]. apply in_map. apply users_in_In.
    split; [exact Hu | now apply mem_In].
Qed.

Lemma update_task_replaces_assignees_witness :
  exists t' n db',
    serve (update_task 1 (assignees_update [1]) alice) afternoon None family_db
    = (Ok (t', n), db')
    /\ find_task 1 db' = Some t'
    /\ forall i, In i (Task.assignees t') <-> In i [1].
Proof.
  do 3 eexists. split; [reflexivity|].
  eapply (update_task_replaces_assignees 1 (assignees_update [1]) alice afternoon
            None family_db [1]).
  - repeat constructor. simpl. tauto.
  - reflexivity.
  - reflexivity.
Defined.

(* ===================================================================== *)
(** ** Bulk update: a status for all the listed tasks *)
(* ===================================================================== *)

Lemma bulk_status_id (v : TaskStatus) (clock : Clock.t) (t : Task.t) :
  Task.id (bulk_status v clock t) = Task.id t.
Proof.
  unfold bulk_status. cbv zeta.
  destruct (TaskStatus_eqb (Task.status t) v);
    [reflexivity|]. destruct (TaskStatus_eqb v COMPLETED); reflexivity.
Qed.

Lemma bulk_update_one_status (ids : list Z) (v : TaskStatus) (user_id : Z)
    (task : Task.t) (s : Session) :
  exists s',
    bulk_update_one (bulk_for ids (Present (Some v)) Unset) user_id task s
    = (Ok tt, s')
    /\ tasks (view s')
       = tasks (replace_task (bulk_status v (utcnow s) task) (view s))
    /\ stored s' = stored s /\ utcnow s' = utcnow s
    /\ null_pending s' = null_pending s
    /\ commits_left s' = commits_left s.
Proof.
  unfold bulk_update_one, bulk_for, bulk_update_column, bulk_status.
  cbn [TaskBulkUpdate.status TaskBulkUpdate.priority
       TaskBulkUpdate.assignee_ids TaskBulkUpdate.tag_names].
  destruct (TaskStatus_eqb (Task.status task) v).
  - eexists. split; [reflexivity|]. repeat split.
  - destruct v; cbn [is_completed TaskStatus_eqb];
      eexists; (split; [reflexivity|]); repeat split.
Qed.

Lemma for_each_bulk_status (ids : list Z) (v : TaskStatus) (user_id : Z)
    (found : list Task.t) (s : Session) :
  exists s',
    for_each found
      (bulk_update_one (bulk_for ids (Present (Some v)) Unset) user_id) s
    = (Ok tt, s')
    /\ tasks (view s')
       = fold_left
           (fun l t =>
              map (fun r => if Task.id r =? Task.id t
                            then bulk_status v (utcnow s) t else r) l)
           found (tasks (view s))
    /\ stored s' = stored s /\ utcnow s' = utcnow s
    /\ null_pending s' = null_pending s
    /\ commits_left s' = commits_left s.
Proof.
  revert s. induction found as [|t found IH]; intros s.
  - exists s. repeat split.
  - destruct (bulk_update_one_status ids v user_id t s)
      as (s1 & E1 & T1 & St1 & C1 & N1 & L1).
    destruct (IH s1) as (s' & E & T & St & C & N & L).
    exists s'. cbn [for_each]. rewrite (bind_Ok_run _ _ _ _ _ E1).
    split; [exact E|]. cbn [fold_left].
    rewrite T, T1, C1. unfold replace_task. cbn [tasks].
    rewrite bulk_status_id. repeat split; congruence.
Qed.

(** Replacing, one after the other, the rows of some tasks of the table by
    their images replaces the rows whose key is among theirs. *)
Lemma fold_replace_map (g : Task.t -> Task.t) (l0 : list Task.t)
    (found done : list Task.t) :
  NoDup (map Task.id l0) ->
  (forall t, Task.id (g t) = Task.id t) ->
  (forall t, In t found -> In t l0) ->
  fold_left (fun l t =>
               map (fun r => if Task.id r =? Task.id t then g t else r) l)
            found
            (map (fun r => if Py.mem (Task.id r) (map Task.id done)
                           then g r else r) l0)
  = map (fun r => if Py.mem (Task.id r) (map Task.id (found ++ done))
                  then g r else r) l0.
Proof.
  intros Hnd Hg. revert done.
  induction found as [|t found IH]; intros done Hin; [reflexivity|].
  cbn [fold_left]. rewrite map_map.
  assert (Hstep : map (fun r =>
                         if Task.id (if Py.mem (Task.id r) (map Task.id done)
                                     then g r else r) =? Task.id t
                         then g t
                         else if Py.mem (Task.id r) (map Task.id done)
                              then g r else r) l0
                  = map (fun r => if Py.mem (Task.id r)
                                            (map Task.id (t :: done))
                                  then g r else r) l0).
  { apply map_ext_in. intros r Hr.
    assert (Hidr : Task.id (if Py.mem (Task.id r) (map Task.id done)
                            then g r else r) = Task.id r).
    { destruct (Py.mem _ _); [apply Hg | reflexivity]. }
    rewrite Hidr. cbn [map]. unfold Py.mem at 2. cbn [existsb].
    fold (Py.mem (Task.id r) (map Task.id done)).
    destruct (Task.id r =? Task.id t) eqn:E; [|reflexivity].
    apply Z.eqb_eq in E. cbn [orb].
    assert (r = t).
    { apply (NoDup_key_inj Task.id l0 r t Hnd Hr); [|exact E].
      apply Hin. now left. }
    now subst. }
  rewrite Hstep. rewrite (IH (t :: done)).
  - apply map_ext. intros r.
    assert (Hm : Py.mem (Task.id r) (map Task.id (found ++ t :: done))
                 = Py.mem (Task.id r) (map Task.id ((t :: found) ++ done))).
    { apply eq_true_iff_eq. rewrite !mem_In, !in_map_iff.
      split; intros [x [Hx Hi]]; exists x; (split; [exact Hx|]);
        apply in_app_iff; apply in_app_iff in Hi; simpl in *; tauto. }
    now rewrite Hm.
  - intros x Hx. apply Hin. now right.
Qed.

(** X24: A bulk update of the status over distinct keys of existing tasks
    succeeds and answers the number of keys; afterwards every listed task
    has that status and the other rows are as they were. A listed task
    that had the status already is not touched; one that changes to
    "completed" receives its completion time. *)
Theorem bulk_update_sets_status
    (ids : list Z) (v : TaskStatus) (current_user : User.t)
    (clock : Clock.t) (db : DB) :
  NoDup (map Task.id (tasks db)) ->
  NoDup ids ->
  (forall i, In i ids -> In i (map Task.id (tasks db))) ->
  exists db',
    serve (bulk_update_tasks (bulk_for ids (Present (Some v)) Unset)
                             current_user) clock None db
    = (Ok (("Successfully updated "
            ++ Py.str_int (Z.of_nat (List.length ids)) ++ " tasks")%string,
           ids), db')
    /\ tasks db'
       = map (fun r => if Py.mem (Task.id r) ids
                       then bulk_status v clock r else r) (tasks db)
    /\ forall t, In t (tasks db') -> In (Task.id t) ids ->
                 Task.status t = v.
Proof.
  intros Hnd Hids Hall.
  assert (Hlen : List.length (tasks_in ids db) = List.length ids).
  { unfold tasks_in. rewrite answer_length.
    apply (filter_by_keys_complete Task.id (tasks db) ids Hnd). tauto. }
  unfold serve, bulk_update_tasks.
  cbn [TaskBulkUpdate.task_ids bulk_for].
  rewrite bind_run. cbn [query view]. rewrite Hlen, Nat.eqb_refl.
  destruct (for_each_bulk_status ids v (User.id current_user)
              (tasks_in ids db) (mkSession db db false clock None))
    as (s' & E & T & St & C & N & L).
  cbn [view stored utcnow null_pending commits_left] in *.
  unfold bulk_for in E. rewrite (bind_Ok_run _ _ _ _ _ E).
  cbv [bind commit ret]. rewrite N, L. cbn [stored fst snd].
  assert (Htasks : tasks (view s')
                   = map (fun r => if Py.mem (Task.id r) ids
                                   then bulk_status v clock r else r)
                         (tasks db)).
  { rewrite T.
    pose proof (fold_replace_map (bulk_status v clock) (tasks db)
                  (tasks_in ids db) [] Hnd (bulk_status_id v clock)) as H.
    assert (H0 : map (fun r => if Py.mem (Task.id r) (map Task.id [])
                               then bulk_status v clock r else r) (tasks db)
                 = tasks db).
    { rewrite <- (map_id (tasks db)) at 2. apply map_ext. reflexivity. }
    rewrite H0, app_nil_r in H. rewrite H.
    - apply map_ext. intros r.
      assert (Hm : Py.mem (Task.id r) (map Task.id (tasks_in ids db))
                   = Py.mem (Task.id r) ids
                     && Py.mem (Task.id r) (map Task.id (tasks db))).
      { apply eq_true_iff_eq. rewrite andb_true_iff, !mem_In.
        rewrite !in_map_iff. split.
        - intros [x [Hx Hi]]. apply tasks_in_In in Hi. destruct Hi as [Hi Hm].
          rewrite <- Hx. split; [now apply mem_In|]. now exists x.
        - intros [Hi [x [Hx Hin]]]. exists x. split; [exact Hx|].
          apply tasks_in_In. split; [exact Hin|]. rewrite Hx.
          now apply mem_In. }
      rewrite Hm. destruct (Py.mem (Task.id r) ids) eqn:Em; [|reflexivity].
      apply mem_In in Em. apply Hall in Em. apply mem_In in Em.
      now rewrite Em.
    - intros t Ht. apply tasks_in_In in Ht. tauto. }
  eexists. split; [reflexivity|]. split; [exact Htasks|].
  intros t Ht Hin. rewrite Htasks in Ht. apply in_map_iff in Ht.
  destruct Ht as [r [<- Hr]].
  destruct (Py.mem (Task.id r) ids) eqn:Em.
  - unfold bulk_status.
    destruct (TaskStatus_eqb (Task.status r) v) eqn:E1;
      [now apply TaskStatus_eqb_eq|].
    destruct (TaskStatus_eqb v COMPLETED); reflexivity.
  - apply mem_In in Hin. congruence.
Qed.

Lemma bulk_update_sets_status_witness :
  exists db',
    serve (bulk_update_tasks (bulk_for [2; 1] (Present (Some COMPLETED))
                                       Unset) alice) afternoon None family_db
    = (Ok ("Successfully updated 2 tasks", [2; 1]), db')
    /\ map Task.status (tasks db') = [COMPLETED; COMPLETED]
    /\ map Task.completed_at (tasks db')
       = [Some (afternoon Clock.tasks_completed_at 1);
          Some (afternoon Clock.tasks_completed_at 2)].
Proof.
  destruct (bulk_update_sets_status [2; 1] COMPLETED alice afternoon family_db)
    as (db' & Hrun & Htasks & _).
  - exact family_keys.
  - repeat constructor; simpl; intuition discriminate.
  - intros i [<-|[<-|[]]]; simpl; tauto.
  - exists db'. split; [exact Hrun|]. rewrite Htasks. split; reflexivity.
Defined.

(* ===================================================================== *)
(** ** Task creation: the tags of the new task *)
(* ===================================================================== *)

(** The tags the loop resolves carry the lowercased names, in order; they
    are rows of the table, which only grows and keeps its keys unique. *)
Lemma append_tags_names (names : list string) (collection : list Tag.t)
    (s : Session) (r : list Tag.t) (s' : Session) :
  append_tags names collection s = (Ok r, s') ->
  exists new,
    r = collection ++ new
    /\ map Tag.name new = map Py.lower names
    /\ (forall g, In g new -> In g (tags (view s')))
    /\ (forall g, In g (tags (view s)) -> In g (tags (view s')))
    /\ (NoDup (map Tag.id (tags (view s))) ->
        NoDup (map Tag.id (tags (view s')))).
Proof.
  revert collection s. induction names as [|n names IH];
    intros collection s H.
  - inversion H. subst. exists []. rewrite app_nil_r. repeat split; auto.
    intros g [].
  - cbn [append_tags] in H. apply bind_Ok in H.
    destruct H as (g & s1 & E1 & H).
    apply IH in H. destruct H as (new & -> & Hn & Hin & Hmono & Hnd).
    pose proof (get_or_create_tag_spec n s) as Hspec. rewrite E1 in Hspec.
    destruct Hspec as (Hname & Hg & _ & _).
    assert (Hstep : (forall x, In x (tags (view s)) ->
                               In x (tags (view s1)))
                    /\ (NoDup (map Tag.id (tags (view s))) ->
                        NoDup (map Tag.id (tags (view s1))))).
    { rewrite get_or_create_tag_run in E1.
      destruct (hd_error _) in E1.
      - inversion E1. subst. tauto.
      - cbv zeta in E1. destruct (null_pending s); [discriminate|].
        inversion E1. subst. cbn [view tags with_tags]. split.
        + intros x Hx. apply in_or_app. now left.
        + intros Hd. rewrite map_app. apply NoDup_app; [exact Hd | |].
          * repeat constructor. simpl. tauto.
          * intros x Hx [<-|[]]. now apply next_id_fresh in Hx. }
    destruct Hstep as [Hm1 Hd1].
    exists (g :: new). rewrite <- app_assoc. split; [reflexivity|].
    split; [cbn [map]; now rewrite Hname, Hn|].
    split; [intros x [<-|Hx]; [now apply Hmono | now apply Hin]|].
    split; [intros x Hx; now apply Hmono, Hm1|].
    intros Hd. now apply Hnd, Hd1.
Qed.

(** X5: The tags of a created task are named by the lowercased names of the
    request, and by nothing else. *)
Theorem create_task_tag_names
    (task : TaskCreate.t) (current_user : User.t) (clock : Clock.t)
    (healthy : option nat) (db : DB) (t : Task.t) (n : nat) (db' : DB) :
  NoDup (map Tag.id (tags db)) ->
  serve (create_task task current_user) clock healthy db = (Ok (t, n), db') ->
  forall name,
    In name (map Tag.name (Task_tags db' t))
    <-> In name (map Py.lower match TaskCreate.tag_names task with
                              | Some names => names
                              | None => []
                              end).
Proof.
  intros Hnd H. unfold serve in H.
  destruct (create_task _ _ _) as [r s] eqn:E. inversion H. subst r db'.
  clear H. unfold create_task in E.
  apply bind_Ok in E. destruct E as (u & s1 & E0 & E).
  apply create_task_parent_check in E0. subst s1.
  apply bind_Ok in E. destruct E as (assignees & s1 & E1 & E).
  apply create_task_assignee_check in E1. subst s1.
  apply bind_Ok in E. destruct E as (tags1 & s1 & E2 & E).
  set (names := match TaskCreate.tag_names task with
                | Some names => names
                | None => []
                end).
  assert (Htags : map Tag.name tags1 = map Py.lower names
                  /\ (forall g, In g tags1 -> In g (tags (view s1)))
                  /\ NoDup (map Tag.id (tags (view s1)))
                  /\ null_pending s1 = false).
  { subst names. destruct (TaskCreate.tag_names task) as [[|x l]|].
    - inversion E2. subst. repeat split; auto. intros g [].
    - pose proof (append_tags_frame _ _ _ _ _ E2) as (_ & Hnull & _).
      apply append_tags_names in E2.
      destruct E2 as (new & -> & Hn & Hin & _ & Hd).
      repeat split; auto.
    - inversion E2. subst. repeat split; auto. intros g []. }
  destruct Htags as (Hn & Hin & Hd & Hnull). clear E2.
  cbv [bind query now set_view commit log_task_history ret] in E.
  cbn [view stored null_pending utcnow commits_left] in E.
  rewrite Hnull in E.
  assert (Hdb : tags (stored s) = tags (view s1)
                /\ Task.tags t = map Tag.id tags1).
  { destruct (commits_left s1) as [[|[|k]]|]; cbn -[next_id json_dumps] in E;
      inversion E; subst; split; reflexivity. }
  destruct Hdb as [Hg Ht]. clear E.
  intros name. rewrite <- Hn. unfold Task_tags.
  rewrite !in_map_iff. split.
  - intros [g [Hname Hgin]]. apply answer_In in Hgin.
    rewrite Hg, Ht in Hgin. apply filter_In in Hgin.
    destruct Hgin as [Hgin Hmem]. apply mem_In in Hmem.
    apply in_map_iff in Hmem. destruct Hmem as [g0 [Hid0 Hg0]].
    exists g0. split; [|exact Hg0].
    rewrite <- Hname. f_equal.
    apply (NoDup_key_inj Tag.id (tags (view s1)) g0 g Hd);
      [now apply Hin | exact Hgin | exact Hid0].
  - intros [g [Hname Hgin]]. exists g. split; [exact Hname|].
    apply answer_In. rewrite Hg, Ht. apply filter_In.
    split; [now apply Hin|]. apply mem_In. now apply in_map.
Qed.

Lemma create_task_tag_names_witness :
  exists t n db',
    serve (create_task (urgent_twice "t" None None) alice) afternoon None empty_db
    = (Ok (t, n), db')
    /\ forall name,
         In name (map Tag.name (Task_tags db' t))
         <-> In name (map Py.lower ["Urgent"; "urgent"]).
Proof.
  do 3 eexists. split; [reflexivity|].
  eapply (create_task_tag_names (urgent_twice "t" None None) alice afternoon None
            empty_db).
  - constructor.
  - reflexivity.
Defined.

(** C6: the tag resolver looks the lowercased name up and returns the tag
    found, creating a tag (under the lowercased name, with a fresh key)
    only when there is none; so a task created with
    [tag_names = ["Urgent"; "urgent"]] is stored with exactly one tag,
    named "urgent": loading its tags answers that one row of [tags], every
    entry of its collection refers to it, and at most that one row was
    added to [tags]. Such a creation does succeed when the parent and the
    assignees resolve and the store is healthy. *)
Theorem tag_resolution_normalizes :
  (forall (tag_name : string) (s : Session),
     match get_or_create_tag tag_name s with
     | (Ok g, s') =>
         Tag.name g = Py.lower tag_name
         /\ In g (tags (view s'))
         /\ ((exists g0, In g0 (tags (view s))
                         /\ Tag.name g0 = Py.lower tag_name) ->
             In g (tags (view s)) /\ s' = s)
         /\ ((forall g0, In g0 (tags (view s)) ->
                         Tag.name g0 <> Py.lower tag_name) ->
             tags (view s') = tags (view s) ++ [g]
             /\ ~ In (Tag.id g) (map Tag.id (tags (view s))))
     | (Raise _, _) =>
         null_pending s = true
         /\ forall g0, In g0 (tags (view s)) ->
                       Tag.name g0 <> Py.lower tag_name
     end)
  /\ (forall (task : TaskCreate.t) (current_user : User.t)
             (clock : Clock.t) (healthy : option nat) (db : DB),
        TaskCreate.tag_names task = Some ["Urgent"; "urgent"] ->
        NoDup (map Tag.id (tags db)) ->
        match serve (create_task task current_user) clock healthy db with
        | (Ok (t, _), db') =>
            In t (tasks db')
            /\ exists g,
                 Tag.name g = "urgent"
                 /\ In g (tags db')
                 /\ Task_tags db' t = [g]
                 /\ Forall (fun i => i = Tag.id g) (Task.tags t)
                 /\ (tags db' = tags db \/ tags db' = tags db ++ [g])
        | (Raise _, _) => True
        end)
  /\ (forall (task : TaskCreate.t) (current_user : User.t)
             (clock : Clock.t) (db : DB),
        TaskCreate.tag_names task = Some ["Urgent"; "urgent"] ->
        NoDup (map User.id (users db)) ->
        parent_accepted (TaskCreate.parent_task_id task) db ->
        match TaskCreate.assignee_ids task with
        | Some ids => users_resolve ids db
        | None => True
        end ->
        exists t n db',
          serve (create_task task current_user) clock None db
          = (Ok (t, n), db')).
Proof.
  split; [exact get_or_create_tag_spec|]. split.
  2: { intros task current_user clock db _ Hnd Hparent Hres.
       destruct (create_task_runs task current_user clock db Hnd Hparent
                                  Hres) as (tag_ids & n & db' & Hrun & _).
       eexists. exists n, db'. exact Hrun. }
  intros task current_user clock healthy db Htags Hnd. unfold serve.
  destruct (create_task _ _ _) as [[[t n]|e] s] eqn:E; [|trivial].
  unfold create_task in E. rewrite Htags in E.
  apply bind_Ok in E. destruct E as (u & s1 & E0 & E).
  apply create_task_parent_check in E0. subst s1.
  apply bind_Ok in E. destruct E as (assignees & s1 & E1 & E).
  apply create_task_assignee_check in E1. subst s1.
  apply bind_Ok in E. destruct E as (tags1 & s1 & E2 & E).
  apply append_tags_urgent_twice in E2; [|reflexivity].
  destruct E2 as (g & -> & Hname & Hcase).
  assert (Hjoin : forall (before : Tag.t -> Tag.t -> bool) l,
            NoDup (map Tag.id l) -> In g l ->
            Store.arrange before
              (filter (fun g0 => Py.mem (Tag.id g0) [Tag.id g; Tag.id g]) l)
            = [g]).
  { intros before l Hl Hin.
    rewrite (filter_ext _ (fun y => Tag.id y =? Tag.id g)).
    - now rewrite (filter_unique_key Tag.id _ g Hl Hin).
    - intros a. cbn. destruct (Tag.id a =? Tag.id g); reflexivity. }
  cbv [bind query now set_view commit log_task_history ret] in E.
  destruct Hcase as [[Hin ->]|[Hfresh ->]];
    cbn -[json_dumps Store.answer next_id] in E.
  - destruct healthy as [[|[|k]]|]; inversion E; subst t s;
      unfold Task_tags, Store.answer;
      cbn -[json_dumps Store.arrange next_id];
      (split; [apply in_or_app; right; now left|]);
      exists g; (split; [exact Hname|]); (split; [exact Hin|]);
      (split; [apply (Hjoin _ _ Hnd Hin)|]);
      (split; [repeat constructor | now left]).
  - assert (Hnd' : NoDup (map Tag.id (tags db ++ [g]))).
    { rewrite map_app. apply NoDup_app; [exact Hnd | | ].
      - repeat constructor. simpl. tauto.
      - intros x Hx [<-|[]]. contradiction. }
    assert (Hin' : In g (tags db ++ [g])).
    { apply in_or_app. right. now left. }
    destruct healthy as [[|[|k]]|]; inversion E; subst t s;
      unfold Task_tags, Store.answer;
      cbn -[json_dumps Store.arrange next_id];
      (split; [apply in_or_app; right; now left|]);
      exists g; (split; [exact Hname|]); (split; [exact Hin'|]);
      (split; [apply (Hjoin _ _ Hnd' Hin')|]);
      (split; [repeat constructor | now right]).
Qed.

Lemma tag_resolution_witness :
  exists t n db',
    serve (create_task (urgent_twice "t" None None) alice) afternoon None
          empty_db
    = (Ok (t, n), db')
    /\ In t (tasks db')
    /\ exists g,
         Tag.name g = "urgent"
         /\ In g (tags db')
         /\ Task_tags db' t = [g]
         /\ Forall (fun i => i = Tag.id g) (Task.tags t)
         /\ (tags db' = tags empty_db \/ tags db' = tags empty_db ++ [g]).
Proof.
  do 3 eexists. split; [reflexivity|].
  exact (proj1 (proj2 tag_resolution_normalizes)
               (urgent_twice "t" None None) alice afternoon None empty_db
               eq_refl (NoDup_nil Z)).
Defined.
